(** * MarkItWrite: dispatcher and writers, embedded in Rocq

    A shallow embedding of the Python package [markitwrite]:
    - [_base_writer.py]   : [WriteResult], [DocumentWriter.accepts]
    - [_markitwrite.py]   : the dispatcher [MarkItWrite]
    - [writers/_markdown_writer.py], [_docx_writer.py], [_pptx_writer.py]

    Conventions.
    - A Python [str] is a [string]: a sequence of characters with code
      points below 256.  [bytes] is a list of [byte].
    - Exceptions are values of [exn]; a call that may raise is a
      computation in [M], which threads the state and returns [exn + A].
    - Streams are seekable binary streams ([io.BytesIO], files opened
      for reading): a buffer and a read position, kept in a store
      indexed by addresses, so that two names of one stream share its
      position.
    - The file system, the text codec and the [mimetypes] tables are the
      operations of the class [Platform]; python-docx and python-pptx are
      the classes [DocxBackend] and [PptxBackend].  The writers are
      verified against these interfaces; [Ref] gives one instance of
      each, on which the model runs.
    - The [position], [size] and keyword dictionaries are records with
      one optional field per key that the code looks up, each of the
      documented type of its value, so that [int(...)] and [float(...)]
      succeed.  Priorities are rational numbers. *)

From Stdlib Require Import ZArith QArith String Ascii List Lia Bool.
From Stdlib Require Import Strings.Byte Sorting.Sorted Sorting.Permutation.
From Stdlib Require Import Structures.OrderedTypeEx.
From stdpp Require Import gmap strings list.
Import ListNotations.

Local Open Scope string_scope.

(* ================================================================== *)
(** * Python strings *)
(* ================================================================== *)

Module Py.

(** [str.lower()] on one character: A-Z, and the Latin-1 capitals
    U+00C0..U+00DE except the multiplication sign U+00D7. *)
Definition lower_char (c : ascii) : ascii :=
  let n := N_of_ascii c in
  if (((65 <=? n) && (n <=? 90)) ||
      ((192 <=? n) && (n <=? 222) && negb (n =? 215)))%N
  then ascii_of_N (n + 32)
  else c.

(** [s.lower()] *)
Fixpoint lower (s : string) : string :=
  match s with
  | EmptyString => EmptyString
  | String c s' => String (lower_char c) (lower s')
  end.

(** [s.startswith(p)] *)
Fixpoint startswith (s p : string) : bool :=
  match p, s with
  | EmptyString, _ => true
  | String _ _, EmptyString => false
  | String a p', String b s' => Ascii.eqb a b && startswith s' p'
  end.

(** truthiness of a [str] *)
Definition nonempty (s : string) : bool :=
  match s with EmptyString => false | String _ _ => true end.

(** truthiness of an [Optional[str]]: [None] and [""] are falsy *)
Definition truthy (o : option string) : bool :=
  match o with Some s => nonempty s | None => false end.

(** [x or d] for an optional string *)
Definition or_else (o : option string) (d : string) : string :=
  match o with
  | Some s => if nonempty s then s else d
  | None => d
  end.

(** [sub in s] *)
Fixpoint contains (s sub : string) : bool :=
  startswith s sub ||
  match s with
  | EmptyString => false
  | String _ s' => contains s' sub
  end.

(** [c.isspace()] for code points below 256: TAB..CR, FS..US, SPACE,
    NEL (U+0085) and NBSP (U+00A0). *)
Definition isspace (c : ascii) : bool :=
  let n := N_of_ascii c in
  (((9 <=? n) && (n <=? 13)) || ((28 <=? n) && (n <=? 32)) ||
   (n =? 133) || (n =? 160))%N.

(** [s.lstrip()] *)
Fixpoint lstrip (s : string) : string :=
  match s with
  | EmptyString => EmptyString
  | String c s' => if isspace c then lstrip s' else s
  end.

(** [s.rstrip()] *)
Fixpoint rstrip (s : string) : string :=
  match s with
  | EmptyString => EmptyString
  | String c s' =>
      match rstrip s' with
      | EmptyString => if isspace c then EmptyString else String c EmptyString
      | r => String c r
      end
  end.

(** [s.split("\n")]: never empty, one more piece than newlines *)
Fixpoint split_lines (s : string) : list string :=
  match s with
  | EmptyString => [EmptyString]
  | String c s' =>
      if Ascii.eqb c "010"%char then EmptyString :: split_lines s'
      else match split_lines s' with
           | l :: ls => String c l :: ls
           | [] => [String c EmptyString]
           end
  end.

(** [sep.join(l)] *)
Fixpoint join (sep : string) (l : list string) : string :=
  match l with
  | [] => EmptyString
  | [x] => x
  | x :: (_ :: _) as xs => x +:+ sep +:+ join sep xs
  end.

(** [s[n:]] and [s[:n]] for [0 <= n] *)
Fixpoint drop (n : nat) (s : string) : string :=
  match n, s with
  | O, _ => s
  | S _, EmptyString => EmptyString
  | S n', String _ s' => drop n' s'
  end.

Fixpoint take (n : nat) (s : string) : string :=
  match n, s with
  | O, _ => EmptyString
  | S _, EmptyString => EmptyString
  | S n', String c s' => String c (take n' s')
  end.

(** [s[i:i+1]] for [0 <= i] *)
Definition char_at (i : nat) (s : string) : string := take 1 (drop i s).

(** [s.rfind(c)] for a one-character [c]: the highest index, or [-1] *)
Fixpoint rfind_aux (c : ascii) (s : string) (i last : Z) : Z :=
  match s with
  | EmptyString => last
  | String a s' => rfind_aux c s' (i + 1) (if Ascii.eqb a c then i else last)
  end.

Definition rfind (c : ascii) (s : string) : Z := rfind_aux c s 0 (-1).

(** [lst.insert(i, x)] for [0 <= i]: past the end it appends *)
Fixpoint list_insert_at {A} (i : nat) (x : A) (l : list A) : list A :=
  match i, l with
  | O, _ => x :: l
  | S _, [] => [x]
  | S i', y :: l' => y :: list_insert_at i' x l'
  end.

(** ** [os.path] (POSIX flavour) *)

(** the [while] loop of [genericpath._splitext]: the first character of
    the file name that is not a dot decides that there is an extension *)
Fixpoint splitext_loop (fuel : nat) (p : string) (filenameIndex dotIndex : Z)
  : option (string * string) :=
  match fuel with
  | O => None
  | S fuel' =>
      if (filenameIndex <? dotIndex)%Z then
        if negb (String.eqb (char_at (Z.to_nat filenameIndex) p) ".")
        then Some (take (Z.to_nat dotIndex) p, drop (Z.to_nat dotIndex) p)
        else splitext_loop fuel' p (filenameIndex + 1) dotIndex
      else None
  end.

(** [os.path.splitext(p)] *)
Definition splitext (p : string) : string * string :=
  let sepIndex := rfind "/"%char p in
  let dotIndex := rfind "."%char p in
  if (dotIndex >? sepIndex)%Z then
    match splitext_loop (String.length p) p (sepIndex + 1) dotIndex with
    | Some r => r
    | None => (p, EmptyString)
    end
  else (p, EmptyString).

(** [os.path.dirname(p)] *)
Definition dirname (p : string) : string :=
  let i := Z.to_nat (rfind "/"%char p + 1) in
  let head := take i p in
  let all_slashes :=
    (fix go (s : string) : bool :=
       match s with
       | EmptyString => true
       | String c s' => Ascii.eqb c "/"%char && go s'
       end) head in
  let rstrip_slash :=
    (fix go (s : string) : string :=
       match s with
       | EmptyString => EmptyString
       | String c s' =>
           match go s' with
           | EmptyString =>
               if Ascii.eqb c "/"%char then EmptyString
               else String c EmptyString
           | r => String c r
           end
       end) in
  if nonempty head && negb all_slashes then rstrip_slash head else head.

(** [os.path.join(a, b)] *)
Definition path_join (a b : string) : string :=
  if startswith b "/" then b
  else if negb (nonempty a) || String.eqb (drop (String.length a - 1) a) "/"
       then a +:+ b
       else a +:+ "/" +:+ b.

End Py.

(** the newline character and the one-character string ["\n"] *)
Definition nl : string := String "010"%char EmptyString.

(* ================================================================== *)
(** * Bytes and [base64] *)
(* ================================================================== *)

Definition bytes := list byte.

Module Base64.

(** six bits, most significant first *)
Definition sextet : Type := bool * bool * bool * bool * bool * bool.

Definition alphabet : string :=
  "ABCDEFGHIJKLMNOPQRSTUVWXYZabcdefghijklmnopqrstuvwxyz0123456789+/".

Definition pad : ascii := "="%char.

Definition bit (b : bool) (w : nat) : nat := if b then w else 0.

Definition sextet_index (s : sextet) : nat :=
  let '(b5, b4, b3, b2, b1, b0) := s in
  bit b5 32 + bit b4 16 + bit b3 8 + bit b2 4 + bit b1 2 + bit b0 1.

Definition sextet_of_index (n : nat) : sextet :=
  let t := fun k => N.testbit (N.of_nat n) k in
  (t 5%N, t 4%N, t 3%N, t 2%N, t 1%N, t 0%N).

(** the character of a six-bit value *)
Definition char_of (s : sextet) : ascii :=
  match String.get (sextet_index s) alphabet with
  | Some c => c
  | None => pad
  end.

Fixpoint index_of (c : ascii) (s : string) (i : nat) : option nat :=
  match s with
  | EmptyString => None
  | String a s' => if Ascii.eqb a c then Some i else index_of c s' (S i)
  end.

(** the six-bit value of a character of the alphabet *)
Definition value_of (c : ascii) : option sextet :=
  match index_of c alphabet 0 with
  | Some n => Some (sextet_of_index n)
  | None => None
  end.

(** three bytes as four sextets; absent bytes count as zero *)
Definition group (a b c : byte) : sextet * sextet * sextet * sextet :=
  let '(a0, (a1, (a2, (a3, (a4, (a5, (a6, a7))))))) := Byte.to_bits a in
  let '(b0, (b1, (b2, (b3, (b4, (b5, (b6, b7))))))) := Byte.to_bits b in
  let '(c0, (c1, (c2, (c3, (c4, (c5, (c6, c7))))))) := Byte.to_bits c in
  ((a7, a6, a5, a4, a3, a2), (a1, a0, b7, b6, b5, b4),
   (b3, b2, b1, b0, c7, c6), (c5, c4, c3, c2, c1, c0)).

(** four sextets as three bytes *)
Definition ungroup (s1 s2 s3 s4 : sextet) : byte * byte * byte :=
  let '(a7, a6, a5, a4, a3, a2) := s1 in
  let '(a1, a0, b7, b6, b5, b4) := s2 in
  let '(b3, b2, b1, b0, c7, c6) := s3 in
  let '(c5, c4, c3, c2, c1, c0) := s4 in
  (Byte.of_bits (a0, (a1, (a2, (a3, (a4, (a5, (a6, a7))))))),
   Byte.of_bits (b0, (b1, (b2, (b3, (b4, (b5, (b6, b7))))))),
   Byte.of_bits (c0, (c1, (c2, (c3, (c4, (c5, (c6, c7)))))))).

(** [base64.b64encode(data).decode("utf-8")]: the standard alphabet,
    padded with [=]; the output is ASCII, so decoding it as text keeps
    every character. *)
Fixpoint b64encode (data : bytes) : string :=
  match data with
  | [] => EmptyString
  | [a] =>
      let '(s1, s2, _, _) := group a x00 x00 in
      String (char_of s1) (String (char_of s2) (String pad (String pad EmptyString)))
  | [a; b] =>
      let '(s1, s2, s3, _) := group a b x00 in
      String (char_of s1) (String (char_of s2)
        (String (char_of s3) (String pad EmptyString)))
  | a :: b :: c :: rest =>
      let '(s1, s2, s3, s4) := group a b c in
      String (char_of s1) (String (char_of s2)
        (String (char_of s3) (String (char_of s4) (b64encode rest))))
  end.

Definition zero6 : sextet := (false, false, false, false, false, false).

(** [base64.b64decode(s)] on canonical input: groups of four alphabet
    characters, the last one possibly padded.  [None] stands for
    [binascii.Error]. *)
Fixpoint b64decode (s : string) : option bytes :=
  match s with
  | EmptyString => Some []
  | String c1 (String c2 (String c3 (String c4 rest))) =>
      if Ascii.eqb c4 pad then
        match rest with
        | EmptyString =>
            if Ascii.eqb c3 pad then
              match value_of c1, value_of c2 with
              | Some s1, Some s2 =>
                  let '(a, _, _) := ungroup s1 s2 zero6 zero6 in Some [a]
              | _, _ => None
              end
            else
              match value_of c1, value_of c2, value_of c3 with
              | Some s1, Some s2, Some s3 =>
                  let '(a, b, _) := ungroup s1 s2 s3 zero6 in Some [a; b]
              | _, _, _ => None
              end
        | String _ _ => None
        end
      else
        match value_of c1, value_of c2, value_of c3, value_of c4,
              b64decode rest with
        | Some s1, Some s2, Some s3, Some s4, Some tl =>
            let '(a, b, c) := ungroup s1 s2 s3 s4 in Some (a :: b :: c :: tl)
        | _, _, _, _, _ => None
        end
  | _ => None
  end.

End Base64.

(* ================================================================== *)
(** * Exceptions, the platform and the store of streams *)
(* ================================================================== *)

Inductive exn : Type :=
| ValueError (msg : string)
| ImportError (msg : string)
| IndexError (msg : string)
| OSError (msg : string)
| UnicodeDecodeError
| LibraryError (msg : string).

(** What the interpreter and the operating system provide: the file
    system behind [open], [os.path.isfile] and [os.makedirs], the
    [mimetypes] tables and the UTF-8 codec. *)
Class Platform := {
  world : Type;
  (** [open(p, "rb").read()] *)
  read_file : string -> world -> exn + bytes;
  (** [open(p, "wb").write(data)] *)
  write_file : string -> bytes -> world -> (exn + unit) * world;
  (** [os.path.isfile(p)] *)
  isfile : string -> world -> bool;
  (** [os.makedirs(p, exist_ok=True)] *)
  makedirs : string -> world -> (exn + unit) * world;
  (** [mimetypes.guess_type(p)[0]] *)
  guess_type : string -> option string;
  (** [mimetypes.guess_extension(m)] *)
  guess_extension : string -> option string;
  (** [b.decode("utf-8")] *)
  utf8_decode : bytes -> exn + string;
  (** [s.encode("utf-8")] *)
  utf8_encode : string -> bytes
}.

(** an [io.BytesIO]: its buffer and its read position *)
Record BytesIO := mkBytesIO { buf : bytes; pos : nat }.

Definition addr := nat.

Section Runtime.
Context {P : Platform}.

Record state := mkState {
  st_world : world;
  st_heap : gmap addr BytesIO
}.

(** computations that read and write the state and may raise *)
Definition M (A : Type) : Type := state -> (exn + A) * state.

Definition ret {A} (a : A) : M A := fun st => (inr a, st).

Definition raise {A} (e : exn) : M A := fun st => (inl e, st).

Definition bind {A B} (m : M A) (k : A -> M B) : M B :=
  fun st =>
    match m st with
    | (inl e, st') => (inl e, st')
    | (inr a, st') => k a st'
    end.

Definition lift {A} (r : exn + A) : M A :=
  match r with inl e => raise e | inr a => ret a end.

Definition closed_file : exn := ValueError "I/O operation on closed file.".

(** [stream.tell()] *)
Definition tell (l : addr) : M nat :=
  fun st =>
    match st_heap st !! l with
    | Some s => (inr (pos s), st)
    | None => (inl closed_file, st)
    end.

(** [stream.read()]: the bytes from the position to the end; the
    position moves to the end unless it is already past it *)
Definition read (l : addr) : M bytes :=
  fun st =>
    match st_heap st !! l with
    | Some s =>
        (inr (skipn (pos s) (buf s)),
         mkState (st_world st)
           (<[l := mkBytesIO (buf s) (Nat.max (pos s) (length (buf s)))]>
              (st_heap st)))
    | None => (inl closed_file, st)
    end.

(** [stream.seek(n)] *)
Definition seek (l : addr) (n : nat) : M unit :=
  fun st =>
    match st_heap st !! l with
    | Some s =>
        (inr tt, mkState (st_world st) (<[l := mkBytesIO (buf s) n]> (st_heap st)))
    | None => (inl closed_file, st)
    end.

(** [io.BytesIO(data)]: a new object at an address not yet in use *)
Definition new_BytesIO (data : bytes) : M addr :=
  fun st =>
    let l := fresh (dom (st_heap st)) in
    (inr l, mkState (st_world st) (<[l := mkBytesIO data 0]> (st_heap st))).

(** the platform's operations as computations *)
Definition open_read (path : string) : M bytes :=
  fun st => (read_file path (st_world st), st).

Definition open_write (path : string) (data : bytes) : M unit :=
  fun st =>
    let '(r, w) := write_file path data (st_world st) in
    (r, mkState w (st_heap st)).

Definition os_makedirs (path : string) : M unit :=
  fun st =>
    let '(r, w) := makedirs path (st_world st) in
    (r, mkState w (st_heap st)).

Definition os_isfile (path : string) : M bool :=
  fun st => (inr (isfile path (st_world st)), st).

End Runtime.

Notation "'let*' x ':=' m 'in' k" := (bind m (fun x => k))
  (at level 10, x pattern, m at level 100, k at level 200).

(** [lst[i]] with Python's negative indices *)
Definition py_index {A} (l : list A) (i : Z) : exn + A :=
  let n := Z.of_nat (length l) in
  let j := if (i <? 0)%Z then (i + n)%Z else i in
  if ((0 <=? j) && (j <? n))%Z then
    match nth_error l (Z.to_nat j) with
    | Some x => inr x
    | None => inl (IndexError "list index out of range")
    end
  else inl (IndexError "list index out of range").

(* ================================================================== *)
(** * [_base_writer.py] *)
(* ================================================================== *)

(** a length built by [Inches(x)] *)
Inductive Length : Type := Inches (x : Q).

(** The position hint: the keys the writers look up, each absent or
    present with a value of its documented type. *)
Record position_hint := mkPosition {
  paragraph : option Z;
  after_text : option string;
  slide : option Z;
  left : option Q;
  top : option Q;
  after_heading : option string
}.

Definition no_position : position_hint :=
  mkPosition None None None None None None.

(** The size hint, in inches. *)
Record size_hint := mkSize {
  width : option Q;
  height : option Q
}.

(** truthiness of the size dict *)
Definition size_truthy (s : option size_hint) : bool :=
  match s with
  | Some (mkSize None None) => false
  | Some _ => true
  | None => false
  end.

(** the keyword options the writers look up *)
Record kwargs := mkKwargs {
  kw_embed : option bool;
  kw_alt_text : option string;
  kw_mime_type : option string;
  kw_image_dir : option string;
  kw_image_filename : option string;
  kw_target_path : option string
}.

Definition no_kwargs : kwargs := mkKwargs None None None None None None.

(** the [metadata] dict of a result, one shape per writer *)
Inductive metadata : Type :=
| MarkdownMeta (embed : bool) (alt_text : string)
| DocxMeta (size : size_hint)
| PptxMeta (slide_count : nat) (size : size_hint).

Record WriteResult := mkWriteResult {
  output : bytes;
  target_format : string;
  images_inserted : nat;
  result_metadata : metadata
}.

Section Writers.
Context {P : Platform}.

(** [WriteResult.save] *)
Definition save (r : WriteResult) (path : string) : M unit :=
  open_write path (output r).

(** A [DocumentWriter]: its class attribute and its [insert_image]. *)
Record DocumentWriter := mkWriter {
  writer_class : string;
  ACCEPTED_EXTENSIONS : list string;
  insert_image :
    addr -> option addr -> string -> option position_hint ->
    option size_hint -> kwargs -> M WriteResult
}.

(** [x in lst] for strings *)
Definition str_in (x : string) (l : list string) : bool :=
  existsb (String.eqb x) l.

(** [DocumentWriter.accepts] *)
Definition accepts (self : DocumentWriter) (target_format : string) : bool :=
  let normalized := Py.lower target_format in
  let normalized :=
    if negb (Py.startswith normalized ".") then "." +:+ normalized
    else normalized in
  str_in normalized (ACCEPTED_EXTENSIONS self).

End Writers.

(* ================================================================== *)
(** * [writers/_markdown_writer.py] *)
(* ================================================================== *)

(** [position and key in position], then [position[key]] *)
Definition hint {A} (position : option position_hint)
    (key : position_hint -> option A) : option A :=
  match position with
  | Some p => key p
  | None => None
  end.

Section Markdown.
Context {P : Platform}.

(** the loop over [enumerate(lines)]: the index after the first line
    that is a heading and contains [heading] *)
Fixpoint find_heading (heading : string) (lines : list string) (i : nat)
  : option nat :=
  match lines with
  | [] => None
  | line :: rest =>
      if Py.startswith (Py.lstrip line) "#" && Py.contains line heading
      then Some (i + 1)
      else find_heading heading rest (i + 1)
  end.

(** the image reference of the embedded mode *)
Definition embedded_tag (alt_text mime_type : string) (image_data : bytes)
  : string :=
  let b64 := Base64.b64encode image_data in
  "![" +:+ alt_text +:+ "](data:" +:+ mime_type +:+ ";base64," +:+ b64 +:+ ")".

(** the file name of the file reference mode *)
Definition reference_filename (mime_type : string) (kw : kwargs) : string :=
  if Py.truthy (kw_image_filename kw)
  then default EmptyString (kw_image_filename kw)
  else
    let ext := Py.or_else (guess_extension mime_type) ".png" in
    "image" +:+ ext.

(** the image reference of the file reference mode *)
Definition reference_tag (alt_text mime_type : string) (kw : kwargs) : string :=
  let image_dir := default "images" (kw_image_dir kw) in
  let image_filename := reference_filename mime_type kw in
  "![" +:+ alt_text +:+ "](" +:+ image_dir +:+ "/" +:+ image_filename +:+ ")".

(** "Build output content" for an existing document *)
Definition splice (existing : string) (position : option position_hint)
    (img_tag : string) : string :=
  match hint position after_heading with
  | Some heading =>
      let lines := Py.split_lines existing in
      match find_heading heading lines 0 with
      | Some insert_idx =>
          let lines := Py.list_insert_at insert_idx EmptyString lines in
          let lines := Py.list_insert_at (insert_idx + 1) img_tag lines in
          Py.join nl lines
      | None => Py.rstrip existing +:+ nl +:+ nl +:+ img_tag +:+ nl
      end
  | None => Py.rstrip existing +:+ nl +:+ nl +:+ img_tag +:+ nl
  end.

(** [MarkdownWriter.insert_image] *)
Definition MarkdownWriter_insert_image
    (image_stream : addr) (document_stream : option addr)
    (target_format : string) (position : option position_hint)
    (size : option size_hint) (kw : kwargs) : M WriteResult :=
  let* _ := seek image_stream 0 in
  let* image_data := read image_stream in
  let alt_text := default "image" (kw_alt_text kw) in
  let embed := default true (kw_embed kw) in
  let mime_type := default "image/png" (kw_mime_type kw) in
  let* img_tag :=
    if embed then ret (embedded_tag alt_text mime_type image_data)
    else
      let image_dir := default "images" (kw_image_dir kw) in
      let image_filename := reference_filename mime_type kw in
      let img_tag := reference_tag alt_text mime_type kw in
      let* _ :=
        if Py.truthy (kw_target_path kw) then
          let target_path := default EmptyString (kw_target_path kw) in
          let target_dir := Py.dirname target_path in
          let full_image_dir := Py.path_join target_dir image_dir in
          let* _ := os_makedirs full_image_dir in
          let img_path := Py.path_join full_image_dir image_filename in
          open_write img_path image_data
        else ret tt in
      ret img_tag in
  let* content :=
    match document_stream with
    | Some ds =>
        let* _ := seek ds 0 in
        let* raw := read ds in
        let* existing := lift (utf8_decode raw) in
        ret (splice existing position img_tag)
    | None => ret (img_tag +:+ nl)
    end in
  let output_bytes := utf8_encode content in
  ret (mkWriteResult output_bytes ".md" 1 (MarkdownMeta embed alt_text)).

Definition MarkdownWriter : DocumentWriter :=
  mkWriter "MarkdownWriter" [".md"; ".markdown"; ".mdown"; ".mkd"]
    MarkdownWriter_insert_image.

End Markdown.

(* ================================================================== *)
(** * [writers/_docx_writer.py] *)
(* ================================================================== *)

(** python-docx, as far as the writer uses it. *)
Class DocxBackend := {
  (** the import of [docx] succeeded ([_dependency_exc_info is None]) *)
  docx_available : bool;
  Document : Type;
  (** [Document()] *)
  Document_new : exn + Document;
  (** [Document(stream)] on the bytes of the stream *)
  Document_load : bytes -> exn + Document;
  (** the [text] of each of [doc.paragraphs] *)
  paragraphs : Document -> list string;
  (** [doc.add_picture(image, width, height)]: a new paragraph with the
      picture at the end of the document *)
  doc_add_picture :
    Document -> bytes -> option Length -> option Length -> exn + Document;
  (** [_insert_paragraph_after(doc.paragraphs[i]).add_run().add_picture(
      image, width, height)] *)
  add_picture_after :
    Document -> nat -> bytes -> option Length -> option Length ->
    exn + Document;
  (** [doc.save(output)] and the bytes written *)
  Document_save : Document -> bytes
}.

Section Docx.
Context {P : Platform} {D : DocxBackend}.

(** "Load or create document" *)
Definition docx_load (document_stream : option addr) : M Document :=
  match document_stream with
  | Some ds =>
      let* _ := seek ds 0 in
      let* raw := read ds in
      lift (Document_load raw)
  | None => lift Document_new
  end.

(** "Determine sizing": [default_width] is used when the hint gives
    neither dimension *)
Definition sizing (size : option size_hint) (default_width : Q)
  : option Length * option Length :=
  let width := match size with Some s => Inches <$> width s | None => None end in
  let height := match size with Some s => Inches <$> height s | None => None end in
  match width, height with
  | None, None => (Some (Inches default_width), None)
  | _, _ => (width, height)
  end.

(** the loop over [doc.paragraphs] of the [after_text] hint *)
Fixpoint find_text (search_text : string) (texts : list string) (i : nat)
  : option nat :=
  match texts with
  | [] => None
  | t :: rest =>
      if Py.contains t search_text then Some i
      else find_text search_text rest (i + 1)
  end.

(** the library reading the image stream *)
Definition image_of (image_stream : addr) : M bytes := read image_stream.

(** [size or {"width": w}] *)
Definition size_or (size : option size_hint) (w : Q) : size_hint :=
  if size_truthy size then default (mkSize (Some w) None) size
  else mkSize (Some w) None.

(** [DocxWriter.insert_image] *)
Definition DocxWriter_insert_image
    (image_stream : addr) (document_stream : option addr)
    (target_format : string) (position : option position_hint)
    (size : option size_hint) (kw : kwargs) : M WriteResult :=
  if negb docx_available then
    raise (ImportError ("python-docx is required for DOCX writing. " +:+
                        "Install it with: pip install 'markitwrite[docx]'"))
  else
  let* doc := docx_load document_stream in
  let '(width, height) := sizing size 6 in
  let* _ := seek image_stream 0 in
  let* doc :=
    match hint position paragraph with
    | Some para_idx =>
        let paragraphs := paragraphs doc in
        if ((0 <=? para_idx) && (para_idx <? Z.of_nat (length paragraphs)))%Z
        then
          let* image := image_of image_stream in
          lift (add_picture_after doc (Z.to_nat para_idx) image width height)
        else
          let* image := image_of image_stream in
          lift (doc_add_picture doc image width height)
    | None =>
        match hint position after_text with
        | Some search_text =>
            match find_text search_text (paragraphs doc) 0 with
            | Some i =>
                let* image := image_of image_stream in
                lift (add_picture_after doc i image width height)
            | None =>
                let* image := image_of image_stream in
                lift (doc_add_picture doc image width height)
            end
        | None =>
            let* image := image_of image_stream in
            lift (doc_add_picture doc image width height)
        end
    end in
  ret (mkWriteResult (Document_save doc) ".docx" 1 (DocxMeta (size_or size 6))).

Definition DocxWriter : DocumentWriter :=
  mkWriter "DocxWriter" [".docx"] DocxWriter_insert_image.

End Docx.

(* ================================================================== *)
(** * [writers/_pptx_writer.py] *)
(* ================================================================== *)

(** python-pptx, as far as the writer uses it. *)
Class PptxBackend := {
  (** the import of [pptx] succeeded *)
  pptx_available : bool;
  Presentation : Type;
  Slide : Type;
  SlideLayout : Type;
  (** [Presentation()] *)
  Presentation_new : exn + Presentation;
  (** [Presentation(stream)] on the bytes of the stream *)
  Presentation_load : bytes -> exn + Presentation;
  (** [prs.slides] *)
  slides : Presentation -> list Slide;
  (** [prs.slide_layouts] *)
  slide_layouts : Presentation -> list SlideLayout;
  (** [prs.slides.add_slide(layout)]: the presentation with the new
      slide, and that slide *)
  add_slide : Presentation -> SlideLayout -> exn + (Presentation * Slide);
  (** [slide.shapes.add_picture(image, left, top, width, height)] *)
  add_picture :
    Presentation -> Slide -> bytes -> Length -> Length ->
    option Length -> option Length -> exn + Presentation;
  (** [prs.save(output)] and the bytes written *)
  Presentation_save : Presentation -> bytes
}.

Section Pptx.
Context {P : Platform} {B : PptxBackend}.

(** "Load or create presentation" *)
Definition pptx_load (document_stream : option addr) : M Presentation :=
  match document_stream with
  | Some ds =>
      let* _ := seek ds 0 in
      let* raw := read ds in
      lift (Presentation_load raw)
  | None => lift Presentation_new
  end.

(** "Determine which slide to use": an existing slide, if the hint
    names one *)
Definition existing_slide (prs : Presentation)
    (position : option position_hint) : option Slide :=
  match hint position slide with
  | Some slide_num =>
      if ((1 <=? slide_num) && (slide_num <=? Z.of_nat (length (slides prs))))%Z
      then nth_error (slides prs) (Z.to_nat (slide_num - 1))
      else None
  | None => None
  end.

(** "Add a new blank slide (layout index 6 is typically blank)" *)
Definition new_blank_slide (prs : Presentation) : exn + (Presentation * Slide) :=
  let blank_layout_idx :=
    Z.min 6 (Z.of_nat (length (slide_layouts prs)) - 1) in
  match py_index (slide_layouts prs) blank_layout_idx with
  | inl e => inl e
  | inr slide_layout => add_slide prs slide_layout
  end.

(** [PptxWriter.insert_image] *)
Definition PptxWriter_insert_image
    (image_stream : addr) (document_stream : option addr)
    (target_format : string) (position : option position_hint)
    (size : option size_hint) (kw : kwargs) : M WriteResult :=
  if negb pptx_available then
    raise (ImportError ("python-pptx is required for PPTX writing. " +:+
                        "Install it with: pip install 'markitwrite[pptx]'"))
  else
  let* prs := pptx_load document_stream in
  let* (prs, slide) :=
    match existing_slide prs position with
    | Some slide => ret (prs, slide)
    | None => lift (new_blank_slide prs)
    end in
  let left := Inches (default 1%Q (hint position left)) in
  let top := Inches (default 1%Q (hint position top)) in
  let '(width, height) := sizing size 8 in
  let* _ := seek image_stream 0 in
  let* image := image_of image_stream in
  let* prs := lift (add_picture prs slide image left top width height) in
  ret (mkWriteResult (Presentation_save prs) ".pptx" 1
         (PptxMeta (length (slides prs)) (size_or size 8))).

Definition PptxWriter : DocumentWriter :=
  mkWriter "PptxWriter" [".pptx"] PptxWriter_insert_image.

End Pptx.

(* ================================================================== *)
(** * [_markitwrite.py] *)
(* ================================================================== *)

(** [sorted(l, key=key)] for numeric keys: the stable sort.  Each
    element is placed before the first one whose key is not smaller, so
    elements with equal keys keep their order. *)
Fixpoint insert_by {A} (key : A -> Q) (x : A) (l : list A) : list A :=
  match l with
  | [] => [x]
  | y :: l' =>
      if Qle_bool (key x) (key y) then x :: l else y :: insert_by key x l'
  end.

Definition sorted_by {A} (key : A -> Q) (l : list A) : list A :=
  fold_right (insert_by key) [] l.

(** [sorted(l)] for strings, by code points *)
Fixpoint insert_str (x : string) (l : list string) : list string :=
  match l with
  | [] => [x]
  | y :: l' => if String.leb x y then x :: l else y :: insert_str x l'
  end.

Definition sorted_str (l : list string) : list string :=
  fold_right insert_str [] l.

(** the image source of [paste]: a path, raw bytes or a stream *)
Inductive image_source : Type :=
| SrcPath (path : string)
| SrcBytes (data : bytes)
| SrcStream (stream : addr).

Section Dispatcher.
Context {P : Platform}.

Record _WriterRegistration := mkRegistration {
  writer : DocumentWriter;
  priority : Q
}.

(** the dispatcher object: its list [_writers] *)
Record MarkItWrite := mkMarkItWrite {
  _writers : list _WriterRegistration
}.

(** [register_writer] *)
Definition register_writer (self : MarkItWrite) (w : DocumentWriter)
    (prio : Q) : MarkItWrite :=
  mkMarkItWrite ((_writers self ++ [mkRegistration w prio])%list).

(** [_resolve_image] *)
Definition _resolve_image (src : image_source) : M (addr * string) :=
  match src with
  | SrcPath path =>
      let mime := guess_type path in
      let* data := open_read path in
      let* s := new_BytesIO data in
      ret (s, Py.or_else mime "image/png")
  | SrcBytes data =>
      let* s := new_BytesIO data in
      ret (s, "image/png")
  | SrcStream stream =>
      let* pos := tell stream in
      let* data := read stream in
      let* _ := seek stream pos in
      let* s := new_BytesIO data in
      ret (s, "image/png")
  end.

(** [_resolve_target_format] *)
Definition _resolve_target_format (target target_format : option string)
  : string :=
  if Py.truthy target_format then
    let fmt := Py.lower (default EmptyString target_format) in
    if Py.startswith fmt "." then fmt else "." +:+ fmt
  else
    if Py.truthy target then
      let '(_, ext) := Py.splitext (default EmptyString target) in
      if Py.nonempty ext then Py.lower ext else ".docx"
    else ".docx".

(** the extensions listed by the error of [_find_writer] and by
    [supported_formats] *)
Definition all_extensions (self : MarkItWrite) : list string :=
  flat_map (fun reg => ACCEPTED_EXTENSIONS (writer reg)) (_writers self).

Definition no_writer_message (self : MarkItWrite) (target_format : string)
  : string :=
  let available := all_extensions self in
  "No writer found for format '" +:+ target_format +:+ "'. " +:+
  "Available formats: " +:+
  (let joined := Py.join ", " available in
   if Py.nonempty joined then joined else "none (install optional deps)").

(** [_find_writer] *)
Definition _find_writer (self : MarkItWrite) (target_format : string)
  : exn + DocumentWriter :=
  let sorted_writers := sorted_by priority (_writers self) in
  match find (fun reg => accepts (writer reg) target_format) sorted_writers with
  | Some reg => inr (writer reg)
  | None => inl (ValueError (no_writer_message self target_format))
  end.

(** [kwargs.setdefault("mime_type", mime_type)] *)
Definition setdefault_mime_type (kw : kwargs) (mime_type : string) : kwargs :=
  match kw_mime_type kw with
  | Some _ => kw
  | None =>
      mkKwargs (kw_embed kw) (kw_alt_text kw) (Some mime_type)
        (kw_image_dir kw) (kw_image_filename kw) (kw_target_path kw)
  end.

(** [paste] *)
Definition paste (self : MarkItWrite) (src : image_source)
    (target target_format : option string)
    (position : option position_hint) (size : option size_hint)
    (kw : kwargs) : M WriteResult :=
  let fmt := _resolve_target_format target target_format in
  let* writer := lift (_find_writer self fmt) in
  let* (image_stream, mime_type) := _resolve_image src in
  let kw := setdefault_mime_type kw mime_type in
  let* document_stream :=
    if Py.truthy target then
      let path := default EmptyString target in
      let* present := os_isfile path in
      if present then
        let* data := open_read path in
        let* s := new_BytesIO data in
        ret (Some s)
      else ret None
    else ret None in
  let* result :=
    insert_image writer image_stream document_stream fmt position size kw in
  let* _ :=
    if Py.truthy target then save result (default EmptyString target)
    else ret tt in
  ret result.

(** [supported_formats]: [sorted(set(formats))] *)
Definition supported_formats (self : MarkItWrite) : list string :=
  let formats := all_extensions self in
  sorted_str (elements (list_to_set formats : gset string)).

End Dispatcher.

(** [MarkItWrite()]: the three built-in writers, each with priority 0,
    in the order of [_register_builtins] *)
Definition builtins {P : Platform} {D : DocxBackend} {B : PptxBackend}
  : MarkItWrite :=
  register_writer
    (register_writer
       (register_writer (mkMarkItWrite []) DocxWriter 0)
       PptxWriter 0)
    MarkdownWriter 0.

(* ================================================================== *)
(** * A reference platform and reference backends

    One concrete instance of each interface, on which the model runs:
    a file system that is a finite map from paths to contents, a codec
    for code points below 256, and documents and presentations as
    lists. *)
(* ================================================================== *)

Module Ref.

(** UTF-8 for code points below 256: one byte below 128, else two *)
Fixpoint encode (s : string) : bytes :=
  match s with
  | EmptyString => []
  | String c s' =>
      let n := N_of_ascii c in
      if (n <? 128)%N then byte_of_ascii c :: encode s'
      else
        byte_of_ascii (ascii_of_N (192 + N.shiftr n 6)) ::
        byte_of_ascii (ascii_of_N (128 + N.land n 63)) :: encode s'
  end.

Fixpoint decode (b : bytes) : exn + string :=
  match b with
  | [] => inr EmptyString
  | x :: rest =>
      let n := Byte.to_N x in
      if (n <? 128)%N then
        match decode rest with
        | inr s => inr (String (ascii_of_byte x) s)
        | inl e => inl e
        end
      else
        match rest with
        | y :: rest' =>
            let m := Byte.to_N y in
            if (((n =? 194) || (n =? 195)) && (128 <=? m) && (m <? 192))%N then
              match decode rest' with
              | inr s =>
                  inr (String (ascii_of_N (N.shiftl (N.land n 3) 6 + N.land m 63)) s)
              | inl e => inl e
              end
            else inl UnicodeDecodeError
        | [] => inl UnicodeDecodeError
        end
  end.

(** a few rows of the [mimetypes] tables *)
Definition mime_of_ext (ext : string) : option string :=
  if String.eqb ext ".png" then Some "image/png"
  else if String.eqb ext ".jpg" then Some "image/jpeg"
  else if String.eqb ext ".jpeg" then Some "image/jpeg"
  else if String.eqb ext ".gif" then Some "image/gif"
  else None.

Definition ext_of_mime (m : string) : option string :=
  if String.eqb m "image/png" then Some ".png"
  else if String.eqb m "image/jpeg" then Some ".jpg"
  else if String.eqb m "image/gif" then Some ".gif"
  else None.

#[global] Instance platform : Platform := {|
  world := gmap string bytes;
  read_file := fun p w =>
    match w !! p with
    | Some b => inr b
    | None => inl (OSError ("No such file or directory: '" +:+ p +:+ "'"))
    end;
  write_file := fun p data w => (inr tt, <[p := data]> w);
  isfile := fun p w => bool_decide (is_Some (w !! p));
  makedirs := fun _ w => (inr tt, w);
  guess_type := fun p => mime_of_ext (Py.lower (snd (Py.splitext p)));
  guess_extension := ext_of_mime;
  utf8_decode := decode;
  utf8_encode := encode
|}.

(** the blocks of a document: text paragraphs and picture paragraphs *)
Inductive block : Type :=
| Para (text : string)
| Picture (image : bytes) (width height : option Length).

Definition block_text (b : block) : string :=
  match b with Para t => t | Picture _ _ _ => EmptyString end.

(** a document file: the signature [PK], then one paragraph per line *)
Definition docx_parse (raw : bytes) : exn + list block :=
  match raw with
  | x50 :: x4b :: rest =>
      match decode rest with
      | inr s => inr (map Para (Py.split_lines s))
      | inl e => inl e
      end
  | _ => inl (LibraryError "File is not a zip file")
  end.

Definition block_line (b : block) : string :=
  match b with Para t => t | Picture _ _ _ => "<picture>" end.

Definition docx_print (d : list block) : bytes :=
  x50 :: x4b :: encode (Py.join nl (map block_line d)).

#[global] Instance docx : DocxBackend := {|
  docx_available := true;
  Document := list block;
  Document_new := inr [];
  Document_load := docx_parse;
  paragraphs := map block_text;
  doc_add_picture := fun d image w h => inr ((d ++ [Picture image w h])%list);
  add_picture_after := fun d i image w h =>
    inr (Py.list_insert_at (i + 1) (Picture image w h) d);
  Document_save := docx_print
|}.

(** a slide: the name of its layout and its pictures *)
Record slide := mkSlide {
  slide_id : nat;
  slide_layout : string;
  pictures : list (bytes * Length * Length * option Length * option Length)
}.

Record presentation := mkPresentation {
  layouts : list string;
  prs_slides : list slide
}.

(** the layouts of the default template of python-pptx *)
Definition default_layouts : list string :=
  ["Title Slide"; "Title and Content"; "Section Header"; "Two Content";
   "Comparison"; "Title Only"; "Blank"; "Content with Caption";
   "Picture with Caption"; "Title and Vertical Text";
   "Vertical Title and Text"].

(** a presentation file: [PK], the number of layouts of the default
    template it keeps, and the number of its slides *)
Definition pptx_parse (raw : bytes) : exn + presentation :=
  match raw with
  | x50 :: x4b :: nl :: ns :: _ =>
      inr (mkPresentation
             (firstn (N.to_nat (Byte.to_N nl)) default_layouts)
             (map (fun i => mkSlide i "Title Slide" [])
                (seq 0 (N.to_nat (Byte.to_N ns)))))
  | _ => inl (LibraryError "File is not a zip file")
  end.

Definition pptx_print (p : presentation) : bytes :=
  [x50; x4b;
   default x00 (Byte.of_N (N.of_nat (length (layouts p))));
   default x00 (Byte.of_N (N.of_nat (length (prs_slides p))))].

Definition add_picture_to (image : bytes) (l t : Length)
    (w h : option Length) (target : slide) (s : slide) : slide :=
  if Nat.eqb (slide_id s) (slide_id target)
  then mkSlide (slide_id s) (slide_layout s) ((pictures s ++ [(image, l, t, w, h)])%list)
  else s.

#[global] Instance pptx : PptxBackend := {|
  pptx_available := true;
  Presentation := presentation;
  Slide := slide;
  SlideLayout := string;
  Presentation_new := inr (mkPresentation default_layouts []);
  Presentation_load := pptx_parse;
  slides := prs_slides;
  slide_layouts := layouts;
  add_slide := fun p layout =>
    let s := mkSlide (length (prs_slides p)) layout [] in
    inr (mkPresentation (layouts p) ((prs_slides p ++ [s])%list), s);
  add_picture := fun p s image l t w h =>
    inr (mkPresentation (layouts p)
           (map (add_picture_to image l t w h s) (prs_slides p)));
  Presentation_save := pptx_print
|}.

(** the state with an empty file system and no stream *)
Definition empty_state : state := mkState (∅ : gmap string bytes) ∅.

(** a state with one stream *)
Definition one_stream (l : addr) (s : BytesIO) : state :=
  mkState (∅ : gmap string bytes) {[ l := s ]}.

End Ref.

(* ================================================================== *)
(** * Notions of the specification *)
(* ================================================================== *)

(** The normal form of a format string, in the words of the
    specification: lowercased, and prefixed with a dot when it does not
    start with one. *)
Definition normalized_format (s : string) : string :=
  if Py.startswith s "." then Py.lower s else "." +:+ Py.lower s.

(** [sub] occurs in [s] *)
Definition occurs_in (sub s : string) : Prop :=
  exists pre post, s = pre +:+ sub +:+ post.

(** a registration in a list, with its index *)
Definition registered_at {P : Platform}
    (self : MarkItWrite) (i : nat) (reg : _WriterRegistration) : Prop :=
  nth_error (_writers self) i = Some reg.

(** a line that [after_heading] selects *)
Definition heading_line (heading line : string) : bool :=
  Py.startswith (Py.lstrip line) "#" && Py.contains line heading.

(** the image reference that [MarkdownWriter.insert_image] builds from
    the options and the image bytes *)
Definition md_tag {P : Platform} (kw : kwargs) (image_data : bytes) : string :=
  let alt_text := default "image" (kw_alt_text kw) in
  let mime_type := default "image/png" (kw_mime_type kw) in
  if default true (kw_embed kw)
  then embedded_tag alt_text mime_type image_data
  else reference_tag alt_text mime_type kw.

(** the metadata of a Markdown result *)
Definition md_meta (kw : kwargs) : metadata :=
  MarkdownMeta (default true (kw_embed kw)) (default "image" (kw_alt_text kw)).

(** ** The stable sort, seen from the unsorted list *)

Section SortSpec.
Context {A : Type} (key : A -> Q) (p : A -> bool).

Definition key_le (a b : A) : Prop := (key a <= key b)%Q.

(** the first element of the stable sort that satisfies [p], computed
    on the list as registered: a later element replaces the candidate
    found so far only if its key is strictly smaller *)
Fixpoint best (l : list A) : option A :=
  match l with
  | [] => None
  | x :: l' =>
      if p x then
        match best l' with
        | Some y => if Qle_bool (key x) (key y) then Some x else Some y
        | None => Some x
        end
      else best l'
  end.

End SortSpec.

(** the order of strings *)
Definition str_le (a b : string) : Prop := String.leb a b = true.
Definition str_lt (a b : string) : Prop := String.ltb a b = true.

(** ** The steps of [MarkdownWriter.insert_image] *)

Section MarkdownSteps.
Context {P : Platform}.

(** the state after [stream.seek(0); stream.read()] *)
Definition rewound (st : state) (l : addr) (s : BytesIO) : state :=
  mkState (st_world st)
    (<[l := mkBytesIO (buf s) (length (buf s))]> (st_heap st)).

(** the document without trailing whitespace, an empty line, the
    reference, a newline *)
Definition appended (existing tag : string) : string :=
  Py.rstrip existing +:+ nl +:+ nl +:+ tag +:+ nl.

(** the step that computes the reference (and, in the file reference
    mode with a target path, saves the image): it does not touch the
    streams, and when it returns it returns [md_tag] *)
Definition tag_step (kw : kwargs) (image_data : bytes) : M string :=
  let alt_text := default "image" (kw_alt_text kw) in
  let embed := default true (kw_embed kw) in
  let mime_type := default "image/png" (kw_mime_type kw) in
  if embed then ret (embedded_tag alt_text mime_type image_data)
  else
    let image_dir := default "images" (kw_image_dir kw) in
    let image_filename := reference_filename mime_type kw in
    let img_tag := reference_tag alt_text mime_type kw in
    let* _ :=
      if Py.truthy (kw_target_path kw) then
        let target_path := default EmptyString (kw_target_path kw) in
        let target_dir := Py.dirname target_path in
        let full_image_dir := Py.path_join target_dir image_dir in
        let* _ := os_makedirs full_image_dir in
        let img_path := Py.path_join full_image_dir image_filename in
        open_write img_path image_data
      else ret tt in
    ret img_tag.

(** after the reference: read the existing document, build the content *)
Definition content_step (document_stream : option addr)
    (position : option position_hint) (img_tag : string) : M string :=
  match document_stream with
  | Some ds =>
      let* _ := seek ds 0 in
      let* raw := read ds in
      let* existing := lift (utf8_decode raw) in
      ret (splice existing position img_tag)
  | None => ret (img_tag +:+ nl)
  end.

End MarkdownSteps.

(** ** Sample inputs *)

(** a PNG signature as image, and a document with two headings *)
Definition sample_image : bytes := [x89; x50; x4e; x47].

Definition sample_document : string :=
  "# Intro" +:+ nl +:+ "Text." +:+ nl +:+ "  ## Charts" +:+ nl +:+ "More." +:+ nl.

Definition sample_state : state :=
  mkState (∅ : gmap string bytes)
    {[ 0 := mkBytesIO sample_image 2;
       1 := mkBytesIO (Ref.encode sample_document) 0 ]}.

Definition after_charts : option position_hint :=
  Some (mkPosition None None None None None (Some "Charts")).

(** a document with two paragraphs, a presentation with two slides and
    the layouts of the default template, and a presentation without any
    slide layout *)
Definition sample_docx : bytes := x50 :: x4b :: Ref.encode ("a" +:+ nl +:+ "b").
Definition sample_pptx : bytes := [x50; x4b; x0b; x02].
Definition bare_pptx : bytes := [x50; x4b; x00; x00].

Definition office_state (document : bytes) : state :=
  mkState (∅ : gmap string bytes)
    {[ 0 := mkBytesIO sample_image 0; 1 := mkBytesIO document 0 ]}.

Definition at_paragraph (n : Z) : option position_hint :=
  Some (mkPosition (Some n) None None None None None).

Definition on_slide (n : Z) : option position_hint :=
  Some (mkPosition None None (Some n) None None None).

(** python-docx not installed *)
Definition docx_missing : DocxBackend := {|
  docx_available := false;
  Document := list Ref.block;
  Document_new := inr [];
  Document_load := Ref.docx_parse;
  paragraphs := map Ref.block_text;
  doc_add_picture := fun d image w h => inr ((d ++ [Ref.Picture image w h])%list);
  add_picture_after := fun d i image w h =>
    inr (Py.list_insert_at (i + 1) (Ref.Picture image w h) d);
  Document_save := Ref.docx_print
|}.


(* ================================================================== *)
(** * Further parts of the code, and notions to state their properties *)
(* ================================================================== *)

Section MoreCode.
Context {P : Platform}.

(** [WriteResult.to_stream] *)
Definition to_stream (self : WriteResult) : M addr :=
  let* stream := new_BytesIO (output self) in
  let* _ := seek stream 0 in
  ret stream.

(** [MarkItWrite.__init__]; the imports of [_register_builtins] do not
    fail, since each writer module guards the import of its library *)
Definition MarkItWrite_init {D : DocxBackend} {B : PptxBackend}
    (enable_builtins : bool) : MarkItWrite :=
  if enable_builtins then builtins else mkMarkItWrite [].

(** a computation that leaves the file system as it is, whatever its
    outcome *)
Definition keeps_world {A} (m : M A) : Prop :=
  forall st, st_world (snd (m st)) = st_world st.

(** a computation that keeps every stream and its bytes, whatever its
    outcome: it may move read positions and create streams *)
Definition keeps_buffers {A} (m : M A) : Prop :=
  forall st l s,
    st_heap st !! l = Some s ->
    exists s', st_heap (snd (m st)) !! l = Some s' /\ buf s' = buf s.

End MoreCode.

Section BestSpec.
Context {A : Type} (key : A -> Q) (p : A -> bool).

(** [r], at index [i], is accepted and no accepted element beats it *)
Definition is_best (l : list A) (i : nat) (r : A) : Prop :=
  nth_error l i = Some r /\ p r = true /\
  forall j r', nth_error l j = Some r' -> p r' = true ->
    (key r < key r')%Q \/ ((key r == key r')%Q /\ i <= j).

End BestSpec.

(** a state of the reference platform: files and streams *)
Definition disk_state (files : gmap string bytes) (heap : gmap addr BytesIO)
  : state := @mkState Ref.platform files heap.

(** options of the file reference mode, with a target path *)
Definition reference_options : kwargs :=
  mkKwargs (Some false) None None None None (Some "docs/notes.md").

Section OfficeSpec.
Context {D : DocxBackend}.

(** the library call that "Determine insertion point" of
    [DocxWriter.insert_image] makes, once the image is read *)
Definition docx_place (doc : Document) (position : option position_hint)
    (image : bytes) (width height : option Length) : exn + Document :=
  match hint position paragraph with
  | Some para_idx =>
      if ((0 <=? para_idx) && (para_idx <? Z.of_nat (length (paragraphs doc))))%Z
      then add_picture_after doc (Z.to_nat para_idx) image width height
      else doc_add_picture doc image width height
  | None =>
      match hint position after_text with
      | Some search_text =>
          match find_text search_text (paragraphs doc) 0 with
          | Some i => add_picture_after doc i image width height
          | None => doc_add_picture doc image width height
          end
      | None => doc_add_picture doc image width height
      end
  end.

(** the result of [DocxWriter.insert_image] for a saved document *)
Definition docx_result (size : option size_hint) (doc : Document) : WriteResult :=
  mkWriteResult (Document_save doc) ".docx" 1 (DocxMeta (size_or size 6)).

End OfficeSpec.

(** the result of [PptxWriter.insert_image] for a saved presentation *)
Definition pptx_result {B : PptxBackend} (size : option size_hint)
    (prs : Presentation) : WriteResult :=
  mkWriteResult (Presentation_save prs) ".pptx" 1
    (PptxMeta (length (slides prs)) (size_or size 8)).

(** [exn + A] mapped on its value *)
Definition on_success {A B} (f : A -> B) (r : exn + A) : exn + B :=
  match r with inl e => inl e | inr a => inr (f a) end.

Definition after_the_text (t : string) : option position_hint :=
  Some (mkPosition None (Some t) None None None None).

(* ================================================================== *)
(** * Properties of the string operations *)
(* ================================================================== *)

Section StringFacts.

Lemma lower_char_idem (c : ascii) :
  Py.lower_char (Py.lower_char c) = Py.lower_char c.
Proof.
  destruct c as [[] [] [] [] [] [] [] []]; vm_compute; reflexivity.
Qed.

Lemma lower_idem (s : string) : Py.lower (Py.lower s) = Py.lower s.
Proof.
  induction s as [|c s IH]; simpl; [reflexivity|].
  now rewrite lower_char_idem, IH.
Qed.

Lemma lower_char_dot (c : ascii) :
  Ascii.eqb "."%char (Py.lower_char c) = Ascii.eqb "."%char c.
Proof.
  destruct c as [[] [] [] [] [] [] [] []]; vm_compute; reflexivity.
Qed.

Lemma startswith_dot (s : string) :
  Py.startswith s "." =
  match s with String c _ => Ascii.eqb "."%char c | EmptyString => false end.
Proof.
  destruct s as [|c [|d s]]; simpl; try reflexivity; apply andb_true_r.
Qed.

Lemma startswith_lower_dot (s : string) :
  Py.startswith (Py.lower s) "." = Py.startswith s ".".
Proof.
  rewrite !startswith_dot. destruct s as [|c s]; simpl; [reflexivity|].
  apply lower_char_dot.
Qed.

Lemma lower_app (s t : string) :
  Py.lower (s +:+ t) = Py.lower s +:+ Py.lower t.
Proof.
  induction s as [|c s IH]; simpl; [reflexivity|]. now rewrite IH.
Qed.

Lemma str_in_In (x : string) (l : list string) :
  str_in x l = true <-> In x l.
Proof.
  unfold str_in. rewrite existsb_exists. split.
  - intros (y & Hy & E). apply String.eqb_eq in E. now subst.
  - intros H. exists x. split; [assumption|]. apply String.eqb_refl.
Qed.

(** [rfind_aux] returns the default or the index of an occurrence *)
Lemma rfind_aux_spec (c : ascii) (s : string) (i last r : Z) :
  Py.rfind_aux c s i last = r ->
  r = last \/
  ((i <= r)%Z /\
   Py.startswith (Py.drop (Z.to_nat (r - i)) s) (String c EmptyString) = true).
Proof.
  revert i last. induction s as [|a s IH]; intros i last H; simpl in H.
  - now left.
  - apply IH in H. destruct H as [H | [Hle Hst]].
    + destruct (Ascii.eqb a c) eqn:E.
      * right. subst r. split; [lia|].
        replace (i - i)%Z with 0%Z by lia. simpl.
        rewrite Ascii.eqb_sym, E. now destruct s.
      * now left.
    + right. split; [lia|].
      replace (Z.to_nat (r - i)) with (S (Z.to_nat (r - (i + 1)))) by lia.
      exact Hst.
Qed.

Lemma rfind_lower_bound (c : ascii) (s : string) : (-1 <= Py.rfind c s)%Z.
Proof.
  destruct (rfind_aux_spec c s 0 (-1) _ eq_refl) as [H | [H _]];
    unfold Py.rfind; lia.
Qed.

Lemma rfind_occurrence (c : ascii) (s : string) :
  (0 <= Py.rfind c s)%Z ->
  Py.startswith (Py.drop (Z.to_nat (Py.rfind c s)) s) (String c EmptyString)
  = true.
Proof.
  intros H.
  destruct (rfind_aux_spec c s 0 (-1) _ eq_refl) as [E | [_ Hst]].
  - unfold Py.rfind in H. lia.
  - unfold Py.rfind. now rewrite Z.sub_0_r in Hst.
Qed.

Lemma splitext_loop_ext (fuel : nat) (p : string) (i d : Z) (r : string * string) :
  Py.splitext_loop fuel p i d = Some r ->
  r = (Py.take (Z.to_nat d) p, Py.drop (Z.to_nat d) p).
Proof.
  revert i. induction fuel as [|fuel IH]; intros i H; simpl in H; [discriminate|].
  destruct (i <? d)%Z; [|discriminate].
  destruct (negb _).
  - now inversion H.
  - now apply IH in H.
Qed.

(** the extension is empty or begins with a dot *)
Lemma splitext_ext (p : string) :
  snd (Py.splitext p) = EmptyString \/
  Py.startswith (snd (Py.splitext p)) "." = true.
Proof.
  unfold Py.splitext.
  destruct (Py.rfind "." p >? Py.rfind "/" p)%Z eqn:G; [|now left].
  destruct (Py.splitext_loop _ _ _ _) as [r|] eqn:L; [|now left].
  apply splitext_loop_ext in L. subst r. right. simpl.
  apply rfind_occurrence.
  pose proof (rfind_lower_bound "/" p). lia.
Qed.

End StringFacts.

(* ================================================================== *)
(** * Format strings: [accepts] and [_resolve_target_format] *)
(* ================================================================== *)

Lemma normalized_format_lower (s : string) :
  normalized_format s =
  (if negb (Py.startswith (Py.lower s) ".") then "." +:+ Py.lower s
   else Py.lower s).
Proof.
  unfold normalized_format. rewrite startswith_lower_dot.
  now destruct (Py.startswith s ".").
Qed.

Lemma accepts_unfold {P : Platform} (W : DocumentWriter) (s : string) :
  accepts W s = str_in (normalized_format s) (ACCEPTED_EXTENSIONS W).
Proof. unfold accepts. now rewrite normalized_format_lower. Qed.

Lemma normalized_format_dotted (s : string) :
  Py.startswith s "." = false ->
  normalized_format ("." +:+ s) = normalized_format s.
Proof.
  intros H. unfold normalized_format at 2. rewrite H.
  unfold normalized_format. simpl. destruct s; reflexivity.
Qed.

Lemma normalized_format_shape (s : string) :
  Py.lower (normalized_format s) = normalized_format s /\
  Py.startswith (normalized_format s) "." = true.
Proof.
  unfold normalized_format. destruct (Py.startswith s ".") eqn:E.
  - split; [apply lower_idem|]. now rewrite startswith_lower_dot.
  - split.
    + now rewrite lower_app, lower_idem.
    + now rewrite startswith_dot.
Qed.

(** C2. [accepts] answers by membership of the normalized format
    (lowercased, dot-prefixed when it has no leading dot) in the
    writer's declared extension list; hence it does not distinguish
    strings that differ in case only, nor a string from the same string
    with a dot in front. *)
Theorem accepts_normalized {P : Platform} (W : DocumentWriter) (s : string) :
  (accepts W s = true <-> In (normalized_format s) (ACCEPTED_EXTENSIONS W)) /\
  (forall s', Py.lower s' = Py.lower s -> accepts W s' = accepts W s) /\
  (Py.startswith s "." = false -> accepts W ("." +:+ s) = accepts W s).
Proof.
  split; [|split].
  - rewrite accepts_unfold. apply str_in_In.
  - intros s' E. rewrite !accepts_unfold, !normalized_format_lower.
    now rewrite E.
  - intros H. rewrite !accepts_unfold. now rewrite normalized_format_dotted.
Qed.

Lemma accepts_normalized_witness :
  accepts MarkdownWriter "mD" = accepts MarkdownWriter "MD" /\
  accepts MarkdownWriter ".MD" = accepts MarkdownWriter "MD".
Proof.
  destruct (accepts_normalized MarkdownWriter "MD")
    as (_ & Hcase & Hdot).
  split.
  - apply Hcase. reflexivity.
  - apply Hdot. reflexivity.
Defined.

(** C3, as the specification states it, fails for an explicit format
    that is the empty string: it is given, yet the target path decides,
    and two target paths give two formats. *)
Lemma resolve_target_format_empty_explicit :
  _resolve_target_format (Some "notes.md") (Some "") = ".md" /\
  _resolve_target_format (Some "notes.md") (Some "") <> normalized_format "" /\
  _resolve_target_format (Some "notes.md") (Some "") <>
  _resolve_target_format (Some "deck.pptx") (Some "").
Proof. repeat split; vm_compute; discriminate. Qed.

(** C3, amended. An explicit format that is given and not empty wins
    and is normalized; otherwise the lowercased extension of the target
    path is used when it has one, otherwise [".docx"].  The result is
    always lowercase and dot-prefixed, and with a non-empty explicit
    format it does not depend on the target path. *)
Theorem resolve_target_format_spec (t e : option string) :
  let r := _resolve_target_format t e in
  (forall s, e = Some s -> s <> EmptyString -> r = normalized_format s) /\
  (Py.truthy e = false ->
   forall p, t = Some p -> snd (Py.splitext p) <> EmptyString ->
   r = Py.lower (snd (Py.splitext p))) /\
  (Py.truthy e = false ->
   (t = None \/ exists p, t = Some p /\ snd (Py.splitext p) = EmptyString) ->
   r = ".docx") /\
  (Py.lower r = r /\ Py.startswith r "." = true) /\
  (forall s t', e = Some s -> s <> EmptyString ->
   _resolve_target_format t' e = r).
Proof.
  assert (Hexp : forall s t0, s <> EmptyString ->
            _resolve_target_format t0 (Some s) = normalized_format s).
  { intros s t0 Hs. unfold _resolve_target_format. simpl.
    destruct s as [|c s]; [congruence|]. simpl Py.nonempty. cbv iota.
    rewrite normalized_format_lower.
    now destruct (Py.startswith (Py.lower (String c s)) "."). }
  cbv zeta. repeat split.
  - intros s -> Hs. now apply Hexp.
  - intros He p -> Hext. unfold _resolve_target_format. rewrite He.
    destruct p as [|c p]; [now vm_compute in Hext|]. simpl.
    destruct (Py.splitext (String c p)) as [root ext]. simpl in *.
    destruct ext; [congruence|reflexivity].
  - intros He [-> | (p & -> & Hext)]; unfold _resolve_target_format;
      rewrite He; [reflexivity|].
    destruct p as [|c p]; [reflexivity|]. simpl.
    destruct (Py.splitext (String c p)) as [root ext]. simpl in *.
    now subst ext.
  - unfold _resolve_target_format.
    destruct (Py.truthy e) eqn:He.
    + destruct e as [s|]; [|discriminate]. simpl.
      destruct (Py.startswith (Py.lower s) ".");
        [apply lower_idem | now rewrite lower_app, lower_idem].
    + destruct (Py.truthy t); [|reflexivity].
      destruct (Py.splitext _) as [root ext]. 
      destruct (Py.nonempty ext); [apply lower_idem | reflexivity].
  - unfold _resolve_target_format.
    destruct (Py.truthy e) eqn:He.
    + destruct e as [s|]; [|discriminate]. simpl.
      destruct (Py.startswith (Py.lower s) ".") eqn:E; [exact E|].
      now rewrite startswith_dot.
    + destruct (Py.truthy t); [|reflexivity].
      pose proof (splitext_ext (default EmptyString t)) as Hx.
      destruct (Py.splitext _) as [root ext]. simpl in Hx.
      destruct (Py.nonempty ext) eqn:N; [|reflexivity].
      destruct Hx as [-> | Hx]; [discriminate|].
      now rewrite startswith_lower_dot.
  - intros s t' -> Hs. now rewrite !Hexp.
Qed.

Lemma resolve_target_format_spec_witness :
  _resolve_target_format (Some "deck.PPTX") (Some "Md") = normalized_format "Md" /\
  _resolve_target_format (Some "a/b.TXT") None = Py.lower (snd (Py.splitext "a/b.TXT")) /\
  _resolve_target_format (Some "README") (Some "") = ".docx" /\
  _resolve_target_format None (Some "Md") =
  _resolve_target_format (Some "deck.PPTX") (Some "Md").
Proof.
  split; [|split; [|split]].
  - destruct (resolve_target_format_spec (Some "deck.PPTX") (Some "Md"))
      as (H & _). apply (H "Md"); [reflexivity | discriminate].
  - destruct (resolve_target_format_spec (Some "a/b.TXT") None)
      as (_ & H & _).
    apply (H eq_refl "a/b.TXT"); [reflexivity | vm_compute; discriminate].
  - destruct (resolve_target_format_spec (Some "README") (Some ""))
      as (_ & _ & H & _).
    apply (H eq_refl). right. exists "README". split; reflexivity.
  - destruct (resolve_target_format_spec (Some "deck.PPTX") (Some "Md"))
      as (_ & _ & _ & _ & H).
    apply (H "Md" None); [reflexivity | discriminate].
Defined.

(* ================================================================== *)
(** * The registry: [_find_writer] and [supported_formats] *)
(* ================================================================== *)

Section StableSort.
Context {A : Type} (key : A -> Q) (p : A -> bool).

Lemma insert_by_In (x y : A) (l : list A) :
  In y (insert_by key x l) <-> y = x \/ In y l.
Proof.
  induction l as [|z l IH]; simpl.
  - intuition.
  - destruct (Qle_bool (key x) (key z)); simpl; [intuition|].
    rewrite IH. intuition.
Qed.

Lemma insert_by_sorted (x : A) (l : list A) :
  StronglySorted (key_le key) l -> StronglySorted (key_le key) (insert_by key x l).
Proof.
  induction 1 as [|y l Hs IH Hall]; simpl.
  - constructor; constructor.
  - destruct (Qle_bool (key x) (key y)) eqn:E.
    + apply Qle_bool_iff in E. constructor.
      * now constructor.
      * constructor; [exact E|].
        eapply List.Forall_impl; [|exact Hall].
        intros z Hz. unfold key_le in *. now apply Qle_trans with (key y).
    + constructor; [exact IH|].
      apply List.Forall_forall. intros z Hz. apply insert_by_In in Hz.
      destruct Hz as [-> | Hz].
      * unfold key_le. apply Qlt_le_weak. apply Qnot_le_lt.
        intros H. apply Qle_bool_iff in H. congruence.
      * rewrite List.Forall_forall in Hall. now apply Hall.
Qed.

Lemma sorted_by_sorted (l : list A) : StronglySorted (key_le key) (sorted_by key l).
Proof.
  induction l as [|x l IH]; simpl; [constructor|].
  now apply insert_by_sorted.
Qed.

Lemma find_In (l : list A) (z : A) : find p l = Some z -> In z l.
Proof.
  induction l as [|y l IH]; simpl; [discriminate|].
  destruct (p y); [intros [= ->]; now left | auto].
Qed.

Lemma find_insert_by (x : A) (l : list A) :
  StronglySorted (key_le key) l ->
  find p (insert_by key x l) =
  if p x then
    match find p l with
    | Some y => if Qle_bool (key x) (key y) then Some x else Some y
    | None => Some x
    end
  else find p l.
Proof.
  induction 1 as [|y l Hs IH Hall]; simpl.
  - now destruct (p x).
  - destruct (Qle_bool (key x) (key y)) eqn:E; simpl.
    + destruct (p x) eqn:Px; [|reflexivity].
      destruct (p y) eqn:Py; [now rewrite E|].
      destruct (find p l) as [z|] eqn:F; [|reflexivity].
      apply find_In in F. rewrite List.Forall_forall in Hall.
      apply Qle_bool_iff in E. specialize (Hall z F). unfold key_le in Hall.
      assert (G : Qle_bool (key x) (key z) = true).
      { apply Qle_bool_iff. now apply Qle_trans with (key y). }
      now rewrite G.
    + destruct (p y) eqn:Py.
      * destruct (p x); [now rewrite E | reflexivity].
      * exact IH.
Qed.

Lemma find_sorted_by (l : list A) : find p (sorted_by key l) = best key p l.
Proof.
  induction l as [|x l IH]; simpl; [reflexivity|].
  rewrite find_insert_by by apply sorted_by_sorted.
  now rewrite IH.
Qed.

Lemma best_None (l : list A) :
  best key p l = None <-> forall x, In x l -> p x = false.
Proof.
  induction l as [|x l IH]; simpl.
  - split; [intros _ x [] | reflexivity].
  - destruct (p x) eqn:Px.
    + split.
      * destruct (best key p l) as [y|]; [destruct (Qle_bool _ _)|]; discriminate.
      * intros H. specialize (H x (or_introl eq_refl)). congruence.
    + rewrite IH. split.
      * intros H z [<- | Hz]; auto.
      * intros H z Hz. apply H. now right.
Qed.

(** [best] returns the accepted element of smallest key, the earliest
    one among those of equal key *)
Lemma best_Some (l : list A) (r : A) :
  best key p l = Some r ->
  exists i, nth_error l i = Some r /\ p r = true /\
    forall j r', nth_error l j = Some r' -> p r' = true ->
      (key r < key r')%Q \/ ((key r == key r')%Q /\ i <= j).
Proof.
  revert r. induction l as [|x l IH]; intros r H; simpl in H; [discriminate|].
  destruct (p x) eqn:Px.
  - destruct (best key p l) as [y|] eqn:B.
    + destruct (IH y eq_refl) as (i & Hi & Py & Hmin).
      destruct (Qle_bool (key x) (key y)) eqn:E; injection H as <-.
      * apply Qle_bool_iff in E. exists 0. repeat split; [exact Px|].
        intros [|j] r' Hj Pr'; simpl in Hj.
        -- injection Hj as <-. right. split; [reflexivity | lia].
        -- destruct (Hmin j r' Hj Pr') as [Hlt | [Heq _]].
           ++ left. now apply Qle_lt_trans with (key y).
           ++ destruct (Qlt_le_dec (key x) (key r')) as [Hlt | Hle];
                [now left|].
              right. split; [|lia]. apply Qle_antisym; [|exact Hle].
              now rewrite <- Heq.
      * assert (Hlt : (key y < key x)%Q).
        { apply Qnot_le_lt. intros H. apply Qle_bool_iff in H. congruence. }
        exists (S i). repeat split; [exact Hi | exact Py |].
        intros [|j] r' Hj Pr'; simpl in Hj.
        -- injection Hj as <-. now left.
        -- destruct (Hmin j r' Hj Pr') as [H | [H1 H2]];
             [now left | right; split; [exact H1 | lia]].
    + injection H as <-. exists 0. repeat split; [exact Px|].
      intros [|j] r' Hj Pr'; simpl in Hj.
      * injection Hj as <-. right. split; [reflexivity | lia].
      * rewrite best_None in B. apply nth_error_In in Hj.
        specialize (B r' Hj). congruence.
  - destruct (IH r H) as (i & Hi & Pr & Hmin).
    exists (S i). repeat split; [exact Hi | exact Pr |].
    intros [|j] r' Hj Pr'; simpl in Hj.
    + injection Hj as <-. congruence.
    + destruct (Hmin j r' Hj Pr') as [H' | [H1 H2]];
        [now left | right; split; [exact H1 | lia]].
Qed.

End StableSort.

Section Occurrences.

Lemma str_app_cons (x : ascii) (a b : string) :
  String x a +:+ b = String x (a +:+ b).
Proof. reflexivity. Qed.

Lemma str_app_assoc (a b c : string) : (a +:+ b) +:+ c = a +:+ b +:+ c.
Proof.
  induction a as [|x a IH]; [reflexivity|].
  now rewrite !str_app_cons, IH.
Qed.

Lemma str_app_nil_r (a : string) : a +:+ EmptyString = a.
Proof.
  induction a as [|x a IH]; [reflexivity|].
  now rewrite str_app_cons, IH.
Qed.

Lemma occurs_in_refl (s : string) : occurs_in s s.
Proof. exists EmptyString, EmptyString. simpl. now rewrite str_app_nil_r. Qed.

Lemma occurs_in_app_l (sub s t : string) :
  occurs_in sub s -> occurs_in sub (s +:+ t).
Proof.
  intros (pre & post & ->). exists pre, (post +:+ t).
  now rewrite !str_app_assoc.
Qed.

Lemma occurs_in_app_r (sub s t : string) :
  occurs_in sub t -> occurs_in sub (s +:+ t).
Proof.
  intros (pre & post & ->). exists (s +:+ pre), post.
  now rewrite !str_app_assoc.
Qed.

Lemma occurs_in_empty (sub : string) :
  occurs_in sub EmptyString -> sub = EmptyString.
Proof.
  intros (pre & post & H). destruct pre; [|discriminate].
  destruct sub; [reflexivity | discriminate].
Qed.

Lemma occurs_empty (s : string) : occurs_in EmptyString s.
Proof. exists EmptyString, s. reflexivity. Qed.

Lemma join_occurs (sep x : string) (l : list string) :
  In x l -> occurs_in x (Py.join sep l).
Proof.
  induction l as [|y l IH]; intros H; [destruct H|].
  destruct l as [|z l].
  - destruct H as [-> | []]. apply occurs_in_refl.
  - change (Py.join sep (y :: z :: l))
      with (y +:+ sep +:+ Py.join sep (z :: l)).
    destruct H as [-> | H].
    + apply occurs_in_app_l. apply occurs_in_refl.
    + apply occurs_in_app_r, occurs_in_app_r. now apply IH.
Qed.

End Occurrences.

Section Registry.
Context {P : Platform}.

Lemma find_writer_best (self : MarkItWrite) (f : string) :
  _find_writer self f =
  match best priority (fun reg => accepts (writer reg) f) (_writers self) with
  | Some reg => inr (writer reg)
  | None => inl (ValueError (no_writer_message self f))
  end.
Proof. unfold _find_writer. now rewrite find_sorted_by. Qed.

Lemma no_writer_message_lists (self : MarkItWrite) (f ext : string) :
  In ext (all_extensions self) -> occurs_in ext (no_writer_message self f).
Proof.
  intros H. unfold no_writer_message.
  do 4 apply occurs_in_app_r.
  apply (join_occurs ", ") in H.
  destruct (Py.join ", " (all_extensions self)) as [|c j]; [|exact H].
  apply occurs_in_empty in H. subst ext. apply occurs_empty.
Qed.

(** C1. When some registered writer accepts the format, [_find_writer]
    returns the writer of the accepting registration of smallest
    priority, and among equal priorities the one registered first; when
    none accepts it, [_find_writer] raises a [ValueError] whose message
    contains "No writer found" and every extension of every registered
    writer. *)
Theorem find_writer_spec (self : MarkItWrite) (f : string) :
  ((exists reg, In reg (_writers self) /\ accepts (writer reg) f = true) ->
   exists i reg,
     registered_at self i reg /\ accepts (writer reg) f = true /\
     _find_writer self f = inr (writer reg) /\
     forall j reg',
       registered_at self j reg' -> accepts (writer reg') f = true ->
       (priority reg < priority reg')%Q \/
       ((priority reg == priority reg')%Q /\ i <= j)) /\
  ((forall reg, In reg (_writers self) -> accepts (writer reg) f = false) ->
   exists msg,
     _find_writer self f = inl (ValueError msg) /\
     occurs_in "No writer found" msg /\
     forall reg ext,
       In reg (_writers self) -> In ext (ACCEPTED_EXTENSIONS (writer reg)) ->
       occurs_in ext msg).
Proof.
  split.
  - intros (reg0 & Hin & Hacc). rewrite find_writer_best.
    destruct (best priority _ (_writers self)) as [reg|] eqn:B.
    + destruct (best_Some _ _ _ _ B) as (i & Hi & Pr & Hmin).
      exists i, reg. repeat split; assumption.
    + rewrite best_None in B. specialize (B reg0 Hin). simpl in B. congruence.
  - intros Hnone. exists (no_writer_message self f). repeat split.
    + rewrite find_writer_best.
      destruct (best priority _ (_writers self)) as [reg|] eqn:B; [|reflexivity].
      destruct (best_Some _ _ _ _ B) as (i & Hi & Pr & _).
      apply nth_error_In in Hi. specialize (Hnone reg Hi). congruence.
    + exists EmptyString.
      eexists. unfold no_writer_message. simpl. reflexivity.
    + intros reg ext Hreg Hext. apply no_writer_message_lists.
      unfold all_extensions. apply in_flat_map. eauto.
Qed.

End Registry.

Lemma find_writer_spec_witness :
  (exists i reg,
     registered_at builtins i reg /\ accepts (writer reg) "MD" = true /\
     _find_writer builtins "MD" = inr (writer reg) /\
     forall j reg',
       registered_at builtins j reg' -> accepts (writer reg') "MD" = true ->
       (priority reg < priority reg')%Q \/
       ((priority reg == priority reg')%Q /\ i <= j)) /\
  (exists msg,
     _find_writer builtins ".xyz" = inl (ValueError msg) /\
     occurs_in "No writer found" msg /\
     forall reg ext,
       In reg (_writers builtins) -> In ext (ACCEPTED_EXTENSIONS (writer reg)) ->
       occurs_in ext msg).
Proof.
  split.
  - apply (proj1 (find_writer_spec builtins "MD")).
    exists (mkRegistration MarkdownWriter 0). split; [|reflexivity].
    simpl. right. right. left. reflexivity.
  - apply (proj2 (find_writer_spec builtins ".xyz")).
    intros reg [<- | [<- | [<- | []]]]; reflexivity.
Defined.

(** a lower priority wins over the order of registration, and equal
    priorities are served in the order of registration *)
Example find_writer_priority :
  let first := mkWriter "First" [".md"] MarkdownWriter_insert_image in
  let second := mkWriter "Second" [".md"] MarkdownWriter_insert_image in
  let early := mkWriter "Early" [".md"] MarkdownWriter_insert_image in
  let self :=
    register_writer
      (register_writer (register_writer builtins first (-1)) second (-1))
      early (-2 # 1) in
  let tied :=
    register_writer (register_writer builtins first (-1)) second (-1) in
  (match _find_writer self ".md" with
   | inr w => writer_class w | inl _ => EmptyString end) = "Early" /\
  (match _find_writer tied ".md" with
   | inr w => writer_class w | inl _ => EmptyString end) = "First" /\
  (match _find_writer self ".docx" with
   | inr w => writer_class w | inl _ => EmptyString end) = "DocxWriter".
Proof. repeat split. Qed.

Section SupportedFormats.
Context {P : Platform}.

Lemma str_le_trans (a b c : string) : str_le a b -> str_le b c -> str_le a c.
Proof.
  unfold str_le, String.leb. intros Hab Hbc.
  destruct (String.compare a b) eqn:Eab; [| |discriminate].
  - apply String.compare_eq_iff in Eab. now subst.
  - destruct (String.compare b c) eqn:Ebc; [| |discriminate].
    + apply String.compare_eq_iff in Ebc. subst. now rewrite Eab.
    + apply String_as_OT.cmp_lt in Eab, Ebc.
      pose proof (String_as_OT.lt_trans _ _ _ Eab Ebc) as H.
      apply String_as_OT.cmp_lt in H.
      change (String.compare a c = Lt) in H. now rewrite H.
Qed.

Lemma str_le_total_neg (a b : string) : String.leb a b = false -> str_le b a.
Proof.
  intros H. destruct (String.leb_total a b) as [H' | H']; [congruence | exact H'].
Qed.

Lemma str_le_neq_lt (a b : string) : str_le a b -> a <> b -> str_lt a b.
Proof.
  unfold str_le, str_lt, String.leb, String.ltb. intros H Hne.
  destruct (String.compare a b) eqn:E; [|reflexivity|discriminate].
  apply String.compare_eq_iff in E. contradiction.
Qed.

Lemma insert_str_In (x y : string) (l : list string) :
  In y (insert_str x l) <-> y = x \/ In y l.
Proof.
  induction l as [|z l IH]; simpl.
  - intuition.
  - destruct (String.leb x z); simpl; [intuition|].
    rewrite IH. intuition.
Qed.

Lemma sorted_str_In (y : string) (l : list string) :
  In y (sorted_str l) <-> In y l.
Proof.
  induction l as [|x l IH]; simpl; [reflexivity|].
  rewrite insert_str_In, IH. intuition.
Qed.

Lemma insert_str_sorted (x : string) (l : list string) :
  ~ In x l -> StronglySorted str_lt l -> StronglySorted str_lt (insert_str x l).
Proof.
  intros Hx Hs. induction Hs as [|y l Hs IH Hall]; simpl.
  - constructor; constructor.
  - assert (Hne : x <> y) by (intros ->; apply Hx; now left).
    destruct (String.leb x y) eqn:E.
    + assert (Hlt : str_lt x y) by now apply str_le_neq_lt.
      constructor; [now constructor|].
      constructor; [exact Hlt|].
      eapply List.Forall_impl; [|exact Hall].
      intros z Hz. apply str_le_neq_lt.
      * apply str_le_trans with y; [exact E|].
        unfold str_lt, String.ltb in Hz. unfold str_le, String.leb.
        now destruct (String.compare y z).
      * intros ->. unfold str_lt, String.ltb in Hlt, Hz.
        rewrite String.compare_antisym in Hz.
        destruct (String.compare z y); discriminate.
    + constructor; [apply IH; intros H; apply Hx; now right|].
      apply List.Forall_forall. intros z Hz. apply insert_str_In in Hz.
      destruct Hz as [-> | Hz].
      * apply str_le_neq_lt; [now apply str_le_total_neg | congruence].
      * rewrite List.Forall_forall in Hall. now apply Hall.
Qed.

Lemma sorted_str_sorted (l : list string) :
  List.NoDup l -> StronglySorted str_lt (sorted_str l).
Proof.
  induction 1 as [|x l Hx Hnd IH]; simpl; [constructor|].
  apply insert_str_sorted; [|exact IH].
  now rewrite sorted_str_In.
Qed.

Lemma strongly_sorted_NoDup (l : list string) :
  StronglySorted str_lt l -> List.NoDup l.
Proof.
  induction 1 as [|x l Hs IH Hall]; constructor; [|exact IH].
  intros Hin. rewrite List.Forall_forall in Hall. specialize (Hall x Hin).
  unfold str_lt, String.ltb in Hall.
  assert (E : String.compare x x = Eq).
  { pose proof (String.compare_antisym x x) as H.
    destruct (String.compare x x); [reflexivity | discriminate H | discriminate H]. }
  now rewrite E in Hall.
Qed.

(** C8. [supported_formats] returns exactly the extensions declared by
    the registered writers, without duplicates, in ascending order. *)
Theorem supported_formats_spec (self : MarkItWrite) :
  (forall x,
     In x (supported_formats self) <->
     exists reg, In reg (_writers self) /\
                 In x (ACCEPTED_EXTENSIONS (writer reg))) /\
  List.NoDup (supported_formats self) /\
  StronglySorted (fun a b => String.ltb a b = true) (supported_formats self).
Proof.
  assert (Hs : StronglySorted str_lt (supported_formats self)).
  { unfold supported_formats. apply sorted_str_sorted.
    apply NoDup_ListNoDup, NoDup_elements. }
  split; [|split].
  - intros x. unfold supported_formats. rewrite sorted_str_In.
    rewrite <- list_elem_of_In, elem_of_elements, elem_of_list_to_set.
    rewrite list_elem_of_In. unfold all_extensions. rewrite in_flat_map.
    reflexivity.
  - now apply strongly_sorted_NoDup.
  - exact Hs.
Qed.

End SupportedFormats.

Example supported_formats_builtins :
  supported_formats builtins =
  [".docx"; ".markdown"; ".md"; ".mdown"; ".mkd"; ".pptx"].
Proof. vm_compute. reflexivity. Qed.

(* ================================================================== *)
(** * Streams, [_resolve_image] and the order of [paste] *)
(* ================================================================== *)

Section Streams.
Context {P : Platform}.

Lemma state_eta (st : state) : mkState (st_world st) (st_heap st) = st.
Proof. now destruct st. Qed.

Lemma tell_run (st : state) (l : addr) (s : BytesIO) :
  st_heap st !! l = Some s -> tell l st = (inr (pos s), st).
Proof. intros H. unfold tell. now rewrite H. Qed.

Lemma read_run (st : state) (l : addr) (s : BytesIO) :
  st_heap st !! l = Some s ->
  read l st =
  (inr (skipn (pos s) (buf s)),
   mkState (st_world st)
     (<[l := mkBytesIO (buf s) (Nat.max (pos s) (length (buf s)))]> (st_heap st))).
Proof. intros H. unfold read. now rewrite H. Qed.

Lemma seek_run (st : state) (l : addr) (s : BytesIO) (n : nat) :
  st_heap st !! l = Some s ->
  seek l n st =
  (inr tt, mkState (st_world st) (<[l := mkBytesIO (buf s) n]> (st_heap st))).
Proof. intros H. unfold seek. now rewrite H. Qed.

(** [stream.seek(0)] then [stream.read()] gives the whole buffer *)
Lemma read_all_run {A} (st : state) (l : addr) (s : BytesIO) (k : bytes -> M A) :
  st_heap st !! l = Some s ->
  (let* _ := seek l 0 in let* data := read l in k data) st =
  k (buf s) (rewound st l s).
Proof.
  intros H. unfold bind. rewrite (seek_run _ _ _ _ H).
  erewrite read_run by (simpl; apply lookup_insert_eq).
  simpl. unfold rewound. now rewrite insert_insert_eq, ?Nat.max_0_l.
Qed.

Lemma read_all_closed {A} (st : state) (l : addr) (k : bytes -> M A) :
  st_heap st !! l = None ->
  (let* _ := seek l 0 in let* data := read l in k data) st =
  (inl closed_file, st).
Proof. intros H. unfold bind, seek. now rewrite H. Qed.

(** rewinding one stream keeps the buffer of every stream *)
Lemma rewound_lookup (st : state) (l d : addr) (s sd : BytesIO) :
  st_heap st !! l = Some s -> st_heap st !! d = Some sd ->
  exists sd', st_heap (rewound st l s) !! d = Some sd' /\ buf sd' = buf sd.
Proof.
  intros Hl Hd. unfold rewound. simpl.
  destruct (decide (l = d)) as [<- | Hne].
  - rewrite lookup_insert_eq. eexists. split; [reflexivity|].
    simpl. congruence.
  - rewrite lookup_insert_ne by exact Hne. now exists sd.
Qed.

Lemma rewound_lookup_None (st : state) (l d : addr) (s : BytesIO) :
  st_heap st !! l = Some s -> st_heap st !! d = None ->
  st_heap (rewound st l s) !! d = None.
Proof.
  intros Hl Hd. unfold rewound. simpl.
  rewrite lookup_insert_ne; [exact Hd | congruence].
Qed.

(** C10. Given a stream, [_resolve_image] returns a new [BytesIO] that
    holds the content from the stream's position on, at an address not
    in use before; in the final state the caller's stream is as it was
    (same buffer, same position) and so is every other stream. *)
Theorem resolve_image_stream (st : state) (l : addr) (s : BytesIO) :
  st_heap st !! l = Some s ->
  exists l',
    _resolve_image (SrcStream l) st =
    (inr (l', "image/png"),
     mkState (st_world st)
       (<[l' := mkBytesIO (skipn (pos s) (buf s)) 0]> (st_heap st))) /\
    st_heap st !! l' = None /\
    l' <> l /\
    (<[l' := mkBytesIO (skipn (pos s) (buf s)) 0]> (st_heap st)) !! l = Some s.
Proof.
  intros H. exists (fresh (dom (st_heap st))).
  assert (Hfresh : st_heap st !! fresh (dom (st_heap st)) = None).
  { apply not_elem_of_dom. apply is_fresh. }
  assert (Hne : fresh (dom (st_heap st)) <> l) by congruence.
  repeat split; [| exact Hfresh | exact Hne
                 | now rewrite lookup_insert_ne by exact Hne].
  unfold _resolve_image, bind.
  rewrite (tell_run _ _ _ H), (read_run _ _ _ H).
  erewrite seek_run by (simpl; apply lookup_insert_eq).
  unfold new_BytesIO, ret. simpl.
  rewrite insert_insert_eq.
  replace (mkBytesIO (buf s) (pos s)) with s by now destruct s.
  now rewrite (insert_id _ _ _ H).
Qed.

Lemma find_writer_none (self : MarkItWrite) (f : string) :
  (forall reg, In reg (_writers self) -> accepts (writer reg) f = false) ->
  _find_writer self f = inl (ValueError (no_writer_message self f)).
Proof.
  intros Hnone. rewrite find_writer_best.
  destruct (best priority _ (_writers self)) as [reg|] eqn:B; [|reflexivity].
  destruct (best_Some _ _ _ _ B) as (i & Hi & Pr & _).
  apply nth_error_In in Hi. specialize (Hnone reg Hi). congruence.
Qed.

(** C4, amended. [paste] resolves the target format and selects the
    writer before it touches the image source: when no registered
    writer accepts the format, the no-writer error is raised and the
    state is unchanged, whatever the image source; the error of an
    unreadable image source is raised only once a writer is selected. *)
Theorem paste_selects_writer_first
    (self : MarkItWrite) (src : image_source) (t e : option string)
    (position : option position_hint) (size : option size_hint)
    (kw : kwargs) (st : state) :
  let fmt := _resolve_target_format t e in
  ((forall reg, In reg (_writers self) -> accepts (writer reg) fmt = false) ->
   paste self src t e position size kw st =
   (inl (ValueError (no_writer_message self fmt)), st)) /\
  (forall w err st',
     _find_writer self fmt = inr w ->
     _resolve_image src st = (inl err, st') ->
     paste self src t e position size kw st = (inl err, st')).
Proof.
  cbv zeta. split.
  - intros Hnone. unfold paste, bind.
    now rewrite (find_writer_none _ _ Hnone).
  - intros w err st' Hw Himg. unfold paste, bind.
    rewrite Hw. simpl. now rewrite Himg.
Qed.

End Streams.

Lemma resolve_image_stream_witness :
  exists l',
    _resolve_image (SrcStream 0)
      (Ref.one_stream 0 (mkBytesIO [x89; x50; x4e; x47] 1)) =
    (inr (l', "image/png"),
     mkState (∅ : gmap string bytes)
       (<[l' := mkBytesIO [x50; x4e; x47] 0]>
          {[ 0 := mkBytesIO [x89; x50; x4e; x47] 1 ]})) /\
    l' <> 0.
Proof.
  destruct (resolve_image_stream
              (Ref.one_stream 0 (mkBytesIO [x89; x50; x4e; x47] 1)) 0
              (mkBytesIO [x89; x50; x4e; x47] 1))
    as (l' & Hrun & _ & Hne & _).
  - reflexivity.
  - exists l'. split; [exact Hrun | exact Hne].
Defined.

(** C4, as the specification states it, fails: with an image path that
    cannot be read and a format that no writer accepts, [paste] raises
    the no-writer error, not the error of reading the image. *)
Lemma paste_unreadable_image_unknown_format :
  (forall reg, In reg (_writers builtins) ->
     accepts (writer reg) (_resolve_target_format None (Some ".xyz")) = false) /\
  fst (_resolve_image (SrcPath "missing.png") Ref.empty_state) =
  inl (OSError "No such file or directory: 'missing.png'") /\
  fst (paste builtins (SrcPath "missing.png") None (Some ".xyz") None None
         no_kwargs Ref.empty_state) =
  inl (ValueError
         ("No writer found for format '.xyz'. Available formats: " +:+
          ".docx, .pptx, .md, .markdown, .mdown, .mkd")) /\
  fst (paste builtins (SrcPath "missing.png") None (Some ".xyz") None None
         no_kwargs Ref.empty_state) <>
  inl (OSError "No such file or directory: 'missing.png'").
Proof.
  split; [|split; [|split]].
  - intros reg [<- | [<- | [<- | []]]]; reflexivity.
  - reflexivity.
  - vm_compute. reflexivity.
  - vm_compute. discriminate.
Qed.

Lemma paste_selects_writer_first_witness :
  paste builtins (SrcPath "missing.png") None (Some ".xyz") None None
    no_kwargs Ref.empty_state =
  (inl (ValueError (no_writer_message builtins ".xyz")), Ref.empty_state) /\
  paste builtins (SrcPath "missing.png") None (Some ".md") None None
    no_kwargs Ref.empty_state =
  (inl (OSError "No such file or directory: 'missing.png'"), Ref.empty_state).
Proof.
  split.
  - apply (proj1 (paste_selects_writer_first builtins (SrcPath "missing.png")
                    None (Some ".xyz") None None no_kwargs Ref.empty_state)).
    intros reg [<- | [<- | [<- | []]]]; reflexivity.
  - apply (proj2 (paste_selects_writer_first builtins (SrcPath "missing.png")
                    None (Some ".md") None None no_kwargs Ref.empty_state)
             MarkdownWriter).
    + reflexivity.
    + reflexivity.
Defined.

(* ================================================================== *)
(** * [base64]: decoding undoes encoding *)
(* ================================================================== *)

Section Base64Facts.
Import Base64.

Lemma value_of_char_of (s : sextet) : value_of (char_of s) = Some s.
Proof.
  destruct s as [[[[[b5 b4] b3] b2] b1] b0].
  destruct b5, b4, b3, b2, b1, b0; vm_compute; reflexivity.
Qed.

Lemma char_of_not_pad (s : sextet) : Ascii.eqb (char_of s) pad = false.
Proof.
  destruct s as [[[[[b5 b4] b3] b2] b1] b0].
  destruct b5, b4, b3, b2, b1, b0; vm_compute; reflexivity.
Qed.

Lemma ungroup_group (a b c : byte) :
  let '(s1, s2, s3, s4) := group a b c in ungroup s1 s2 s3 s4 = (a, b, c).
Proof.
  unfold group.
  destruct (Byte.to_bits a) as [a0 [a1 [a2 [a3 [a4 [a5 [a6 a7]]]]]]] eqn:Ea.
  destruct (Byte.to_bits b) as [b0 [b1 [b2 [b3 [b4 [b5 [b6 b7]]]]]]] eqn:Eb.
  destruct (Byte.to_bits c) as [c0 [c1 [c2 [c3 [c4 [c5 [c6 c7]]]]]]] eqn:Ec.
  unfold ungroup. rewrite <- Ea, <- Eb, <- Ec.
  now rewrite !Byte.of_bits_to_bits.
Qed.

(** a group with one or two bytes: the bits that are decoded come from
    those bytes only *)
Lemma ungroup_group_1 (a : byte) :
  let '(s1, s2, _, _) := group a x00 x00 in
  let '(a', _, _) := ungroup s1 s2 zero6 zero6 in a' = a.
Proof.
  unfold group.
  destruct (Byte.to_bits a) as [a0 [a1 [a2 [a3 [a4 [a5 [a6 a7]]]]]]] eqn:Ea.
  cbn -[Byte.of_bits]. rewrite <- Ea. apply Byte.of_bits_to_bits.
Qed.

Lemma ungroup_group_2 (a b : byte) :
  let '(s1, s2, s3, _) := group a b x00 in
  let '(a', b', _) := ungroup s1 s2 s3 zero6 in a' = a /\ b' = b.
Proof.
  unfold group.
  destruct (Byte.to_bits a) as [a0 [a1 [a2 [a3 [a4 [a5 [a6 a7]]]]]]] eqn:Ea.
  destruct (Byte.to_bits b) as [b0 [b1 [b2 [b3 [b4 [b5 [b6 b7]]]]]]] eqn:Eb.
  cbn -[Byte.of_bits]. rewrite <- Ea, <- Eb. split; apply Byte.of_bits_to_bits.
Qed.

Lemma bytes_ind3 (Q : bytes -> Prop) :
  Q [] -> (forall a, Q [a]) -> (forall a b, Q [a; b]) ->
  (forall a b c l, Q l -> Q (a :: b :: c :: l)) ->
  forall l, Q l.
Proof.
  intros H0 H1 H2 H3 l.
  assert (H : Q l /\ (forall a, Q (a :: l)) /\ (forall a b, Q (a :: b :: l))).
  { induction l as [|x l (IH0 & IH1 & IH2)].
    - auto.
    - repeat split; auto. }
  apply H.
Qed.

(** decoding the encoding of [data] gives [data] back *)
Lemma b64decode_b64encode (data : bytes) :
  b64decode (b64encode data) = Some data.
Proof.
  induction data as [| a | a b | a b c rest IH] using bytes_ind3.
  - reflexivity.
  - pose proof (ungroup_group_1 a) as U. simpl.
    destruct (group a x00 x00) as [[[s1 s2] s3] s4].
    simpl. rewrite ?Ascii.eqb_refl, !value_of_char_of.
    destruct (ungroup s1 s2 zero6 zero6) as [[a' b'] c']. now subst.
  - pose proof (ungroup_group_2 a b) as U. simpl.
    destruct (group a b x00) as [[[s1 s2] s3] s4].
    simpl. rewrite ?Ascii.eqb_refl, ?char_of_not_pad, !value_of_char_of.
    destruct (ungroup s1 s2 s3 zero6) as [[a' b'] c'].
    destruct U as [-> ->]. reflexivity.
  - pose proof (ungroup_group a b c) as U.
    change (b64encode (a :: b :: c :: rest)) with
      (let '(s1, s2, s3, s4) := group a b c in
       String (char_of s1) (String (char_of s2)
         (String (char_of s3) (String (char_of s4) (b64encode rest))))).
    destruct (group a b c) as [[[s1 s2] s3] s4].
    simpl. rewrite char_of_not_pad, !value_of_char_of, IH, U. reflexivity.
Qed.

End Base64Facts.

(* ================================================================== *)
(** * [MarkdownWriter.insert_image] *)
(* ================================================================== *)

Section MarkdownFacts.
Context {P : Platform}.

Lemma find_heading_first (h : string) (pre : list string) (line : string)
    (post : list string) (i : nat) :
  Forall (fun x => heading_line h x = false) pre ->
  heading_line h line = true ->
  find_heading h (pre ++ line :: post) i = Some (i + length pre + 1).
Proof.
  intros Hpre Hline. revert i.
  induction Hpre as [|x pre Hx Hpre IH]; intros i; simpl.
  - unfold heading_line in Hline. rewrite Hline. f_equal. lia.
  - unfold heading_line in Hx. rewrite Hx. rewrite IH. f_equal. lia.
Qed.

Lemma find_heading_none (h : string) (lines : list string) (i : nat) :
  Forall (fun x => heading_line h x = false) lines ->
  find_heading h lines i = None.
Proof.
  intros H. revert i. induction H as [|x l Hx Hl IH]; intros i; simpl.
  - reflexivity.
  - unfold heading_line in Hx. now rewrite Hx.
Qed.

(** what the loop finds: the first heading line, or none *)
Lemma find_heading_cases (h : string) (lines : list string) (i : nat) :
  (exists pre line post,
     lines = (pre ++ line :: post)%list /\
     Forall (fun x => heading_line h x = false) pre /\
     heading_line h line = true /\
     find_heading h lines i = Some (i + length pre + 1)) \/
  (Forall (fun x => heading_line h x = false) lines /\
   find_heading h lines i = None).
Proof.
  revert i. induction lines as [|x l IH]; intros i.
  - right. split; [constructor | reflexivity].
  - destruct (heading_line h x) eqn:Hx.
    + left. exists [], x, l. repeat split; [constructor | exact Hx |].
      simpl. unfold heading_line in Hx. rewrite Hx. f_equal. lia.
    + destruct (IH (i + 1)) as [(pre & line & post & -> & Hpre & Hl & Hf) | [Hall Hf]].
      * left. exists (x :: pre), line, post.
        repeat split; [now constructor | exact Hl |].
        simpl. unfold heading_line in Hx. rewrite Hx, Hf. f_equal. lia.
      * right. split; [now constructor|].
        simpl. unfold heading_line in Hx. now rewrite Hx.
Qed.

Lemma list_insert_at_app {A} (pre : list A) (x y : A) (post : list A) :
  Py.list_insert_at (length pre + 1) x (pre ++ y :: post) =
  (pre ++ y :: x :: post)%list.
Proof.
  induction pre as [|z pre IH]; simpl; [reflexivity | now rewrite IH].
Qed.

(** the two [lines.insert] calls put a blank line and the reference
    right after the heading line *)
Lemma insert_after_heading (pre : list string) (line : string)
    (post : list string) (tag : string) :
  let idx := 0 + length pre + 1 in
  Py.list_insert_at (idx + 1) tag
    (Py.list_insert_at idx EmptyString (pre ++ line :: post)) =
  (pre ++ line :: EmptyString :: tag :: post)%list.
Proof.
  cbv zeta. rewrite Nat.add_0_l, list_insert_at_app.
  replace (pre ++ line :: EmptyString :: post)%list
    with ((pre ++ [line]) ++ EmptyString :: post)%list
    by now rewrite <- app_assoc.
  replace (length pre + 1 + 1) with (length (pre ++ [line]) + 1)
    by (rewrite length_app; simpl; lia).
  rewrite list_insert_at_app. now rewrite <- app_assoc.
Qed.

Lemma splice_no_hint (existing : string) (position : option position_hint)
    (tag : string) :
  hint position after_heading = None ->
  splice existing position tag = appended existing tag.
Proof. intros H. unfold splice. now rewrite H. Qed.

Lemma splice_heading (existing : string) (position : option position_hint)
    (tag h : string) (pre : list string) (line : string) (post : list string) :
  hint position after_heading = Some h ->
  Py.split_lines existing = (pre ++ line :: post)%list ->
  Forall (fun x => heading_line h x = false) pre ->
  heading_line h line = true ->
  splice existing position tag =
  Py.join nl (pre ++ line :: EmptyString :: tag :: post).
Proof.
  intros Hh Hsplit Hpre Hline. unfold splice. rewrite Hh, Hsplit.
  rewrite (find_heading_first h pre line post 0 Hpre Hline).
  now rewrite insert_after_heading.
Qed.

Lemma splice_no_heading (existing : string) (position : option position_hint)
    (tag h : string) :
  hint position after_heading = Some h ->
  Forall (fun x => heading_line h x = false) (Py.split_lines existing) ->
  splice existing position tag = appended existing tag.
Proof.
  intros Hh Hall. unfold splice. rewrite Hh.
  now rewrite (find_heading_none h _ 0 Hall).
Qed.

(** the reference occurs in every spliced body *)
Lemma splice_occurs (existing : string) (position : option position_hint)
    (tag : string) :
  occurs_in tag (splice existing position tag).
Proof.
  assert (Happ : occurs_in tag (appended existing tag)).
  { unfold appended. do 3 apply occurs_in_app_r.
    apply occurs_in_app_l, occurs_in_refl. }
  destruct (hint position after_heading) as [h|] eqn:Hh;
    [|now rewrite splice_no_hint].
  destruct (find_heading_cases h (Py.split_lines existing) 0)
    as [(pre & line & post & Hs & Hpre & Hl & _) | [Hall _]].
  - rewrite (splice_heading _ _ _ _ _ _ _ Hh Hs Hpre Hl).
    apply join_occurs. apply in_or_app. right. right. right. now left.
  - now rewrite (splice_no_heading _ _ _ _ Hh Hall).
Qed.

Lemma insert_image_steps (img : addr) (ds : option addr) (fmt : string)
    (position : option position_hint) (size : option size_hint) (kw : kwargs) :
  MarkdownWriter_insert_image img ds fmt position size kw =
  (let* _ := seek img 0 in
   let* image_data := read img in
   let* img_tag := tag_step kw image_data in
   let* content := content_step ds position img_tag in
   ret (mkWriteResult (utf8_encode content) ".md" 1 (md_meta kw))).
Proof. reflexivity. Qed.

Lemma tag_step_inv (kw : kwargs) (data : bytes) (st st' : state) (tag : string) :
  tag_step kw data st = (inr tag, st') ->
  tag = md_tag kw data /\ st_heap st' = st_heap st.
Proof.
  unfold tag_step, md_tag.
  destruct (default true (kw_embed kw)).
  - unfold ret. intros [= <- <-]. now split.
  - unfold bind. destruct (Py.truthy (kw_target_path kw)).
    + unfold os_makedirs, open_write.
      destruct (makedirs _ (st_world st)) as [[e|[]] w1]; [discriminate|].
      simpl. destruct (write_file _ _ w1) as [[e|[]] w2]; [discriminate|].
      unfold ret. intros [= <- <-]. now split.
    + unfold ret. intros [= <- <-]. now split.
Qed.

Lemma tag_step_embed (kw : kwargs) (data : bytes) (st : state) :
  default true (kw_embed kw) = true ->
  tag_step kw data st = (inr (md_tag kw data), st).
Proof. intros H. unfold tag_step, md_tag. now rewrite H. Qed.

Lemma content_step_inv (ds : option addr) (position : option position_hint)
    (tag content : string) (st st' : state) :
  content_step ds position tag st = (inr content, st') ->
  match ds with
  | None => content = tag +:+ nl
  | Some d =>
      exists sd existing,
        st_heap st !! d = Some sd /\ utf8_decode (buf sd) = inr existing /\
        content = splice existing position tag
  end.
Proof.
  unfold content_step. destruct ds as [d|].
  - destruct (st_heap st !! d) as [sd|] eqn:Hd.
    + rewrite (read_all_run _ _ _ _ Hd). unfold bind.
      destruct (utf8_decode (buf sd)) as [e|existing] eqn:Hdec; simpl;
        [discriminate|].
      unfold ret. intros [= <- <-]. now exists sd, existing.
    + rewrite (read_all_closed _ _ _ Hd). discriminate.
  - unfold ret. now intros [= <- <-].
Qed.

Lemma content_step_run (ds : option addr) (position : option position_hint)
    (tag : string) (st : state) :
  match ds with
  | None => True
  | Some d =>
      exists sd existing,
        st_heap st !! d = Some sd /\ utf8_decode (buf sd) = inr existing
  end ->
  exists content st', content_step ds position tag st = (inr content, st').
Proof.
  unfold content_step. destruct ds as [d|].
  - intros (sd & existing & Hd & Hdec).
    rewrite (read_all_run _ _ _ _ Hd). unfold bind. rewrite Hdec. simpl.
    unfold ret. eauto.
  - intros _. unfold ret. eauto.
Qed.

(** every call that returns: the image stream was open, and the result
    is built from the reference and the content *)
Lemma insert_image_inv (img : addr) (ds : option addr) (fmt : string)
    (position : option position_hint) (size : option size_hint) (kw : kwargs)
    (st st' : state) (r : WriteResult) :
  MarkdownWriter_insert_image img ds fmt position size kw st = (inr r, st') ->
  exists s content,
    st_heap st !! img = Some s /\
    r = mkWriteResult (utf8_encode content) ".md" 1 (md_meta kw) /\
    match ds with
    | None => content = md_tag kw (buf s) +:+ nl
    | Some d =>
        exists sd existing,
          st_heap st !! d = Some sd /\ utf8_decode (buf sd) = inr existing /\
          content = splice existing position (md_tag kw (buf s))
    end.
Proof.
  rewrite insert_image_steps.
  destruct (st_heap st !! img) as [s|] eqn:Himg.
  - rewrite (read_all_run _ _ _ _ Himg). unfold bind at 1.
    destruct (tag_step kw (buf s) (rewound st img s)) as [[e|tag] st1] eqn:T;
      [discriminate|].
    apply tag_step_inv in T. destruct T as [-> Hheap].
    unfold bind.
    destruct (content_step ds position _ st1) as [[e|content] st2] eqn:C;
      [discriminate|].
    unfold ret. intros [= <- <-].
    apply content_step_inv in C.
    exists s, content. split; [reflexivity|]. split; [reflexivity|].
    destruct ds as [d|]; [|exact C].
    destruct C as (sd' & existing & Hd' & Hdec & ->).
    rewrite Hheap in Hd'. unfold rewound in Hd'. simpl in Hd'.
    destruct (decide (img = d)) as [<- | Hne].
    + rewrite lookup_insert_eq in Hd'. injection Hd' as <-.
      exists s, existing. split; [exact Himg|]. split; [exact Hdec|reflexivity].
    + rewrite lookup_insert_ne in Hd' by exact Hne.
      exists sd', existing. split; [exact Hd'|]. split; [exact Hdec|reflexivity].
  - rewrite (read_all_closed _ _ _ Himg). discriminate.
Qed.

(** with the image embedded, open streams and a document that is text,
    the call returns *)
Lemma insert_image_embed_run (img : addr) (ds : option addr) (fmt : string)
    (position : option position_hint) (size : option size_hint) (kw : kwargs)
    (st : state) (s : BytesIO) :
  st_heap st !! img = Some s ->
  default true (kw_embed kw) = true ->
  match ds with
  | None => True
  | Some d =>
      exists sd existing,
        st_heap st !! d = Some sd /\ utf8_decode (buf sd) = inr existing
  end ->
  exists r st',
    MarkdownWriter_insert_image img ds fmt position size kw st = (inr r, st').
Proof.
  intros Himg Hembed Hdoc. rewrite insert_image_steps.
  rewrite (read_all_run _ _ _ _ Himg). unfold bind at 1.
  rewrite (tag_step_embed _ _ _ Hembed). unfold bind.
  destruct (content_step_run ds position (md_tag kw (buf s)) (rewound st img s))
    as (content & st' & ->).
  - destruct ds as [d|]; [|exact I].
    destruct Hdoc as (sd & existing & Hd & Hdec).
    destruct (rewound_lookup st img d s sd Himg Hd) as (sd' & Hd' & Hbuf).
    exists sd', existing. split; [exact Hd' | congruence].
  - unfold ret. eauto.
Qed.

End MarkdownFacts.

Section MarkdownClaims.
Context {P : Platform}.

(** C6. In the embedded mode the image reference has the form
    [![a](data:m;base64,E)] where decoding [E] gives back exactly the
    bytes of the image stream; every result that is returned contains
    this reference, and without an existing document the call returns
    the reference followed by a newline. *)
Theorem markdown_embedded_roundtrip
    (img : addr) (ds : option addr) (fmt : string)
    (position : option position_hint) (size : option size_hint)
    (kw : kwargs) (st : state) (s : BytesIO) :
  st_heap st !! img = Some s ->
  default true (kw_embed kw) = true ->
  let a := default "image" (kw_alt_text kw) in
  let m := default "image/png" (kw_mime_type kw) in
  exists E,
    Base64.b64decode E = Some (buf s) /\
    let reference := "![" +:+ a +:+ "](data:" +:+ m +:+ ";base64," +:+ E +:+ ")" in
    (forall r st',
       MarkdownWriter_insert_image img ds fmt position size kw st = (inr r, st') ->
       exists content,
         output r = utf8_encode content /\ occurs_in reference content) /\
    (ds = None ->
     exists st',
       MarkdownWriter_insert_image img ds fmt position size kw st =
       (inr (mkWriteResult (utf8_encode (reference +:+ nl)) ".md" 1
               (MarkdownMeta true a)), st')).
Proof.
  intros Himg Hembed a m. exists (Base64.b64encode (buf s)).
  split; [apply b64decode_b64encode|].
  assert (Htag : md_tag kw (buf s) =
                 "![" +:+ a +:+ "](data:" +:+ m +:+ ";base64," +:+
                 Base64.b64encode (buf s) +:+ ")").
  { unfold md_tag. now rewrite Hembed. }
  cbv zeta. rewrite <- Htag. split.
  - intros r st' Hrun. apply insert_image_inv in Hrun.
    destruct Hrun as (s' & content & Hs' & -> & Hc).
    assert (s' = s) by congruence. subst s'.
    exists content. split; [reflexivity|].
    destruct ds as [d|].
    + destruct Hc as (sd & existing & _ & _ & ->). apply splice_occurs.
    + subst content. apply occurs_in_app_l, occurs_in_refl.
  - intros ->. rewrite insert_image_steps.
    rewrite (read_all_run _ _ _ _ Himg). unfold bind at 1.
    rewrite (tag_step_embed _ _ _ Hembed). unfold bind. simpl.
    unfold ret, md_meta. rewrite Hembed. eauto.
Qed.

(** C7. The content of every result that is returned: without an
    existing document, the reference and a newline; with a document and
    an [after_heading] hint whose text occurs in some heading line, the
    lines of the document with an empty line and the reference right
    after the first such line; with a document and no hint, or no such
    line, the document without its trailing whitespace, an empty line,
    the reference and a newline.  The call returns whenever the streams
    are open, the document is text and the image is embedded. *)
Theorem markdown_content
    (img : addr) (ds : option addr) (fmt : string)
    (position : option position_hint) (size : option size_hint)
    (kw : kwargs) (st : state) :
  (forall r st',
     MarkdownWriter_insert_image img ds fmt position size kw st = (inr r, st') ->
     exists s,
       st_heap st !! img = Some s /\
       let tag := md_tag kw (buf s) in
       match ds with
       | None => output r = utf8_encode (tag +:+ nl)
       | Some d =>
           exists sd body,
             st_heap st !! d = Some sd /\ utf8_decode (buf sd) = inr body /\
             (forall h pre line post,
                hint position after_heading = Some h ->
                Py.split_lines body = (pre ++ line :: post)%list ->
                Forall (fun x => heading_line h x = false) pre ->
                heading_line h line = true ->
                output r =
                utf8_encode
                  (Py.join nl (pre ++ line :: EmptyString :: tag :: post))) /\
             ((hint position after_heading = None \/
               exists h,
                 hint position after_heading = Some h /\
                 Forall (fun x => heading_line h x = false)
                   (Py.split_lines body)) ->
              output r =
              utf8_encode (Py.rstrip body +:+ nl +:+ nl +:+ tag +:+ nl))
       end) /\
  (forall s,
     st_heap st !! img = Some s ->
     default true (kw_embed kw) = true ->
     match ds with
     | None => True
     | Some d =>
         exists sd body,
           st_heap st !! d = Some sd /\ utf8_decode (buf sd) = inr body
     end ->
     exists r st',
       MarkdownWriter_insert_image img ds fmt position size kw st = (inr r, st')).
Proof.
  split.
  - intros r st' Hrun. apply insert_image_inv in Hrun.
    destruct Hrun as (s & content & Hs & -> & Hc).
    exists s. split; [exact Hs|]. cbv zeta.
    destruct ds as [d|]; [|now subst content].
    destruct Hc as (sd & body & Hd & Hdec & ->).
    exists sd, body. split; [exact Hd|]. split; [exact Hdec|]. split.
    + intros h pre line post Hh Hsplit Hpre Hline. simpl.
      now rewrite (splice_heading _ _ _ _ _ _ _ Hh Hsplit Hpre Hline).
    + intros [Hnone | (h & Hh & Hall)]; simpl.
      * now rewrite splice_no_hint.
      * now rewrite (splice_no_heading _ _ _ _ Hh Hall).
  - intros s Himg Hembed Hdoc.
    now apply (insert_image_embed_run _ _ _ _ _ _ _ s).
Qed.

(** C9. Whatever target format is requested, a result returned by
    [MarkdownWriter.insert_image] carries the format [".md"]; and a
    result is returned, for every requested format, when the image
    stream is open, the image is embedded and no document is given. *)
Theorem markdown_result_format
    (img : addr) (ds : option addr) (fmt : string)
    (position : option position_hint) (size : option size_hint)
    (kw : kwargs) (st : state) :
  (forall r st',
     MarkdownWriter_insert_image img ds fmt position size kw st = (inr r, st') ->
     target_format r = ".md") /\
  (forall s,
     st_heap st !! img = Some s ->
     default true (kw_embed kw) = true ->
     ds = None ->
     exists r st',
       MarkdownWriter_insert_image img ds fmt position size kw st = (inr r, st') /\
       target_format r = ".md").
Proof.
  split.
  - intros r st' Hrun. apply insert_image_inv in Hrun.
    now destruct Hrun as (s & content & _ & -> & _).
  - intros s Himg Hembed ->.
    destruct (insert_image_embed_run img None fmt position size kw st s
                Himg Hembed I) as (r & st' & Hrun).
    exists r, st'. split; [exact Hrun|].
    apply insert_image_inv in Hrun.
    now destruct Hrun as (s' & content & _ & -> & _).
Qed.

End MarkdownClaims.

Lemma markdown_embedded_roundtrip_witness :
  exists E,
    Base64.b64decode E = Some sample_image /\
    exists st',
      MarkdownWriter_insert_image 0 None ".md" None None no_kwargs sample_state =
      (inr (mkWriteResult
              (utf8_encode
                 (("![image](data:image/png;base64," +:+ E +:+ ")") +:+ nl))
              ".md" 1 (MarkdownMeta true "image")), st').
Proof.
  destruct (markdown_embedded_roundtrip 0 None ".md" None None no_kwargs
              sample_state (mkBytesIO sample_image 2) eq_refl eq_refl)
    as (E & Hdec & _ & Hrun).
  exists E. split; [exact Hdec|]. exact (Hrun eq_refl).
Defined.

Lemma markdown_content_witness :
  exists r st',
    MarkdownWriter_insert_image 0 (Some 1) ".markdown" after_charts None
      no_kwargs sample_state = (inr r, st') /\
    output r =
    utf8_encode
      (Py.join nl
         ["# Intro"; "Text."; "  ## Charts"; EmptyString;
          md_tag no_kwargs sample_image; "More."; EmptyString]).
Proof.
  destruct (markdown_content 0 (Some 1) ".markdown" after_charts None
              no_kwargs sample_state) as [Hinv Hrun].
  destruct (Hrun (mkBytesIO sample_image 2) eq_refl eq_refl) as (r & st' & Hr).
  { exists (mkBytesIO (Ref.encode sample_document) 0), sample_document.
    split; reflexivity. }
  exists r, st'. split; [exact Hr|].
  destruct (Hinv r st' Hr) as (s & Hs & sd & body & Hd & Hdec & Hhead & _).
  injection Hs as <-. injection Hd as <-.
  injection Hdec as <-.
  apply (Hhead "Charts" ["# Intro"; "Text."] "  ## Charts" ["More."; EmptyString]).
  - reflexivity.
  - reflexivity.
  - repeat constructor.
  - reflexivity.
Defined.

Lemma markdown_result_format_witness :
  exists r st',
    MarkdownWriter_insert_image 0 None ".mkd" None None no_kwargs sample_state =
    (inr r, st') /\
    target_format r = ".md".
Proof.
  destruct (markdown_result_format 0 None ".mkd" None None no_kwargs
              sample_state) as [_ Hrun].
  exact (Hrun (mkBytesIO sample_image 2) eq_refl eq_refl eq_refl).
Defined.

(* ================================================================== *)
(** * [DocxWriter.insert_image] and [PptxWriter.insert_image] *)
(* ================================================================== *)

Section OfficeFacts.
Context {P : Platform} {D : DocxBackend} {B : PptxBackend}.

Lemma read_image_run {A} (st : state) (img : addr) (s : BytesIO)
    (k : bytes -> M A) :
  st_heap st !! img = Some s ->
  (let* _ := seek img 0 in let* image := image_of img in k image) st =
  k (buf s) (rewound st img s).
Proof. apply read_all_run. Qed.

Lemma py_index_nonempty {A} (l : list A) :
  l <> [] ->
  exists x,
    py_index l (Z.min 6 (Z.of_nat (length l) - 1)) = inr x /\
    nth_error l (Nat.min 6 (length l - 1)) = Some x.
Proof.
  intros Hne. destruct l as [|y l]; [congruence|].
  unfold py_index.
  set (n := Z.of_nat (length (y :: l))).
  assert (Hn : (1 <= n)%Z) by (subst n; simpl length; lia).
  assert (Hlt : (Z.min 6 (n - 1) <? 0)%Z = false) by lia.
  rewrite Hlt.
  assert (Hin : ((0 <=? Z.min 6 (n - 1)) && (Z.min 6 (n - 1) <? n))%Z = true)
    by lia.
  rewrite Hin.
  assert (Hidx : Z.to_nat (Z.min 6 (n - 1)) = Nat.min 6 (length (y :: l) - 1))
    by (subst n; lia).
  rewrite Hidx.
  destruct (nth_error (y :: l) (Nat.min 6 (length (y :: l) - 1))) as [x|] eqn:E.
  - now exists x.
  - apply nth_error_None in E. simpl length in *. lia.
Qed.

(** C5, amended. With python-docx available and the document loaded, a
    [paragraph] hint outside the indices of the document's paragraphs
    makes the writer call [doc.add_picture], which appends at the end of
    the document, and the call returns when the library accepts the
    picture.  With python-pptx available, the presentation loaded and
    at least one slide layout in it, a [slide] hint outside
    1..(number of slides), or no [slide] hint, makes the writer add a
    slide from the layout of index min(6, number of layouts - 1) and
    put the picture on that slide, and the call returns when the
    library's calls do. *)
Theorem position_fallback
    (img : addr) (ds : option addr) (fmt : string)
    (position : option position_hint) (size : option size_hint)
    (kw : kwargs) (st st1 : state) (s : BytesIO) :
  (forall doc doc' N,
     docx_available = true ->
     docx_load ds st = (inr doc, st1) ->
     st_heap st1 !! img = Some s ->
     hint position paragraph = Some N ->
     (N < 0 \/ Z.of_nat (length (paragraphs doc)) <= N)%Z ->
     doc_add_picture doc (buf s) (fst (sizing size 6)) (snd (sizing size 6))
     = inr doc' ->
     DocxWriter_insert_image img ds fmt position size kw st =
     (inr (mkWriteResult (Document_save doc') ".docx" 1
             (DocxMeta (size_or size 6))),
      rewound st1 img s)) /\
  (forall prs layout prs1 new_slide prs2,
     pptx_available = true ->
     pptx_load ds st = (inr prs, st1) ->
     st_heap st1 !! img = Some s ->
     (hint position slide = None \/
      exists N, hint position slide = Some N /\
                (N < 1 \/ Z.of_nat (length (slides prs)) < N)%Z) ->
     nth_error (slide_layouts prs) (Nat.min 6 (length (slide_layouts prs) - 1))
     = Some layout ->
     add_slide prs layout = inr (prs1, new_slide) ->
     add_picture prs1 new_slide (buf s)
       (Inches (default 1%Q (hint position left)))
       (Inches (default 1%Q (hint position top)))
       (fst (sizing size 8)) (snd (sizing size 8)) = inr prs2 ->
     PptxWriter_insert_image img ds fmt position size kw st =
     (inr (mkWriteResult (Presentation_save prs2) ".pptx" 1
             (PptxMeta (length (slides prs2)) (size_or size 8))),
      rewound st1 img s)).
Proof.
  split.
  - intros doc doc' N Hav Hload Himg Hhint Hrange Hadd.
    unfold DocxWriter_insert_image. rewrite Hav.
    change (negb true) with false. cbv beta iota.
    unfold bind at 1. rewrite Hload.
    destruct (sizing size 6) as [w h] eqn:Hsz. simpl in Hadd.
    rewrite Hhint.
    assert (Hout : ((0 <=? N) && (N <? Z.of_nat (length (paragraphs doc))))%Z
                   = false) by lia.
    rewrite Hout.
    unfold bind, image_of. rewrite (seek_run st1 img s 0 Himg).
    erewrite read_run by (simpl; apply lookup_insert_eq).
    simpl. rewrite drop_0, Hadd. simpl. unfold ret, rewound.
    now rewrite insert_insert_eq.
  - intros prs layout prs1 new_slide prs2 Hav Hload Himg Hhint Hlay Hslide Hpic.
    unfold PptxWriter_insert_image. rewrite Hav.
    change (negb true) with false. cbv beta iota.
    unfold bind at 1. rewrite Hload.
    assert (Hex : existing_slide prs position = None).
    { unfold existing_slide. destruct Hhint as [-> | (N & -> & Hr)];
        [reflexivity|].
      assert (Hout : ((1 <=? N) && (N <=? Z.of_nat (length (slides prs))))%Z
                     = false) by lia.
      now rewrite Hout. }
    rewrite Hex.
    assert (Hnew : new_blank_slide prs = inr (prs1, new_slide)).
    { unfold new_blank_slide.
      destruct (py_index_nonempty (slide_layouts prs)) as (x & Hx & Hx').
      - intros E. rewrite E in Hlay. now destruct (Nat.min 6 _).
      - rewrite Hx. assert (x = layout) by congruence. now subst x. }
    rewrite Hnew. unfold bind at 1. simpl lift. unfold ret at 1.
    destruct (sizing size 8) as [w h] eqn:Hsz. simpl in Hpic.
    unfold bind, image_of. rewrite (seek_run st1 img s 0 Himg).
    erewrite read_run by (simpl; apply lookup_insert_eq).
    simpl. rewrite drop_0, Hpic. simpl. unfold ret, rewound.
    now rewrite insert_insert_eq.
Qed.

End OfficeFacts.

(** C5, as the specification states it, fails: a presentation without
    slide layouts has no layout to build the new slide from, and the
    call with a slide number out of range raises [IndexError]; and
    without python-docx every call of [DocxWriter.insert_image] raises
    [ImportError], also with a paragraph index out of range. *)
Lemma position_fallback_fails :
  fst (pptx_load (Some 1) (office_state bare_pptx)) =
  inr (Ref.mkPresentation [] []) /\
  fst (PptxWriter_insert_image 0 (Some 1) ".pptx" (on_slide 3) None no_kwargs
         (office_state bare_pptx)) =
  inl (IndexError "list index out of range") /\
  fst (PptxWriter_insert_image 0 (Some 1) ".pptx" None None no_kwargs
         (office_state bare_pptx)) =
  inl (IndexError "list index out of range") /\
  fst (DocxWriter_insert_image (D := docx_missing) 0 (Some 1) ".docx"
         (at_paragraph 99) None no_kwargs (office_state sample_docx)) =
  inl (ImportError ("python-docx is required for DOCX writing. " +:+
                    "Install it with: pip install 'markitwrite[docx]'")).
Proof. repeat split; vm_compute; reflexivity. Qed.

Lemma position_fallback_witness :
  (exists st',
     DocxWriter_insert_image 0 (Some 1) ".docx" (at_paragraph 2) None no_kwargs
       (office_state sample_docx) =
     (inr (mkWriteResult
             (Ref.docx_print
                [Ref.Para "a"; Ref.Para "b";
                 Ref.Picture sample_image (Some (Inches 6)) None])
             ".docx" 1 (DocxMeta (mkSize (Some 6%Q) None))), st')) /\
  (exists st',
     PptxWriter_insert_image 0 (Some 1) ".pptx" (on_slide 3) None no_kwargs
       (office_state sample_pptx) =
     (inr (mkWriteResult [x50; x4b; x0b; x03] ".pptx" 1
             (PptxMeta 3 (mkSize (Some 8%Q) None))), st')).
Proof.
  split.
  - eexists.
    apply (proj1 (position_fallback (D := Ref.docx) (B := Ref.pptx) 0 (Some 1) ".docx" (at_paragraph 2) None
                    no_kwargs (office_state sample_docx)
                    (rewound (office_state sample_docx) 1
                       (mkBytesIO sample_docx 0))
                    (mkBytesIO sample_image 0))
             [Ref.Para "a"; Ref.Para "b"]
             [Ref.Para "a"; Ref.Para "b";
              Ref.Picture sample_image (Some (Inches 6)) None]
             2%Z).
    + reflexivity.
    + vm_compute. reflexivity.
    + vm_compute. reflexivity.
    + reflexivity.
    + right. simpl. lia.
    + reflexivity.
  - eexists.
    apply (proj2 (position_fallback (D := Ref.docx) (B := Ref.pptx) 0 (Some 1) ".pptx" (on_slide 3) None
                    no_kwargs (office_state sample_pptx)
                    (rewound (office_state sample_pptx) 1
                       (mkBytesIO sample_pptx 0))
                    (mkBytesIO sample_image 0))
             (Ref.mkPresentation Ref.default_layouts
                [Ref.mkSlide 0 "Title Slide" []; Ref.mkSlide 1 "Title Slide" []])
             "Blank"
             (Ref.mkPresentation Ref.default_layouts
                [Ref.mkSlide 0 "Title Slide" []; Ref.mkSlide 1 "Title Slide" [];
                 Ref.mkSlide 2 "Blank" []])
             (Ref.mkSlide 2 "Blank" [])
             (Ref.mkPresentation Ref.default_layouts
                [Ref.mkSlide 0 "Title Slide" []; Ref.mkSlide 1 "Title Slide" [];
                 Ref.mkSlide 2 "Blank"
                   [(sample_image, Inches 1, Inches 1, Some (Inches 8), None)]])).
    + reflexivity.
    + vm_compute. reflexivity.
    + vm_compute. reflexivity.
    + right. exists 3%Z. split; [reflexivity | right; simpl; lia].
    + reflexivity.
    + reflexivity.
    + reflexivity.
Defined.

(* ================================================================== *)
(** * More on the registry: registering writers *)
(* ================================================================== *)

Section BestFacts.
Context {A : Type} (key : A -> Q) (p : A -> bool).

Lemma is_best_unique (l : list A) (i i' : nat) (r r' : A) :
  is_best key p l i r -> is_best key p l i' r' -> i = i' /\ r = r'.
Proof.
  intros (Hi & Pr & Hmin) (Hi' & Pr' & Hmin').
  destruct (Hmin i' r' Hi' Pr') as [Hlt | [Heq Hle]];
    destruct (Hmin' i r Hi Pr) as [Hlt' | [Heq' Hle']].
  - exfalso. apply (Qlt_irrefl (key r)). now apply Qlt_trans with (key r').
  - exfalso. rewrite Heq' in Hlt. now apply (Qlt_irrefl (key r)).
  - exfalso. rewrite Heq in Hlt'. now apply (Qlt_irrefl (key r')).
  - assert (i = i') by lia. subst i'. split; [reflexivity | congruence].
Qed.

Lemma best_intro (l : list A) (i : nat) (r : A) :
  is_best key p l i r -> best key p l = Some r.
Proof.
  intros H. destruct (best key p l) as [r'|] eqn:B.
  - destruct (best_Some key p l r' B) as (i' & Hi' & Pr' & Hmin').
    destruct (is_best_unique l i i' r r' H) as [_ ->]; [|reflexivity].
    repeat split; assumption.
  - destruct H as (Hi & Pr & _). rewrite best_None in B.
    apply nth_error_In in Hi. specialize (B r Hi). congruence.
Qed.

Lemma best_is_best (l : list A) (r : A) :
  best key p l = Some r -> exists i, is_best key p l i r.
Proof.
  intros B. destruct (best_Some key p l r B) as (i & H). now exists i.
Qed.

End BestFacts.

Section RegisterWriter.
Context {P : Platform}.

Lemma nth_error_snoc {A} (l : list A) (x : A) (j : nat) (y : A) :
  nth_error (l ++ [x]) j = Some y ->
  (j < length l /\ nth_error l j = Some y) \/ (j = length l /\ y = x).
Proof.
  intros H. destruct (Nat.lt_ge_cases j (length l)) as [Hlt | Hge].
  - left. split; [exact Hlt|]. now rewrite nth_error_app1 in H.
  - right. rewrite nth_error_app2 in H by exact Hge.
    destruct (j - length l) as [|k] eqn:E; simpl in H.
    + split; [lia | congruence].
    + now destruct k.
Qed.

(** X1. A writer registered with a priority strictly below the priority
    of every registered writer that accepts the format is the one that
    [_find_writer] returns for every format it accepts. *)
Theorem register_writer_wins
    (self : MarkItWrite) (w : DocumentWriter) (prio : Q) (f : string) :
  accepts w f = true ->
  (forall reg, In reg (_writers self) -> accepts (writer reg) f = true ->
     (prio < priority reg)%Q) ->
  _find_writer (register_writer self w prio) f = inr w.
Proof.
  intros Hacc Hlow. rewrite find_writer_best. unfold register_writer. simpl.
  rewrite (best_intro priority _ _ (length (_writers self))
             (mkRegistration w prio)); [reflexivity|].
  split; [|split].
  - rewrite nth_error_app2 by lia. now rewrite Nat.sub_diag.
  - exact Hacc.
  - intros j reg' Hj Pr'. apply nth_error_snoc in Hj.
    destruct Hj as [[Hlt Hj] | [-> ->]].
    + left. simpl. apply Hlow; [|exact Pr']. now apply nth_error_In in Hj.
    + right. split; [reflexivity | lia].
Qed.

(** X2. Registering a writer does not change the writer selected for a
    format when the new writer does not accept the format, or when some
    registered writer that accepts it has a priority not above the new
    one: among equal priorities the earlier registration is kept. *)
Theorem register_writer_keeps
    (self : MarkItWrite) (w w0 : DocumentWriter) (prio : Q) (f : string) :
  (accepts w f = false \/
   exists reg, In reg (_writers self) /\ accepts (writer reg) f = true /\
               (priority reg <= prio)%Q) ->
  _find_writer self f = inr w0 ->
  _find_writer (register_writer self w prio) f = inr w0.
Proof.
  intros Hside Hfound. rewrite find_writer_best in *.
  destruct (best priority (fun reg => accepts (writer reg) f) (_writers self))
    as [reg0|] eqn:B; [|discriminate].
  injection Hfound as <-.
  destruct (best_is_best _ _ _ _ B) as (i & Hi & Pr & Hmin).
  unfold register_writer. simpl.
  rewrite (best_intro priority _ _ i reg0); [reflexivity|].
  assert (Hlen : i < length (_writers self))
    by (apply nth_error_Some; congruence).
  split; [|split].
  - now rewrite nth_error_app1.
  - exact Pr.
  - intros j reg' Hj Pr'. apply nth_error_snoc in Hj.
    destruct Hj as [[Hlt Hj] | [-> ->]]; [now apply Hmin|].
    simpl in Pr'. destruct Hside as [Hno | (reg & Hin & Hacc & Hle)];
      [congruence|].
    apply In_nth_error in Hin. destruct Hin as (k & Hk).
    simpl priority.
    destruct (Hmin k reg Hk Hacc) as [Hlt | [Heq _]].
    + destruct (Qlt_le_dec (priority reg0) prio) as [H | H]; [now left|].
      exfalso. apply (Qlt_irrefl (priority reg0)).
      apply Qlt_le_trans with (priority reg); [exact Hlt|].
      now apply Qle_trans with prio.
    + destruct (Qlt_le_dec (priority reg0) prio) as [H | H]; [now left|].
      right. split; [|lia]. apply Qle_antisym; [|exact H].
      now rewrite Heq.
Qed.

End RegisterWriter.

Section FormatsFacts.
Context {P : Platform}.

Lemma supported_formats_In (self : MarkItWrite) (x : string) :
  In x (supported_formats self) <-> In x (all_extensions self).
Proof.
  unfold supported_formats. rewrite sorted_str_In.
  rewrite <- list_elem_of_In, elem_of_elements, elem_of_list_to_set.
  apply list_elem_of_In.
Qed.

Lemma all_extensions_register (self : MarkItWrite) (w : DocumentWriter) (prio : Q) :
  all_extensions (register_writer self w prio) =
  (all_extensions self ++ ACCEPTED_EXTENSIONS w)%list.
Proof.
  unfold all_extensions, register_writer. simpl.
  rewrite flat_map_app. simpl. now rewrite app_nil_r.
Qed.

(** X3. After [register_writer], [supported_formats] lists what it
    listed before together with the extensions of the new writer, and
    nothing else. *)
Theorem supported_formats_register
    (self : MarkItWrite) (w : DocumentWriter) (prio : Q) (x : string) :
  In x (supported_formats (register_writer self w prio)) <->
  In x (supported_formats self) \/ In x (ACCEPTED_EXTENSIONS w).
Proof.
  rewrite !supported_formats_In, all_extensions_register.
  apply in_app_iff.
Qed.

Lemma accepting_registration (self : MarkItWrite) (f : string) :
  (exists reg, In reg (_writers self) /\ accepts (writer reg) f = true) <->
  In (normalized_format f) (all_extensions self).
Proof.
  unfold all_extensions. rewrite in_flat_map. split.
  - intros (reg & Hin & Hacc). exists reg. split; [exact Hin|].
    rewrite accepts_unfold in Hacc. now apply str_in_In.
  - intros (reg & Hin & Hext). exists reg. split; [exact Hin|].
    rewrite accepts_unfold. now apply str_in_In.
Qed.

(** X4. [_find_writer] returns a writer exactly for the formats whose
    normal form is listed by [supported_formats]; for every other
    format it raises the no-writer [ValueError]. *)
Theorem find_writer_iff_supported (self : MarkItWrite) (f : string) :
  ((exists w, _find_writer self f = inr w) <->
   In (normalized_format f) (supported_formats self)) /\
  (~ In (normalized_format f) (supported_formats self) ->
   _find_writer self f = inl (ValueError (no_writer_message self f))).
Proof.
  rewrite supported_formats_In, <- accepting_registration.
  rewrite find_writer_best.
  destruct (best priority (fun reg => accepts (writer reg) f) (_writers self))
    as [reg|] eqn:B.
  - destruct (best_is_best _ _ _ _ B) as (i & Hi & Pr & _).
    apply nth_error_In in Hi.
    split; [split; eauto|]. intros Hno. exfalso. apply Hno. eauto.
  - rewrite best_None in B. split; [|reflexivity]. split.
    + intros (w & Hw). discriminate.
    + intros (reg & Hin & Hacc). specialize (B reg Hin). simpl in B. congruence.
Qed.

(** X5. A dispatcher whose writers declare no extension (as the one
    built with [enable_builtins=False]) finds no writer for any format,
    and the message of the error names the format and says that none is
    available. *)
Theorem find_writer_no_extensions (self : MarkItWrite) (f : string) :
  all_extensions self = [] ->
  _find_writer self f =
  inl (ValueError ("No writer found for format '" +:+ f +:+ "'. " +:+
                   "Available formats: none (install optional deps)")).
Proof.
  intros Hnone. rewrite find_writer_none.
  - unfold no_writer_message. now rewrite Hnone.
  - intros reg Hin.
    destruct (accepts (writer reg) f) eqn:Hacc; [|reflexivity].
    exfalso. assert (H : In (normalized_format f) (all_extensions self))
      by (apply accepting_registration; eauto).
    now rewrite Hnone in H.
Qed.

End FormatsFacts.

Lemma register_writer_wins_witness :
  _find_writer
    (register_writer builtins (mkWriter "Mine" [".md"] MarkdownWriter_insert_image)
       (-1))
    "MD" =
  inr (mkWriter "Mine" [".md"] MarkdownWriter_insert_image).
Proof.
  apply register_writer_wins.
  - reflexivity.
  - intros reg [<- | [<- | [<- | []]]] _; reflexivity.
Defined.

Lemma register_writer_keeps_witness :
  _find_writer
    (register_writer builtins (mkWriter "Mine" [".md"] MarkdownWriter_insert_image) 0)
    "MD" = inr MarkdownWriter /\
  _find_writer
    (register_writer builtins (mkWriter "Mine" [".md"] MarkdownWriter_insert_image)
       (-1))
    "docx" = inr DocxWriter.
Proof.
  split.
  - apply register_writer_keeps; [|reflexivity].
    right. exists (mkRegistration MarkdownWriter 0).
    split; [simpl; auto|]. split; [reflexivity|]. apply Qle_refl.
  - apply register_writer_keeps; [|reflexivity]. left. reflexivity.
Defined.

Lemma find_writer_iff_supported_witness :
  _find_writer builtins ".xyz" =
  inl (ValueError (no_writer_message builtins ".xyz")).
Proof.
  apply (proj2 (find_writer_iff_supported builtins ".xyz")).
  vm_compute. intros H. repeat (destruct H as [H | H]; [discriminate|]).
  exact H.
Defined.

Lemma find_writer_no_extensions_witness :
  _find_writer (MarkItWrite_init false) ".docx" =
  inl (ValueError ("No writer found for format '.docx'. " +:+
                   "Available formats: none (install optional deps)")).
Proof.
  apply (find_writer_no_extensions (MarkItWrite_init false) ".docx").
  reflexivity.
Defined.

(* ================================================================== *)
(** * More on format resolution and the built-in routing *)
(* ================================================================== *)

Lemma resolve_target_format_shape (t e : option string) :
  Py.lower (_resolve_target_format t e) = _resolve_target_format t e /\
  Py.startswith (_resolve_target_format t e) "." = true.
Proof.
  unfold _resolve_target_format.
  destruct (Py.truthy e) eqn:He.
  - destruct e as [s|]; [|discriminate]. simpl default.
    pose proof (normalized_format_shape s) as H.
    rewrite normalized_format_lower in H.
    now destruct (Py.startswith (Py.lower s) ".").
  - destruct (Py.truthy t); [|split; reflexivity].
    pose proof (splitext_ext (default EmptyString t)) as Hx.
    destruct (Py.splitext _) as [root ext]. simpl in Hx.
    destruct (Py.nonempty ext) eqn:N; [|split; reflexivity].
    destruct Hx as [-> | Hx]; [discriminate|].
    split; [apply lower_idem | now rewrite startswith_lower_dot].
Qed.

Lemma normalized_format_fixed (r : string) :
  Py.lower r = r -> Py.startswith r "." = true -> normalized_format r = r.
Proof. intros Hl Hd. unfold normalized_format. now rewrite Hd. Qed.

(** X6. The resolved format is a fixed point: normalizing it again, as
    [accepts] does, gives it back, and resolving with it as explicit
    format gives it back for every target path. *)
Theorem resolve_target_format_idempotent (t t' e : option string) :
  normalized_format (_resolve_target_format t e) = _resolve_target_format t e /\
  _resolve_target_format t' (Some (_resolve_target_format t e)) =
  _resolve_target_format t e.
Proof.
  destruct (resolve_target_format_shape t e) as [Hl Hd].
  assert (Hn : normalized_format (_resolve_target_format t e) =
               _resolve_target_format t e)
    by now apply normalized_format_fixed.
  split; [exact Hn|].
  set (r := _resolve_target_format t e) in *.
  unfold _resolve_target_format at 1.
  destruct r as [|c r]; [discriminate|]. simpl Py.truthy. cbv iota.
  simpl default. rewrite Hl, Hd. reflexivity.
Qed.

Section Routing.
Context {P : Platform} {D : DocxBackend} {B : PptxBackend}.

(** X7. The dispatcher with the built-in writers sends [.docx] to
    [DocxWriter], [.pptx] to [PptxWriter], the four Markdown extensions
    to [MarkdownWriter], in any case and with or without the dot, and
    raises the no-writer error for every other format. *)
Theorem builtins_routing (f : string) :
  let nf := normalized_format f in
  _find_writer builtins f =
  if String.eqb nf ".docx" then inr DocxWriter
  else if String.eqb nf ".pptx" then inr PptxWriter
  else if str_in nf [".md"; ".markdown"; ".mdown"; ".mkd"] then inr MarkdownWriter
  else inl (ValueError (no_writer_message builtins f)).
Proof.
  cbv zeta. unfold _find_writer.
  change (sorted_by priority (_writers builtins))
    with [mkRegistration DocxWriter 0; mkRegistration PptxWriter 0;
          mkRegistration MarkdownWriter 0].
  simpl find. rewrite !accepts_unfold. simpl ACCEPTED_EXTENSIONS.
  unfold str_in at 1 2. simpl existsb. rewrite !orb_false_r.
  destruct (String.eqb (normalized_format f) ".docx"); [reflexivity|].
  destruct (String.eqb (normalized_format f) ".pptx"); [reflexivity|].
  now destruct (str_in (normalized_format f) _).
Qed.

End Routing.

(* ================================================================== *)
(** * More on streams: image sources, [to_stream], frames *)
(* ================================================================== *)

Section ImageSources.
Context {P : Platform}.

Lemma fresh_addr (st : state) : st_heap st !! fresh (dom (st_heap st)) = None.
Proof. apply not_elem_of_dom, is_fresh. Qed.

(** X8. For raw bytes and for a path, [_resolve_image] puts the bytes in
    a new stream at an address not in use, read position 0, and changes
    nothing else; the type is ["image/png"] for raw bytes and the guess
    of [mimetypes], or ["image/png"] without one, for a path.  When the
    file cannot be read the error of reading it is raised and the state
    is unchanged. *)
Theorem resolve_image_bytes_and_path (st : state) :
  let l := fresh (dom (st_heap st)) in
  st_heap st !! l = None /\
  (forall data,
     _resolve_image (SrcBytes data) st =
     (inr (l, "image/png"),
      mkState (st_world st) (<[l := mkBytesIO data 0]> (st_heap st)))) /\
  (forall path data,
     read_file path (st_world st) = inr data ->
     _resolve_image (SrcPath path) st =
     (inr (l, Py.or_else (guess_type path) "image/png"),
      mkState (st_world st) (<[l := mkBytesIO data 0]> (st_heap st)))) /\
  (forall path err,
     read_file path (st_world st) = inl err ->
     _resolve_image (SrcPath path) st = (inl err, st)).
Proof.
  cbv zeta. split; [apply fresh_addr|]. split; [|split].
  - intros data. reflexivity.
  - intros path data H. unfold _resolve_image, bind, open_read. now rewrite H.
  - intros path err H. unfold _resolve_image, bind, open_read. now rewrite H.
Qed.

(** X9. Reading the stream that [to_stream] returns gives the output
    bytes of the result, and the stream is a new one. *)
Theorem to_stream_read (r : WriteResult) (st : state) :
  let l := fresh (dom (st_heap st)) in
  st_heap st !! l = None /\
  (let* s := to_stream r in let* data := read s in ret (s, data)) st =
  (inr (l, output r),
   mkState (st_world st)
     (<[l := mkBytesIO (output r) (length (output r))]> (st_heap st))).
Proof.
  cbv zeta. split; [apply fresh_addr|].
  unfold to_stream, bind, new_BytesIO, seek, read, ret. simpl.
  rewrite lookup_insert_eq. simpl. rewrite lookup_insert_eq. simpl.
  now rewrite !insert_insert_eq.
Qed.

End ImageSources.

Lemma resolve_image_bytes_and_path_witness :
  _resolve_image (SrcPath "shot.JPG")
    (disk_state {[ "shot.JPG" := sample_image ]} ∅) =
  (inr (0, "image/jpeg"),
   disk_state {[ "shot.JPG" := sample_image ]}
     (<[0 := mkBytesIO sample_image 0]> ∅)) /\
  _resolve_image (SrcPath "missing.png") Ref.empty_state =
  (inl (OSError "No such file or directory: 'missing.png'"), Ref.empty_state).
Proof.
  split.
  - assert (Hread : read_file "shot.JPG"
                      (st_world (disk_state {[ "shot.JPG" := sample_image ]} ∅))
                    = inr sample_image) by (vm_compute; reflexivity).
    rewrite (proj1 (proj2 (proj2 (resolve_image_bytes_and_path
               (disk_state {[ "shot.JPG" := sample_image ]} ∅))))
               "shot.JPG" sample_image Hread).
    vm_compute. reflexivity.
  - apply (proj2 (proj2 (proj2 (resolve_image_bytes_and_path Ref.empty_state)))
             "missing.png").
    reflexivity.
Defined.

(* ================================================================== *)
(** * What the writers and [paste] leave alone *)
(* ================================================================== *)

Section Frames.
Context {P : Platform}.

Lemma keeps_world_ret {A} (a : A) : keeps_world (ret a).
Proof. intros st. reflexivity. Qed.

Lemma keeps_world_raise {A} (e : exn) : keeps_world (raise (A := A) e).
Proof. intros st. reflexivity. Qed.

Lemma keeps_world_lift {A} (r : exn + A) : keeps_world (lift r).
Proof. destruct r; intros st; reflexivity. Qed.

Lemma keeps_world_bind {A B} (m : M A) (k : A -> M B) :
  keeps_world m -> (forall a, keeps_world (k a)) -> keeps_world (bind m k).
Proof.
  intros Hm Hk st. unfold bind. specialize (Hm st).
  destruct (m st) as [[e|a] st1]; simpl in *; [exact Hm|].
  now rewrite Hk.
Qed.

Lemma keeps_world_tell (l : addr) : keeps_world (tell l).
Proof. intros st. unfold tell. now destruct (st_heap st !! l). Qed.

Lemma keeps_world_read (l : addr) : keeps_world (read l).
Proof. intros st. unfold read. now destruct (st_heap st !! l). Qed.

Lemma keeps_world_seek (l : addr) (n : nat) : keeps_world (seek l n).
Proof. intros st. unfold seek. now destruct (st_heap st !! l). Qed.

Lemma keeps_world_new (data : bytes) : keeps_world (new_BytesIO data).
Proof. intros st. reflexivity. Qed.

Lemma keeps_world_open_read (path : string) : keeps_world (open_read path).
Proof. intros st. reflexivity. Qed.

Lemma keeps_world_isfile (path : string) : keeps_world (os_isfile path).
Proof. intros st. reflexivity. Qed.

Lemma keeps_buffers_ret {A} (a : A) : keeps_buffers (ret a).
Proof. intros st l s H. now exists s. Qed.

Lemma keeps_buffers_raise {A} (e : exn) : keeps_buffers (raise (A := A) e).
Proof. intros st l s H. now exists s. Qed.

Lemma keeps_buffers_lift {A} (r : exn + A) : keeps_buffers (lift r).
Proof. destruct r; intros st l s H; now exists s. Qed.

Lemma keeps_buffers_bind {A B} (m : M A) (k : A -> M B) :
  keeps_buffers m -> (forall a, keeps_buffers (k a)) -> keeps_buffers (bind m k).
Proof.
  intros Hm Hk st l s H. unfold bind.
  destruct (Hm st l s H) as (s1 & H1 & E1).
  destruct (m st) as [[e|a] st1]; simpl in *; [now exists s1|].
  destruct (Hk a st1 l s1 H1) as (s2 & H2 & E2).
  exists s2. split; [exact H2 | congruence].
Qed.

Lemma keeps_buffers_tell (l : addr) : keeps_buffers (tell l).
Proof.
  intros st k s H. unfold tell. destruct (st_heap st !! l); now exists s.
Qed.

Lemma keeps_buffers_update (st : state) (l k : addr) (s0 s : BytesIO) (n : nat) :
  st_heap st !! l = Some s0 -> st_heap st !! k = Some s ->
  exists s', <[l := mkBytesIO (buf s0) n]> (st_heap st) !! k = Some s' /\
             buf s' = buf s.
Proof.
  intros Hl Hk. destruct (decide (l = k)) as [<- | Hne].
  - rewrite lookup_insert_eq. eexists. split; [reflexivity|]. simpl. congruence.
  - rewrite lookup_insert_ne by exact Hne. now exists s.
Qed.

Lemma keeps_buffers_read (l : addr) : keeps_buffers (read l).
Proof.
  intros st k s H. unfold read.
  destruct (st_heap st !! l) as [s0|] eqn:Hl; [|now exists s].
  simpl. now apply keeps_buffers_update.
Qed.

Lemma keeps_buffers_seek (l : addr) (n : nat) : keeps_buffers (seek l n).
Proof.
  intros st k s H. unfold seek.
  destruct (st_heap st !! l) as [s0|] eqn:Hl; [|now exists s].
  simpl. now apply keeps_buffers_update.
Qed.

Lemma keeps_buffers_new (data : bytes) : keeps_buffers (new_BytesIO data).
Proof.
  intros st k s H. unfold new_BytesIO. simpl.
  rewrite lookup_insert_ne; [now exists s|].
  intros E. rewrite <- E, fresh_addr in H. discriminate.
Qed.

Lemma keeps_buffers_open_read (path : string) : keeps_buffers (open_read path).
Proof. intros st k s H. now exists s. Qed.

Lemma keeps_buffers_isfile (path : string) : keeps_buffers (os_isfile path).
Proof. intros st k s H. now exists s. Qed.

Lemma keeps_buffers_open_write (path : string) (data : bytes) :
  keeps_buffers (open_write path data).
Proof.
  intros st k s H. unfold open_write.
  destruct (write_file path data (st_world st)). now exists s.
Qed.

Lemma keeps_buffers_makedirs (path : string) : keeps_buffers (os_makedirs path).
Proof.
  intros st k s H. unfold os_makedirs.
  destruct (makedirs path (st_world st)). now exists s.
Qed.

End Frames.

(** one step of a proof that a computation keeps the file system, or
    the streams: through the structure of the computation *)
Ltac frame_step :=
  match goal with
  | |- keeps_world (bind _ _) => apply keeps_world_bind; [|intros ?]
  | |- keeps_world (ret _) => apply keeps_world_ret
  | |- keeps_world (raise _) => apply keeps_world_raise
  | |- keeps_world (lift _) => apply keeps_world_lift
  | |- keeps_world (tell _) => apply keeps_world_tell
  | |- keeps_world (read _) => apply keeps_world_read
  | |- keeps_world (image_of _) => apply keeps_world_read
  | |- keeps_world (seek _ _) => apply keeps_world_seek
  | |- keeps_world (new_BytesIO _) => apply keeps_world_new
  | |- keeps_world (open_read _) => apply keeps_world_open_read
  | |- keeps_world (os_isfile _) => apply keeps_world_isfile
  | |- keeps_buffers (bind _ _) => apply keeps_buffers_bind; [|intros ?]
  | |- keeps_buffers (ret _) => apply keeps_buffers_ret
  | |- keeps_buffers (raise _) => apply keeps_buffers_raise
  | |- keeps_buffers (lift _) => apply keeps_buffers_lift
  | |- keeps_buffers (tell _) => apply keeps_buffers_tell
  | |- keeps_buffers (read _) => apply keeps_buffers_read
  | |- keeps_buffers (image_of _) => apply keeps_buffers_read
  | |- keeps_buffers (seek _ _) => apply keeps_buffers_seek
  | |- keeps_buffers (new_BytesIO _) => apply keeps_buffers_new
  | |- keeps_buffers (open_read _) => apply keeps_buffers_open_read
  | |- keeps_buffers (os_isfile _) => apply keeps_buffers_isfile
  | |- keeps_buffers (open_write _ _) => apply keeps_buffers_open_write
  | |- keeps_buffers (os_makedirs _) => apply keeps_buffers_makedirs
  | |- context [match ?x with _ => _ end] => destruct x
  end.

Ltac frame := repeat frame_step.

Section WriterFrames.
Context {P : Platform} {D : DocxBackend} {B : PptxBackend}.

Lemma office_writers_frame_docx
    (img : addr) (ds : option addr) (fmt : string)
    (position : option position_hint) (size : option size_hint) (kw : kwargs) :
  keeps_world (DocxWriter_insert_image img ds fmt position size kw) /\
  keeps_buffers (DocxWriter_insert_image img ds fmt position size kw).
Proof. split; unfold DocxWriter_insert_image, docx_load; frame. Qed.

Lemma office_writers_frame_pptx
    (img : addr) (ds : option addr) (fmt : string)
    (position : option position_hint) (size : option size_hint) (kw : kwargs) :
  keeps_world (PptxWriter_insert_image img ds fmt position size kw) /\
  keeps_buffers (PptxWriter_insert_image img ds fmt position size kw).
Proof. split; unfold PptxWriter_insert_image, pptx_load; frame. Qed.

Lemma markdown_keeps_buffers
    (img : addr) (ds : option addr) (fmt : string)
    (position : option position_hint) (size : option size_hint) (kw : kwargs) :
  keeps_buffers (MarkdownWriter_insert_image img ds fmt position size kw).
Proof. unfold MarkdownWriter_insert_image. frame. Qed.

Lemma markdown_keeps_world
    (img : addr) (ds : option addr) (fmt : string)
    (position : option position_hint) (size : option size_hint) (kw : kwargs) :
  default true (kw_embed kw) = true \/ Py.truthy (kw_target_path kw) = false ->
  keeps_world (MarkdownWriter_insert_image img ds fmt position size kw).
Proof.
  intros Hmode. unfold MarkdownWriter_insert_image.
  frame_step; [frame|]. frame_step; [frame|].
  frame_step.
  - destruct (default true (kw_embed kw)) eqn:He; [frame|].
    destruct Hmode as [H | H]; [discriminate|]. rewrite H. frame.
  - frame.
Qed.

(** X10. [DocxWriter.insert_image] and [PptxWriter.insert_image] never
    write to the file system and never change the bytes of a stream,
    whether they return or raise: they only move read positions. *)
Theorem office_writers_frame
    (img : addr) (ds : option addr) (fmt : string)
    (position : option position_hint) (size : option size_hint) (kw : kwargs) :
  keeps_world (DocxWriter_insert_image img ds fmt position size kw) /\
  keeps_buffers (DocxWriter_insert_image img ds fmt position size kw) /\
  keeps_world (PptxWriter_insert_image img ds fmt position size kw) /\
  keeps_buffers (PptxWriter_insert_image img ds fmt position size kw).
Proof.
  destruct (office_writers_frame_docx img ds fmt position size kw).
  destruct (office_writers_frame_pptx img ds fmt position size kw).
  auto.
Qed.

(** X11. [MarkdownWriter.insert_image] never changes the bytes of a
    stream; and it never writes to the file system when the image is
    embedded or no [_target_path] is given. *)
Theorem markdown_writer_frame
    (img : addr) (ds : option addr) (fmt : string)
    (position : option position_hint) (size : option size_hint) (kw : kwargs) :
  keeps_buffers (MarkdownWriter_insert_image img ds fmt position size kw) /\
  (default true (kw_embed kw) = true \/ Py.truthy (kw_target_path kw) = false ->
   keeps_world (MarkdownWriter_insert_image img ds fmt position size kw)).
Proof.
  split; [apply markdown_keeps_buffers | apply markdown_keeps_world].
Qed.

End WriterFrames.

Section PasteFrames.
Context {P : Platform}.

Lemma find_writer_registered (self : MarkItWrite) (f : string) (w : DocumentWriter) :
  _find_writer self f = inr w ->
  exists reg, In reg (_writers self) /\ writer reg = w /\ accepts w f = true.
Proof.
  rewrite find_writer_best.
  destruct (best priority (fun reg => accepts (writer reg) f) (_writers self))
    as [reg|] eqn:B; [|discriminate].
  intros [= <-]. destruct (best_Some _ _ _ _ B) as (i & Hi & Pr & _).
  apply nth_error_In in Hi. now exists reg.
Qed.

Lemma bind_lift_inr {A B} (r : exn + A) (a : A) (k : A -> M B) :
  r = inr a -> bind (lift r) k = k a.
Proof. intros ->. reflexivity. Qed.

(** [paste] keeps the bytes of the streams when the registered writers
    do *)
Lemma paste_keeps_buffers
    (self : MarkItWrite) (src : image_source) (t e : option string)
    (position : option position_hint) (size : option size_hint) (kw : kwargs) :
  (forall reg img ds fmt pos sz kw',
     In reg (_writers self) ->
     keeps_buffers (insert_image (writer reg) img ds fmt pos sz kw')) ->
  keeps_buffers (paste self src t e position size kw).
Proof.
  intros Hw. unfold paste.
  destruct (_find_writer self (_resolve_target_format t e)) as [err|w] eqn:F.
  - exact (keeps_buffers_raise err).
  - rewrite (bind_lift_inr (inr w) w _ eq_refl).
    destruct (find_writer_registered _ _ _ F) as (reg & Hin & <- & _).
    frame_step.
    { unfold _resolve_image. destruct src; frame. }
    destruct a as [image_stream mime_type].
    frame_step; [frame|]. frame_step; [now apply Hw|].
    unfold save. frame.
Qed.

(** without a target, [paste] writes no file when the registered
    writers write none *)
Lemma paste_keeps_world
    (self : MarkItWrite) (src : image_source) (t e : option string)
    (position : option position_hint) (size : option size_hint) (kw : kwargs) :
  Py.truthy t = false ->
  (forall reg img ds fmt pos sz mime,
     In reg (_writers self) ->
     keeps_world (insert_image (writer reg) img ds fmt pos sz
                    (setdefault_mime_type kw mime))) ->
  keeps_world (paste self src t e position size kw).
Proof.
  intros Ht Hw. unfold paste. rewrite Ht.
  destruct (_find_writer self (_resolve_target_format t e)) as [err|w] eqn:F.
  - exact (keeps_world_raise err).
  - rewrite (bind_lift_inr (inr w) w _ eq_refl).
    destruct (find_writer_registered _ _ _ F) as (reg & Hin & <- & _).
    frame_step.
    { unfold _resolve_image. destruct src; frame. }
    destruct a as [image_stream mime_type].
    frame_step; [frame|]. frame_step; [now apply Hw|].
    frame.
Qed.

Lemma setdefault_keeps_options (kw : kwargs) (mime : string) :
  kw_embed (setdefault_mime_type kw mime) = kw_embed kw /\
  kw_target_path (setdefault_mime_type kw mime) = kw_target_path kw /\
  kw_alt_text (setdefault_mime_type kw mime) = kw_alt_text kw.
Proof. unfold setdefault_mime_type. now destruct (kw_mime_type kw). Qed.

Context {D : DocxBackend} {B : PptxBackend}.

(** X12. With the built-in writers, [paste] never changes the bytes of
    the caller's streams, whatever its outcome; and without a target
    path it never writes to the file system, provided the image is
    embedded or no [_target_path] option is passed. *)
Theorem paste_builtins_frame
    (src : image_source) (t e : option string)
    (position : option position_hint) (size : option size_hint) (kw : kwargs) :
  keeps_buffers (paste builtins src t e position size kw) /\
  (Py.truthy t = false ->
   default true (kw_embed kw) = true \/ Py.truthy (kw_target_path kw) = false ->
   keeps_world (paste builtins src t e position size kw)).
Proof.
  split.
  - apply paste_keeps_buffers.
    intros reg img ds fmt pos sz kw' [<- | [<- | [<- | []]]]; simpl.
    + apply office_writers_frame_docx.
    + apply office_writers_frame_pptx.
    + apply markdown_keeps_buffers.
  - intros Ht Hmode. apply paste_keeps_world; [exact Ht|].
    intros reg img ds fmt pos sz mime [<- | [<- | [<- | []]]]; simpl.
    + apply office_writers_frame_docx.
    + apply office_writers_frame_pptx.
    + apply markdown_keeps_world.
      destruct (setdefault_keeps_options kw mime) as (-> & -> & _).
      exact Hmode.
Qed.

End PasteFrames.

Lemma markdown_writer_frame_witness :
  keeps_world
    (MarkdownWriter_insert_image 0 None ".md" None None
       (mkKwargs (Some false) None None None None None)).
Proof.
  apply (proj2 (markdown_writer_frame 0 None ".md" None None
                  (mkKwargs (Some false) None None None None None))).
  right. reflexivity.
Defined.

Lemma paste_builtins_frame_witness :
  keeps_world
    (paste builtins (SrcBytes sample_image) None (Some "md") None None no_kwargs).
Proof.
  apply (proj2 (paste_builtins_frame (SrcBytes sample_image) None (Some "md")
                  None None no_kwargs)).
  - reflexivity.
  - left. reflexivity.
Defined.

(* ================================================================== *)
(** * More on the Markdown writer *)
(* ================================================================== *)

Section SpliceFacts.

Lemma join_cons_cons (sep x y : string) (l : list string) :
  Py.join sep (x :: y :: l) = x +:+ sep +:+ Py.join sep (y :: l).
Proof. reflexivity. Qed.

Lemma split_lines_nonempty (s : string) : Py.split_lines s <> [].
Proof.
  destruct s as [|c s]; simpl; [discriminate|].
  destruct (Ascii.eqb c "010"); [discriminate|].
  destruct (Py.split_lines s); discriminate.
Qed.

(** ["\n".join(s.split("\n"))] is [s] *)
Lemma join_split_lines (s : string) : Py.join nl (Py.split_lines s) = s.
Proof.
  induction s as [|c s IH]; [reflexivity|]. simpl Py.split_lines.
  destruct (Ascii.eqb c "010") eqn:E.
  - apply Ascii.eqb_eq in E. subst c.
    pose proof (split_lines_nonempty s) as Hne.
    destruct (Py.split_lines s) as [|x l]; [congruence|].
    rewrite join_cons_cons, IH. reflexivity.
  - pose proof (split_lines_nonempty s) as Hne.
    destruct (Py.split_lines s) as [|x l]; [congruence|].
    destruct l as [|y l].
    + simpl in *. now rewrite IH.
    + rewrite join_cons_cons in *. rewrite str_app_cons. now rewrite IH.
Qed.

(** X13. Inserting after a heading keeps the document: when the hint
    matches, the new content is the old one with exactly two lines added
    after the first matching heading line, an empty line and the
    reference; removing them gives the document back, byte for byte. *)
Theorem splice_keeps_document
    (existing : string) (position : option position_hint) (tag h : string)
    (insert_idx : nat) :
  hint position after_heading = Some h ->
  find_heading h (Py.split_lines existing) 0 = Some insert_idx ->
  exists pre line post,
    existing = Py.join nl (pre ++ line :: post) /\
    splice existing position tag =
    Py.join nl (pre ++ line :: EmptyString :: tag :: post) /\
    heading_line h line = true /\
    Forall (fun x => heading_line h x = false) pre /\
    insert_idx = length pre + 1.
Proof.
  intros Hh Hfind.
  destruct (find_heading_cases h (Py.split_lines existing) 0)
    as [(pre & line & post & Hs & Hpre & Hl & Hf) | [_ Hf]]; [|congruence].
  exists pre, line, post. split; [|split; [|split; [|split]]].
  - rewrite <- Hs. symmetry. apply join_split_lines.
  - now apply (splice_heading _ _ _ h).
  - exact Hl.
  - exact Hpre.
  - rewrite Hf in Hfind. injection Hfind as <-. lia.
Qed.

Lemma rstrip_app_char (s : string) (c : ascii) :
  Py.isspace c = false ->
  Py.rstrip (s +:+ String c EmptyString) = s +:+ String c EmptyString.
Proof.
  intros Hc. induction s as [|a s IH].
  - simpl. now rewrite Hc.
  - rewrite str_app_cons. simpl Py.rstrip. rewrite IH.
    destruct (s +:+ String c EmptyString) eqn:E; [|reflexivity].
    destruct s; discriminate.
Qed.

Lemma rstrip_app_space (s : string) (c : ascii) :
  Py.isspace c = true ->
  Py.rstrip (s +:+ String c EmptyString) = Py.rstrip s.
Proof.
  intros Hc. induction s as [|a s IH].
  - simpl. now rewrite Hc.
  - rewrite str_app_cons. simpl Py.rstrip. now rewrite IH.
Qed.

Lemma rstrip_tag_nl (s t : string) :
  Py.rstrip ((s +:+ t +:+ ")") +:+ nl) = s +:+ t +:+ ")".
Proof.
  unfold nl. rewrite rstrip_app_space by reflexivity.
  rewrite <- !str_app_assoc. now apply rstrip_app_char.
Qed.

End SpliceFacts.

Section MarkdownMore.
Context {P : Platform}.

Lemma md_tag_closes (kw : kwargs) (data : bytes) :
  exists t, md_tag kw data = t +:+ ")".
Proof.
  unfold md_tag, embedded_tag, reference_tag.
  destruct (default true (kw_embed kw)).
  - eexists. rewrite <- !str_app_assoc. reflexivity.
  - eexists. rewrite <- !str_app_assoc. reflexivity.
Qed.

(** X14. Appending twice accumulates: appending a second reference to
    the content produced by appending a first one gives the document
    without its trailing whitespace, then each reference preceded by one
    empty line, then a newline. *)
Theorem splice_append_twice
    (existing : string) (kw1 kw2 : kwargs) (data1 data2 : bytes) :
  splice (splice existing None (md_tag kw1 data1)) None (md_tag kw2 data2) =
  Py.rstrip existing +:+ nl +:+ nl +:+ md_tag kw1 data1 +:+ nl +:+ nl +:+
  md_tag kw2 data2 +:+ nl.
Proof.
  rewrite !splice_no_hint by reflexivity. unfold appended.
  destruct (md_tag_closes kw1 data1) as (t & ->).
  replace (Py.rstrip existing +:+ nl +:+ nl +:+ (t +:+ ")") +:+ nl)
    with (((Py.rstrip existing +:+ nl +:+ nl) +:+ t +:+ ")") +:+ nl)
    by now rewrite !str_app_assoc.
  rewrite rstrip_tag_nl. now rewrite !str_app_assoc.
Qed.

Lemma tag_step_reference (kw : kwargs) (data : bytes) (target_path : string) :
  kw_embed kw = Some false ->
  kw_target_path kw = Some target_path ->
  target_path <> EmptyString ->
  let mime_type := default "image/png" (kw_mime_type kw) in
  let full_image_dir :=
    Py.path_join (Py.dirname target_path) (default "images" (kw_image_dir kw)) in
  tag_step kw data =
  (let* _ :=
     (let* _ := os_makedirs full_image_dir in
      open_write (Py.path_join full_image_dir (reference_filename mime_type kw))
        data) in
   ret (reference_tag (default "image" (kw_alt_text kw)) mime_type kw)).
Proof.
  intros Hembed Htp Hne. unfold tag_step. rewrite Hembed, Htp.
  destruct target_path as [|c tp]; [congruence|]. reflexivity.
Qed.

(** X15. The file reference mode with a [_target_path]: the directory
    [image_dir] next to the target is created, the image bytes are
    written there under the file name, and the result holds the
    reference [![alt](image_dir/filename)]; when creating the directory
    fails, the error is raised and the image is not written. *)
Theorem markdown_reference_saves_image
    (img : addr) (fmt : string) (position : option position_hint)
    (size : option size_hint) (kw : kwargs) (st : state) (s : BytesIO)
    (target_path : string) :
  st_heap st !! img = Some s ->
  kw_embed kw = Some false ->
  kw_target_path kw = Some target_path ->
  target_path <> EmptyString ->
  let alt_text := default "image" (kw_alt_text kw) in
  let mime_type := default "image/png" (kw_mime_type kw) in
  let image_dir := default "images" (kw_image_dir kw) in
  let image_filename := reference_filename mime_type kw in
  let full_image_dir := Py.path_join (Py.dirname target_path) image_dir in
  let img_path := Py.path_join full_image_dir image_filename in
  let reference :=
    "![" +:+ alt_text +:+ "](" +:+ image_dir +:+ "/" +:+ image_filename +:+ ")" in
  (forall w1 w2,
     makedirs full_image_dir (st_world st) = (inr tt, w1) ->
     write_file img_path (buf s) w1 = (inr tt, w2) ->
     MarkdownWriter_insert_image img None fmt position size kw st =
     (inr (mkWriteResult (utf8_encode (reference +:+ nl)) ".md" 1
             (MarkdownMeta false alt_text)),
      mkState w2 (st_heap (rewound st img s)))) /\
  (forall err w1,
     makedirs full_image_dir (st_world st) = (inl err, w1) ->
     MarkdownWriter_insert_image img None fmt position size kw st =
     (inl err, mkState w1 (st_heap (rewound st img s)))).
Proof.
  intros Himg Hembed Htp Hne. cbv zeta.
  split.
  - intros w1 w2 Hmk Hwr. rewrite insert_image_steps.
    rewrite (read_all_run _ _ _ _ Himg).
    rewrite (tag_step_reference kw (buf s) target_path Hembed Htp Hne).
    unfold bind, os_makedirs, open_write, content_step, md_meta.
    change (st_world (rewound st img s)) with (st_world st).
    rewrite Hmk. simpl. rewrite Hwr. rewrite Hembed. reflexivity.
  - intros err w1 Hmk. rewrite insert_image_steps.
    rewrite (read_all_run _ _ _ _ Himg).
    rewrite (tag_step_reference kw (buf s) target_path Hembed Htp Hne).
    unfold bind, os_makedirs, open_write.
    change (st_world (rewound st img s)) with (st_world st).
    rewrite Hmk. reflexivity.
Qed.

End MarkdownMore.

Lemma splice_keeps_document_witness :
  exists pre line post,
    sample_document = Py.join nl (pre ++ line :: post) /\
    splice sample_document after_charts "![x](y)" =
    Py.join nl (pre ++ line :: EmptyString :: "![x](y)" :: post) /\
    heading_line "Charts" line = true /\
    Forall (fun x => heading_line "Charts" x = false) pre /\
    3 = length pre + 1.
Proof.
  apply (splice_keeps_document sample_document after_charts "![x](y)" "Charts" 3).
  - reflexivity.
  - reflexivity.
Defined.

Lemma markdown_reference_saves_image_witness :
  MarkdownWriter_insert_image 0 None ".md" None None reference_options
    (disk_state ∅ {[ 0 := mkBytesIO sample_image 0 ]}) =
  (inr (mkWriteResult (utf8_encode ("![image](images/image.png)" +:+ nl)) ".md" 1
          (MarkdownMeta false "image")),
   disk_state {[ "docs/images/image.png" := sample_image ]}
     {[ 0 := mkBytesIO sample_image 4 ]}).
Proof.
  assert (Himg : st_heap (disk_state ∅ {[ 0 := mkBytesIO sample_image 0 ]}) !! 0
                 = Some (mkBytesIO sample_image 0))
    by (vm_compute; reflexivity).
  assert (Hne : "docs/notes.md" <> EmptyString) by discriminate.
  rewrite (proj1 (markdown_reference_saves_image 0 ".md" None None
                    reference_options
                    (disk_state ∅ {[ 0 := mkBytesIO sample_image 0 ]})
                    (mkBytesIO sample_image 0) "docs/notes.md"
                    Himg eq_refl eq_refl Hne)
             ∅ {[ "docs/images/image.png" := sample_image ]}).
  - vm_compute. reflexivity.
  - reflexivity.
  - vm_compute. reflexivity.
Defined.

Section EmptyDocument.
Context {P : Platform}.

Lemma splice_empty (position : option position_hint) (tag : string) :
  splice EmptyString position tag = nl +:+ nl +:+ tag +:+ nl.
Proof.
  unfold splice. destruct (hint position after_heading) as [h|]; reflexivity.
Qed.

(** X22. An existing document that is empty is not the same as no
    document: with an empty document stream the content is two
    newlines, the reference and a newline, whatever the position hint,
    while without a document it is the reference and a newline. *)
Theorem markdown_empty_document
    (img d : addr) (fmt : string) (position : option position_hint)
    (size : option size_hint) (kw : kwargs) (st : state) (s sd : BytesIO) :
  st_heap st !! img = Some s ->
  st_heap st !! d = Some sd ->
  buf sd = [] ->
  utf8_decode [] = inr EmptyString ->
  default true (kw_embed kw) = true ->
  fst (MarkdownWriter_insert_image img (Some d) fmt position size kw st) =
  inr (mkWriteResult (utf8_encode (nl +:+ nl +:+ md_tag kw (buf s) +:+ nl))
         ".md" 1 (md_meta kw)) /\
  fst (MarkdownWriter_insert_image img None fmt position size kw st) =
  inr (mkWriteResult (utf8_encode (md_tag kw (buf s) +:+ nl)) ".md" 1
         (md_meta kw)).
Proof.
  intros Himg Hd Hempty Hdec Hembed.
  destruct (rewound_lookup st img d s sd Himg Hd) as (sd' & Hd' & Hbuf).
  split.
  - rewrite insert_image_steps.
    rewrite (read_all_run _ _ _ _ Himg). unfold bind at 1.
    rewrite (tag_step_embed _ _ _ Hembed). unfold bind at 1.
    unfold content_step. rewrite (read_all_run _ _ _ _ Hd').
    unfold bind. rewrite Hbuf, Hempty, Hdec. simpl.
    now rewrite splice_empty.
  - rewrite insert_image_steps.
    rewrite (read_all_run _ _ _ _ Himg). unfold bind at 1.
    rewrite (tag_step_embed _ _ _ Hembed). reflexivity.
Qed.

End EmptyDocument.

Lemma markdown_empty_document_witness :
  fst (MarkdownWriter_insert_image 0 (Some 1) ".md" after_charts None no_kwargs
         (office_state [])) =
  inr (mkWriteResult
         (utf8_encode (nl +:+ nl +:+ md_tag no_kwargs sample_image +:+ nl))
         ".md" 1 (MarkdownMeta true "image")).
Proof.
  assert (Himg : st_heap (office_state []) !! 0 = Some (mkBytesIO sample_image 0))
    by (vm_compute; reflexivity).
  assert (Hd : st_heap (office_state []) !! 1 = Some (mkBytesIO [] 0))
    by (vm_compute; reflexivity).
  exact (proj1 (markdown_empty_document 0 1 ".md" after_charts None no_kwargs
                  (office_state []) _ _ Himg Hd eq_refl eq_refl eq_refl)).
Defined.

(* ================================================================== *)
(** * More on the library-backed writers *)
(* ================================================================== *)

Section DocxMore.
Context {P : Platform} {D : DocxBackend}.

Lemma find_text_first (t : string) (pre : list string) (x : string)
    (post : list string) (i : nat) :
  Forall (fun y => Py.contains y t = false) pre ->
  Py.contains x t = true ->
  find_text t (pre ++ x :: post) i = Some (i + length pre).
Proof.
  intros Hpre Hx. revert i.
  induction Hpre as [|y pre Hy Hpre IH]; intros i; simpl.
  - rewrite Hx. f_equal. lia.
  - rewrite Hy, IH. f_equal. lia.
Qed.

Lemma find_text_none (t : string) (texts : list string) (i : nat) :
  Forall (fun y => Py.contains y t = false) texts ->
  find_text t texts i = None.
Proof.
  intros H. revert i. induction H as [|y l Hy Hl IH]; intros i; simpl.
  - reflexivity.
  - now rewrite Hy.
Qed.

(** the writer, once the library is there and the document is loaded:
    it reads the image and makes one library call *)
Lemma docx_run (img : addr) (ds : option addr) (fmt : string)
    (position : option position_hint) (size : option size_hint) (kw : kwargs)
    (st st1 : state) (s : BytesIO) (doc : Document) :
  docx_available = true ->
  docx_load ds st = (inr doc, st1) ->
  st_heap st1 !! img = Some s ->
  DocxWriter_insert_image img ds fmt position size kw st =
  (on_success (docx_result size)
     (docx_place doc position (buf s) (fst (sizing size 6)) (snd (sizing size 6))),
   rewound st1 img s).
Proof.
  intros Hav Hload Himg.
  unfold DocxWriter_insert_image. rewrite Hav.
  change (negb true) with false. cbv beta iota.
  unfold bind at 1. rewrite Hload.
  destruct (sizing size 6) as [w h]. simpl fst. simpl snd.
  unfold docx_place.
  assert (Hrun : forall (call : bytes -> exn + Document),
    (let* _ := seek img 0 in
     let* doc0 := (let* image := image_of img in lift (call image)) in
     ret (mkWriteResult (Document_save doc0) ".docx" 1 (DocxMeta (size_or size 6))))
      st1 =
    (on_success (docx_result size) (call (buf s)), rewound st1 img s)).
  { intros call. unfold bind, image_of. rewrite (seek_run st1 img s 0 Himg).
    erewrite read_run by (simpl; apply lookup_insert_eq).
    simpl. rewrite drop_0. unfold rewound. rewrite insert_insert_eq.
    destruct (call (buf s)); reflexivity. }
  destruct (hint position paragraph) as [para_idx|].
  - destruct ((0 <=? para_idx) && (para_idx <? _))%Z.
    + apply (Hrun (fun image => add_picture_after doc (Z.to_nat para_idx) image w h)).
    + apply (Hrun (fun image => doc_add_picture doc image w h)).
  - destruct (hint position after_text) as [search_text|].
    + destruct (find_text search_text (paragraphs doc) 0) as [i|].
      * apply (Hrun (fun image => add_picture_after doc i image w h)).
      * apply (Hrun (fun image => doc_add_picture doc image w h)).
    + apply (Hrun (fun image => doc_add_picture doc image w h)).
Qed.

(** X16. Where [DocxWriter.insert_image] puts the picture, with the
    library available, the document loaded and the image stream open:
    a [paragraph] index in range puts it after that paragraph, also when
    [after_text] is given too; with [after_text] only, it goes after the
    first paragraph whose text contains the search text, or at the end
    of the document when no paragraph does; with neither hint it goes
    at the end.  The outcome of the library call is the outcome of the
    writer. *)
Theorem docx_insertion_point
    (img : addr) (ds : option addr) (fmt : string)
    (position : option position_hint) (size : option size_hint) (kw : kwargs)
    (st st1 : state) (s : BytesIO) (doc : Document) :
  docx_available = true ->
  docx_load ds st = (inr doc, st1) ->
  st_heap st1 !! img = Some s ->
  let w := fst (sizing size 6) in
  let h := snd (sizing size 6) in
  exists call,
    DocxWriter_insert_image img ds fmt position size kw st =
    (on_success (docx_result size) call, rewound st1 img s) /\
    (forall N,
       hint position paragraph = Some N ->
       (0 <= N < Z.of_nat (length (paragraphs doc)))%Z ->
       call = add_picture_after doc (Z.to_nat N) (buf s) w h) /\
    (forall t pre x post,
       hint position paragraph = None ->
       hint position after_text = Some t ->
       paragraphs doc = (pre ++ x :: post)%list ->
       Forall (fun y => Py.contains y t = false) pre ->
       Py.contains x t = true ->
       call = add_picture_after doc (length pre) (buf s) w h) /\
    (forall t,
       hint position paragraph = None ->
       hint position after_text = Some t ->
       Forall (fun y => Py.contains y t = false) (paragraphs doc) ->
       call = doc_add_picture doc (buf s) w h) /\
    (hint position paragraph = None ->
     hint position after_text = None ->
     call = doc_add_picture doc (buf s) w h).
Proof.
  intros Hav Hload Himg w h.
  exists (docx_place doc position (buf s) w h).
  split; [now apply docx_run|]. unfold docx_place. repeat split.
  - intros N -> Hr.
    assert (Hin : ((0 <=? N) && (N <? Z.of_nat (length (paragraphs doc))))%Z
                  = true) by lia.
    now rewrite Hin.
  - intros t pre x post -> -> Hs Hpre Hx. rewrite Hs.
    now rewrite (find_text_first t pre x post 0 Hpre Hx).
  - intros t -> -> Hall. now rewrite (find_text_none t _ 0 Hall).
  - intros -> ->. reflexivity.
Qed.

End DocxMore.

Section PptxMore.
Context {P : Platform} {B : PptxBackend}.

(** X17. With the library available, the presentation loaded and the
    image stream open, a [slide] number between 1 and the number of
    slides makes [PptxWriter.insert_image] put the picture on that
    slide of the presentation, at [left]/[top] (one inch each unless
    given): no slide is added, and the slide count of the metadata is
    the one of the presentation that the library returns. *)
Theorem pptx_existing_slide
    (img : addr) (ds : option addr) (fmt : string)
    (position : option position_hint) (size : option size_hint) (kw : kwargs)
    (st st1 : state) (s : BytesIO) (prs : Presentation) (N : Z) :
  pptx_available = true ->
  pptx_load ds st = (inr prs, st1) ->
  st_heap st1 !! img = Some s ->
  hint position slide = Some N ->
  (1 <= N <= Z.of_nat (length (slides prs)))%Z ->
  exists target,
    nth_error (slides prs) (Z.to_nat (N - 1)) = Some target /\
    PptxWriter_insert_image img ds fmt position size kw st =
    (on_success (pptx_result size)
       (add_picture prs target (buf s)
          (Inches (default 1%Q (hint position left)))
          (Inches (default 1%Q (hint position top)))
          (fst (sizing size 8)) (snd (sizing size 8))),
     rewound st1 img s).
Proof.
  intros Hav Hload Himg Hhint Hr.
  destruct (nth_error (slides prs) (Z.to_nat (N - 1))) as [target|] eqn:Hnth.
  2: { apply nth_error_None in Hnth. lia. }
  exists target. split; [reflexivity|].
  unfold PptxWriter_insert_image. rewrite Hav.
  change (negb true) with false. cbv beta iota.
  unfold bind at 1. rewrite Hload.
  assert (Hex : existing_slide prs position = Some target).
  { unfold existing_slide. rewrite Hhint.
    assert (Hin : ((1 <=? N) && (N <=? Z.of_nat (length (slides prs))))%Z = true)
      by lia.
    now rewrite Hin. }
  rewrite Hex. unfold bind at 1. unfold ret at 1.
  destruct (sizing size 8) as [w h]. simpl fst. simpl snd.
  unfold bind, image_of. rewrite (seek_run st1 img s 0 Himg).
  erewrite read_run by (simpl; apply lookup_insert_eq).
  simpl. rewrite drop_0. unfold rewound. rewrite insert_insert_eq.
  destruct (add_picture prs target (buf s) _ _ w h); reflexivity.
Qed.

End PptxMore.

Lemma docx_insertion_point_witness :
  fst (DocxWriter_insert_image 0 (Some 1) ".docx" (after_the_text "b") None
         no_kwargs (office_state sample_docx)) =
  inr (docx_result None
         [Ref.Para "a"; Ref.Para "b";
          Ref.Picture sample_image (Some (Inches 6)) None]) /\
  fst (DocxWriter_insert_image 0 (Some 1) ".docx" (at_paragraph 0) None
         no_kwargs (office_state sample_docx)) =
  inr (docx_result None
         [Ref.Para "a"; Ref.Picture sample_image (Some (Inches 6)) None;
          Ref.Para "b"]).
Proof.
  assert (Hload : docx_load (Some 1) (office_state sample_docx) =
                  (inr [Ref.Para "a"; Ref.Para "b"],
                   rewound (office_state sample_docx) 1 (mkBytesIO sample_docx 0)))
    by (vm_compute; reflexivity).
  assert (Himg : st_heap (rewound (office_state sample_docx) 1
                            (mkBytesIO sample_docx 0)) !! 0
                 = Some (mkBytesIO sample_image 0))
    by (vm_compute; reflexivity).
  split.
  - destruct (docx_insertion_point (D := Ref.docx) 0 (Some 1) ".docx"
                (after_the_text "b") None no_kwargs _ _ _ _ eq_refl Hload Himg)
      as (call & Hrun & _ & Hfirst & _).
    rewrite Hrun.
    rewrite (Hfirst "b" [ "a" ] "b" [] eq_refl eq_refl eq_refl);
      [reflexivity | repeat constructor | reflexivity].
  - destruct (docx_insertion_point (D := Ref.docx) 0 (Some 1) ".docx"
                (at_paragraph 0) None no_kwargs _ _ _ _ eq_refl Hload Himg)
      as (call & Hrun & Hpara & _).
    rewrite Hrun. rewrite (Hpara 0%Z eq_refl); [reflexivity|]. simpl. lia.
Defined.

Lemma pptx_existing_slide_witness :
  fst (PptxWriter_insert_image 0 (Some 1) ".pptx" (on_slide 2) None no_kwargs
         (office_state sample_pptx)) =
  inr (mkWriteResult [x50; x4b; x0b; x02] ".pptx" 1
         (PptxMeta 2 (mkSize (Some 8%Q) None))).
Proof.
  assert (Hload : pptx_load (Some 1) (office_state sample_pptx) =
                  (inr (Ref.mkPresentation Ref.default_layouts
                          [Ref.mkSlide 0 "Title Slide" [];
                           Ref.mkSlide 1 "Title Slide" []]),
                   rewound (office_state sample_pptx) 1 (mkBytesIO sample_pptx 0)))
    by (vm_compute; reflexivity).
  assert (Himg : st_heap (rewound (office_state sample_pptx) 1
                            (mkBytesIO sample_pptx 0)) !! 0
                 = Some (mkBytesIO sample_image 0))
    by (vm_compute; reflexivity).
  destruct (pptx_existing_slide (B := Ref.pptx) 0 (Some 1) ".pptx" (on_slide 2)
              None no_kwargs _ _ _ _ 2%Z eq_refl Hload Himg eq_refl)
    as (target & Hnth & Hrun).
  - simpl. lia.
  - rewrite Hrun. injection Hnth as <-. reflexivity.
Defined.

(* ================================================================== *)
(** * [paste], end to end *)
(* ================================================================== *)

Section PasteRuns.
Context {P : Platform}.

Lemma md_embed_run_none (img : addr) (fmt : string)
    (position : option position_hint) (size : option size_hint) (kw : kwargs)
    (st : state) (s : BytesIO) :
  st_heap st !! img = Some s ->
  default true (kw_embed kw) = true ->
  MarkdownWriter_insert_image img None fmt position size kw st =
  (inr (mkWriteResult (utf8_encode (md_tag kw (buf s) +:+ nl)) ".md" 1
          (md_meta kw)),
   rewound st img s).
Proof.
  intros Himg Hembed. rewrite insert_image_steps.
  rewrite (read_all_run _ _ _ _ Himg). unfold bind at 1.
  rewrite (tag_step_embed _ _ _ Hembed). reflexivity.
Qed.

Lemma md_embed_run_some (img d : addr) (fmt : string)
    (position : option position_hint) (size : option size_hint) (kw : kwargs)
    (st : state) (s sd : BytesIO) (body : string) :
  st_heap st !! img = Some s ->
  default true (kw_embed kw) = true ->
  st_heap (rewound st img s) !! d = Some sd ->
  utf8_decode (buf sd) = inr body ->
  MarkdownWriter_insert_image img (Some d) fmt position size kw st =
  (inr (mkWriteResult
          (utf8_encode (splice body position (md_tag kw (buf s)))) ".md" 1
          (md_meta kw)),
   rewound (rewound st img s) d sd).
Proof.
  intros Himg Hembed Hd Hdec. rewrite insert_image_steps.
  rewrite (read_all_run _ _ _ _ Himg). unfold bind at 1.
  rewrite (tag_step_embed _ _ _ Hembed). unfold bind at 1.
  unfold content_step. rewrite (read_all_run _ _ _ _ Hd).
  unfold bind. rewrite Hdec. reflexivity.
Qed.

Lemma resolve_bytes_run (data : bytes) (st : state) :
  _resolve_image (SrcBytes data) st =
  (inr (fresh (dom (st_heap st)), "image/png"),
   mkState (st_world st)
     (<[fresh (dom (st_heap st)) := mkBytesIO data 0]> (st_heap st))).
Proof. reflexivity. Qed.

Lemma paste_found (self : MarkItWrite) (src : image_source)
    (t e : option string) (position : option position_hint)
    (size : option size_hint) (kw : kwargs) (w : DocumentWriter) :
  _find_writer self (_resolve_target_format t e) = inr w ->
  paste self src t e position size kw =
  (let fmt := _resolve_target_format t e in
   let* (image_stream, mime_type) := _resolve_image src in
   let kw := setdefault_mime_type kw mime_type in
   let* document_stream :=
     if Py.truthy t then
       let path := default EmptyString t in
       let* present := os_isfile path in
       if present then
         let* data := open_read path in
         let* s := new_BytesIO data in
         ret (Some s)
       else ret None
     else ret None in
   let* result :=
     insert_image w image_stream document_stream fmt position size kw in
   let* _ :=
     if Py.truthy t then save result (default EmptyString t)
     else ret tt in
   ret result).
Proof. intros H. unfold paste. now rewrite H. Qed.

Context {D : DocxBackend} {B : PptxBackend}.

Lemma find_writer_builtins (f : string) :
  _find_writer builtins f =
  if String.eqb (normalized_format f) ".docx" then inr DocxWriter
  else if String.eqb (normalized_format f) ".pptx" then inr PptxWriter
  else if str_in (normalized_format f) [".md"; ".markdown"; ".mdown"; ".mkd"]
       then inr MarkdownWriter
       else inl (ValueError (no_writer_message builtins f)).
Proof.
  unfold _find_writer.
  change (sorted_by priority (_writers builtins))
    with [mkRegistration DocxWriter 0; mkRegistration PptxWriter 0;
          mkRegistration MarkdownWriter 0].
  simpl find. rewrite !accepts_unfold. simpl ACCEPTED_EXTENSIONS.
  unfold str_in at 1 2. simpl existsb. rewrite !orb_false_r.
  destruct (String.eqb (normalized_format f) ".docx"); [reflexivity|].
  destruct (String.eqb (normalized_format f) ".pptx"); [reflexivity|].
  now destruct (str_in (normalized_format f) _).
Qed.

Lemma find_writer_builtins_md (t e : option string) :
  str_in (_resolve_target_format t e) [".md"; ".markdown"; ".mdown"; ".mkd"]
  = true ->
  _find_writer builtins (_resolve_target_format t e) = inr MarkdownWriter.
Proof.
  intros Hmd. rewrite find_writer_builtins.
  destruct (resolve_target_format_shape t e) as [Hl Hd].
  rewrite (normalized_format_fixed _ Hl Hd).
  set (r := _resolve_target_format t e) in *.
  destruct (String.eqb r ".docx") eqn:E1.
  { apply String.eqb_eq in E1. rewrite E1 in Hmd. discriminate. }
  destruct (String.eqb r ".pptx") eqn:E2.
  { apply String.eqb_eq in E2. rewrite E2 in Hmd. discriminate. }
  now rewrite Hmd.
Qed.

End PasteRuns.

Section PasteMarkdown.
Context {P : Platform} {D : DocxBackend} {B : PptxBackend}.

Lemma md_tag_setdefault (kw : kwargs) (mime : string) (data : bytes) :
  default true (kw_embed kw) = true ->
  md_tag (setdefault_mime_type kw mime) data =
  embedded_tag (default "image" (kw_alt_text kw))
    (default mime (kw_mime_type kw)) data /\
  md_meta (setdefault_mime_type kw mime) =
  MarkdownMeta true (default "image" (kw_alt_text kw)) /\
  default true (kw_embed (setdefault_mime_type kw mime)) = true.
Proof.
  intros He. unfold md_tag, md_meta, setdefault_mime_type.
  destruct (kw_mime_type kw) as [m|] eqn:Hm; simpl; rewrite ?Hm, He; auto.
Qed.

(** the run of [paste] once the image is in a new stream, for the
    Markdown writer in the embedded mode, without a target *)
Lemma paste_md_no_target (t e : option string)
    (position : option position_hint) (size : option size_hint) (kw : kwargs)
    (src : image_source) (st : state) (data : bytes) (mime : string) :
  Py.truthy t = false ->
  str_in (_resolve_target_format t e) [".md"; ".markdown"; ".mdown"; ".mkd"]
  = true ->
  default true (kw_embed kw) = true ->
  _resolve_image src st =
  (inr (fresh (dom (st_heap st)), mime),
   mkState (st_world st)
     (<[fresh (dom (st_heap st)) := mkBytesIO data 0]> (st_heap st))) ->
  paste builtins src t e position size kw st =
  (inr (mkWriteResult
          (utf8_encode
             (embedded_tag (default "image" (kw_alt_text kw))
                (default mime (kw_mime_type kw)) data +:+ nl))
          ".md" 1 (MarkdownMeta true (default "image" (kw_alt_text kw)))),
   mkState (st_world st)
     (<[fresh (dom (st_heap st)) := mkBytesIO data (length data)]> (st_heap st))).
Proof.
  intros Ht Hmd He Himg.
  rewrite (paste_found _ _ _ _ _ _ _ _ (find_writer_builtins_md t e Hmd)).
  cbv zeta. unfold bind at 1. rewrite Himg. rewrite Ht.
  unfold bind at 1. unfold ret at 1.
  unfold bind at 1. simpl insert_image.
  destruct (md_tag_setdefault kw mime data He) as (Htag & Hmeta & He').
  erewrite md_embed_run_none; [|simpl; apply lookup_insert_eq | exact He'].
  simpl buf. rewrite Htag, Hmeta.
  unfold bind, ret, rewound. simpl. now rewrite insert_insert_eq.
Qed.

(** X18. Pasting into Markdown without a target path, image embedded:
    for raw bytes and for a readable image path, [paste] with the
    built-in writers returns the reference
    [![alt](data:mime;base64,...)] and a newline, where the type is the
    [mime_type] option when the caller gives one, else the type guessed
    from the path ([image/png] for raw bytes or without a guess); no
    file is written and the only change is the new image stream. *)
Theorem paste_markdown_embedded (t e : option string)
    (position : option position_hint) (size : option size_hint) (kw : kwargs)
    (st : state) :
  Py.truthy t = false ->
  str_in (_resolve_target_format t e) [".md"; ".markdown"; ".mdown"; ".mkd"]
  = true ->
  default true (kw_embed kw) = true ->
  let l := fresh (dom (st_heap st)) in
  let alt := default "image" (kw_alt_text kw) in
  let result mime data :=
    mkWriteResult
      (utf8_encode
         (("![" +:+ alt +:+ "](data:" +:+ default mime (kw_mime_type kw) +:+
           ";base64," +:+ Base64.b64encode data +:+ ")") +:+ nl))
      ".md" 1 (MarkdownMeta true alt) in
  let final data :=
    mkState (st_world st) (<[l := mkBytesIO data (length data)]> (st_heap st)) in
  (forall data,
     paste builtins (SrcBytes data) t e position size kw st =
     (inr (result "image/png" data), final data)) /\
  (forall path data,
     read_file path (st_world st) = inr data ->
     paste builtins (SrcPath path) t e position size kw st =
     (inr (result (Py.or_else (guess_type path) "image/png") data), final data)).
Proof.
  intros Ht Hmd He. cbv zeta. split.
  - intros data.
    now apply (paste_md_no_target t e position size kw (SrcBytes data) st data).
  - intros path data Hread.
    apply (paste_md_no_target t e position size kw (SrcPath path) st data);
      try assumption.
    unfold _resolve_image, bind, open_read. now rewrite Hread.
Qed.

End PasteMarkdown.

Lemma paste_markdown_embedded_witness :
  paste builtins (SrcBytes sample_image) None (Some "MD") None None no_kwargs
    Ref.empty_state =
  (inr (mkWriteResult
          (utf8_encode ("![image](data:image/png;base64,iVBORw==)" +:+ nl))
          ".md" 1 (MarkdownMeta true "image")),
   disk_state ∅ {[ 0 := mkBytesIO sample_image 4 ]}).
Proof.
  rewrite (proj1 (paste_markdown_embedded None (Some "MD") None None no_kwargs
                    Ref.empty_state eq_refl eq_refl eq_refl) sample_image).
  vm_compute. reflexivity.
Defined.

Section PasteTarget.
Context {P : Platform} {D : DocxBackend} {B : PptxBackend}.

(** X19. Pasting raw image bytes into a Markdown target path, image
    embedded.  When the target is not an existing file, the content is
    the reference and a newline; when it is, the file is read and the
    content is the existing text with the reference spliced in (after
    the heading of the hint, else appended).  In both cases the content
    is then written to the target path, and [paste] returns it. *)
Theorem paste_markdown_target (p : string) (e : option string)
    (position : option position_hint) (size : option size_hint) (kw : kwargs)
    (st : state) (data : bytes) (w' : world) :
  p <> EmptyString ->
  str_in (_resolve_target_format (Some p) e)
    [".md"; ".markdown"; ".mdown"; ".mkd"] = true ->
  default true (kw_embed kw) = true ->
  let alt := default "image" (kw_alt_text kw) in
  let tag := embedded_tag alt (default "image/png" (kw_mime_type kw)) data in
  let result content :=
    mkWriteResult (utf8_encode content) ".md" 1 (MarkdownMeta true alt) in
  (isfile p (st_world st) = false ->
   write_file p (utf8_encode (tag +:+ nl)) (st_world st) = (inr tt, w') ->
   exists st',
     paste builtins (SrcBytes data) (Some p) e position size kw st =
     (inr (result (tag +:+ nl)), st') /\ st_world st' = w') /\
  (forall old body,
     isfile p (st_world st) = true ->
     read_file p (st_world st) = inr old ->
     utf8_decode old = inr body ->
     write_file p (utf8_encode (splice body position tag)) (st_world st)
     = (inr tt, w') ->
     exists st',
       paste builtins (SrcBytes data) (Some p) e position size kw st =
       (inr (result (splice body position tag)), st') /\ st_world st' = w').
Proof.
  intros Hp Hmd He. cbv zeta.
  assert (Ht : Py.truthy (Some p) = true) by (destruct p; [congruence | reflexivity]).
  destruct (md_tag_setdefault kw "image/png" data He) as (Htag & Hmeta & He').
  split.
  - intros Hnew Hwrite.
    rewrite (paste_found _ _ _ _ _ _ _ _ (find_writer_builtins_md (Some p) e Hmd)).
    cbv zeta. unfold bind at 1.
    rewrite resolve_bytes_run.
    cbv beta iota. rewrite Ht. simpl default.
    unfold bind at 1. unfold bind at 1. unfold os_isfile at 1.
    cbn [st_world st_heap]. rewrite Hnew. unfold ret at 1.
    unfold bind at 1. simpl insert_image.
    erewrite md_embed_run_none; [|simpl; apply lookup_insert_eq | exact He'].
    simpl buf. rewrite Htag, Hmeta.
    unfold bind, save, open_write, ret. simpl. rewrite Hwrite.
    eexists. split; reflexivity.
  - intros old body Hold Hread Hdec Hwrite.
    rewrite (paste_found _ _ _ _ _ _ _ _ (find_writer_builtins_md (Some p) e Hmd)).
    cbv zeta. unfold bind at 1.
    rewrite resolve_bytes_run.
    cbv beta iota. rewrite Ht. simpl default.
    set (l1 := fresh (dom (st_heap st))).
    set (h1 := <[l1 := mkBytesIO data 0]> (st_heap st)).
    unfold bind at 1. unfold bind at 1. unfold os_isfile at 1.
    cbn [st_world st_heap]. rewrite Hold.
    unfold bind at 1. unfold open_read at 1. cbn [st_world st_heap]. rewrite Hread.
    unfold bind at 1. unfold new_BytesIO at 1. cbn [st_world st_heap].
    unfold ret at 1.
    set (l2 := fresh (dom h1)).
    assert (Hl2 : h1 !! l2 = None) by (apply not_elem_of_dom, is_fresh).
    assert (Hne : l1 <> l2).
    { intros E. rewrite <- E in Hl2. unfold h1 in Hl2.
      rewrite lookup_insert_eq in Hl2. discriminate. }
    unfold bind at 1. simpl insert_image.
    erewrite (md_embed_run_some l1 l2 _ _ _ _ _ (mkBytesIO data 0)
                (mkBytesIO old 0) body); [| | exact He' | | exact Hdec].
    + simpl buf. rewrite Htag, Hmeta.
      unfold bind, save, open_write, ret. simpl. rewrite Hwrite.
      eexists. split; reflexivity.
    + simpl. rewrite lookup_insert_ne by congruence.
      unfold h1. apply lookup_insert_eq.
    + unfold rewound. simpl. rewrite lookup_insert_ne by exact Hne.
      apply lookup_insert_eq.
Qed.

End PasteTarget.

Lemma paste_markdown_target_witness :
  exists st',
    paste builtins (SrcBytes sample_image) (Some "notes.md") None None None
      no_kwargs (disk_state {[ "notes.md" := Ref.encode ("# T" +:+ nl) ]} ∅) =
    (inr (mkWriteResult
            (utf8_encode
               ("# T" +:+ nl +:+ nl +:+
                "![image](data:image/png;base64,iVBORw==)" +:+ nl))
            ".md" 1 (MarkdownMeta true "image")), st') /\
    st_world st' =
    ({[ "notes.md" :=
          Ref.encode ("# T" +:+ nl +:+ nl +:+
                      "![image](data:image/png;base64,iVBORw==)" +:+ nl) ]}
     : gmap string bytes).
Proof.
  assert (Hne : "notes.md" <> EmptyString) by discriminate.
  apply (proj2 (paste_markdown_target "notes.md" None None None no_kwargs
                  (disk_state {[ "notes.md" := Ref.encode ("# T" +:+ nl) ]} ∅)
                  sample_image _ Hne eq_refl eq_refl)
           (Ref.encode ("# T" +:+ nl)) ("# T" +:+ nl)).
  - vm_compute. reflexivity.
  - vm_compute. reflexivity.
  - vm_compute. reflexivity.
  - vm_compute. reflexivity.
Defined.

Section PasteMissingLibrary.
Context {P : Platform} {D : DocxBackend} {B : PptxBackend}.


End PasteMissingLibrary.


Section PasteWritesLast.
Context {P : Platform} {D : DocxBackend} {B : PptxBackend}.

Lemma keeps_world_at {A} (m : M A) (st st' : state) (x : exn + A) :
  keeps_world m -> m st = (x, st') -> st_world st' = st_world st.
Proof. intros H E. specialize (H st). now rewrite E in H. Qed.

Lemma resolve_image_keeps_world (src : image_source) :
  keeps_world (_resolve_image src).
Proof. unfold _resolve_image. destruct src; frame. Qed.

Lemma builtin_writer_keeps_world (w : DocumentWriter) (img : addr)
    (ds : option addr) (fmt : string) (position : option position_hint)
    (size : option size_hint) (kw : kwargs) :
  In w [DocxWriter; PptxWriter; MarkdownWriter] ->
  default true (kw_embed kw) = true \/ Py.truthy (kw_target_path kw) = false ->
  keeps_world (insert_image w img ds fmt position size kw).
Proof.
  intros [<- | [<- | [<- | []]]] Hmode; simpl.
  - apply office_writers_frame_docx.
  - apply office_writers_frame_pptx.
  - now apply markdown_keeps_world.
Qed.

Lemma find_writer_builtins_In (f : string) (w : DocumentWriter) :
  _find_writer builtins f = inr w ->
  In w [DocxWriter; PptxWriter; MarkdownWriter].
Proof.
  rewrite find_writer_builtins.
  destruct (String.eqb _ ".docx"); [intros [= <-]; simpl; auto|].
  destruct (String.eqb _ ".pptx"); [intros [= <-]; simpl; auto|].
  destruct (str_in _ _); [intros [= <-]; simpl; auto | discriminate].
Qed.

(** X21. With the built-in writers (image embedded, or no
    [_target_path] option), [paste] touches the file system at most
    once, at its very end: everything up to the result leaves the file
    system as it was, so a paste that fails before the end has written
    nothing; with a target path the only write is the one of the
    result's bytes to that path, and a failure of this write is the
    failure of [paste]. *)
Theorem paste_writes_last
    (src : image_source) (t e : option string)
    (position : option position_hint) (size : option size_hint) (kw : kwargs)
    (st : state) :
  default true (kw_embed kw) = true \/ Py.truthy (kw_target_path kw) = false ->
  exists out st1,
    st_world st1 = st_world st /\
    paste builtins src t e position size kw st =
    match out with
    | inl err => (inl err, st1)
    | inr r =>
        if Py.truthy t then
          let '(written, w') :=
            write_file (default EmptyString t) (output r) (st_world st) in
          (on_success (fun _ => r) written, mkState w' (st_heap st1))
        else (inr r, st1)
    end.
Proof.
  intros Hmode. unfold paste.
  destruct (_find_writer builtins (_resolve_target_format t e)) as [err|w] eqn:F.
  { exists (inl err), st. split; reflexivity. }
  apply find_writer_builtins_In in F.
  unfold bind at 1. simpl lift. unfold ret at 1.
  unfold bind at 1.
  destruct (_resolve_image src st) as [[err|[l mime]] s1] eqn:R.
  { exists (inl err), s1. split; [|reflexivity].
    apply (keeps_world_at _ _ _ _ (resolve_image_keeps_world src) R). }
  assert (H1 : st_world s1 = st_world st)
    by apply (keeps_world_at _ _ _ _ (resolve_image_keeps_world src) R).
  unfold bind at 1.
  match goal with
  | |- context [let (_, _) := ?m s1 in _] =>
      assert (Hk : keeps_world m) by frame;
      destruct (m s1) as [[err|ds] s2] eqn:Dc
  end.
  { exists (inl err), s2. split; [|reflexivity].
    rewrite <- H1. apply (keeps_world_at _ _ _ _ Hk Dc). }
  assert (H2 : st_world s2 = st_world st)
    by (rewrite <- H1; apply (keeps_world_at _ _ _ _ Hk Dc)).
  clear Hk Dc.
  unfold bind at 1.
  assert (Hmode' :
    default true (kw_embed (setdefault_mime_type kw mime)) = true \/
    Py.truthy (kw_target_path (setdefault_mime_type kw mime)) = false).
  { destruct (setdefault_keeps_options kw mime) as (-> & -> & _). exact Hmode. }
  pose proof (builtin_writer_keeps_world w l ds (_resolve_target_format t e)
                position size _ F Hmode') as Hw.
  destruct (insert_image w l ds (_resolve_target_format t e) position size
              (setdefault_mime_type kw mime) s2) as [[err|r] s3] eqn:Ins.
  { exists (inl err), s3. split; [|reflexivity].
    rewrite <- H2. apply (keeps_world_at _ _ _ _ Hw Ins). }
  assert (H3 : st_world s3 = st_world st)
    by (rewrite <- H2; apply (keeps_world_at _ _ _ _ Hw Ins)).
  exists (inr r), s3. split; [exact H3|].
  destruct (Py.truthy t).
  - unfold bind, save, open_write. rewrite H3.
    destruct (write_file (default EmptyString t) (output r) (st_world st))
      as [[err|[]] w']; reflexivity.
  - reflexivity.
Qed.

End PasteWritesLast.

Lemma paste_writes_last_witness :
  exists out st1,
    st_world st1 = st_world Ref.empty_state /\
    paste builtins (SrcPath "missing.png") (Some "notes.md") None None None
      no_kwargs Ref.empty_state =
    match out with
    | inl err => (inl err, st1)
    | inr r =>
        if Py.truthy (Some "notes.md") then
          let '(written, w') :=
            write_file (default EmptyString (Some "notes.md")) (output r)
              (st_world Ref.empty_state) in
          (on_success (fun _ => r) written, mkState w' (st_heap st1))
        else (inr r, st1)
    end.
Proof.
  apply (paste_writes_last (SrcPath "missing.png") (Some "notes.md") None None
           None no_kwargs Ref.empty_state).
  left. reflexivity.
Defined.
